(** * Next-Authenrization: the auth-required gate, the Node response
      abstraction and the configuration validator

    A shallow embedding of three pieces of the library:

    - [Gate]: [withMiddlewareAuthRequiredFactory]
      (src/helpers/with-middleware-auth-required.ts);
    - [NodeResponse]: [NodeResponse.setCookie] and [NodeResponse.redirect];
    - [ConfigValidator]: [paramsSchema] and [get] of the configuration module.

    The properties follow the definitions: the modules [GateSpec],
    [NodeResponseSpec] and [ConfigSpec], then [GateCoverage],
    [EncodingCoverage], [NodeResponseCoverage] and [ConfigCoverage].

    JavaScript strings are modelled as byte strings (the UTF-8 encoding of
    the text); all the string operations used below ([startsWith],
    [includes], [split], [join], concatenation) commute with that encoding
    on well-formed text. *)

From Stdlib Require Import ZArith QArith Bool List Ascii String DecimalString Lia.
From stdpp Require Import base option list gmap strings.

Local Open Scope Z_scope.

(** ** JavaScript strings *)

Module JS.

Definition dquote : string := String (ascii_of_nat 34) EmptyString.

(** [s.startsWith(p)] *)
Definition startsWith (s p : string) : bool := String.prefix p s.

(** [s.includes(sub)] *)
Fixpoint includes (s sub : string) : bool :=
  startsWith s sub ||
  match s with
  | EmptyString => false
  | String _ s' => includes s' sub
  end.

Definition is_upper (c : ascii) : bool :=
  (65 <=? nat_of_ascii c)%nat && (nat_of_ascii c <=? 90)%nat.

Definition is_lower (c : ascii) : bool :=
  (97 <=? nat_of_ascii c)%nat && (nat_of_ascii c <=? 122)%nat.

Definition is_digit (c : ascii) : bool :=
  (48 <=? nat_of_ascii c)%nat && (nat_of_ascii c <=? 57)%nat.

Definition lower_char (c : ascii) : ascii :=
  if is_upper c then ascii_of_nat (nat_of_ascii c + 32) else c.

(** [s.toLowerCase()], on the ASCII letters. *)
Fixpoint toLowerCase (s : string) : string :=
  match s with
  | EmptyString => EmptyString
  | String c s' => String (lower_char c) (toLowerCase s')
  end.


(** [l.join(sep)] *)
Fixpoint join (sep : string) (l : list string) : string :=
  match l with
  | [] => EmptyString
  | [x] => x
  | x :: l' => x +:+ sep +:+ join sep l'
  end.

Definition cons_head (c : ascii) (l : list string) : list string :=
  match l with
  | [] => [String c EmptyString]
  | x :: l' => String c x :: l'
  end.

(** [s.split(sep)] for a non-empty separator: [skip] counts the characters
    of a separator occurrence that are still to be consumed. *)
Fixpoint split_from (sep : string) (skip : nat) (s : string) : list string :=
  match s with
  | EmptyString => [EmptyString]
  | String c s' =>
      match skip with
      | S k => split_from sep k s'
      | O =>
          if startsWith s sep
          then EmptyString :: split_from sep (String.length sep - 1) s'
          else cons_head c (split_from sep 0 s')
      end
  end.

Definition split (sep s : string) : list string := split_from sep 0 s.

(** Characters [encodeURIComponent] leaves alone:
    [A-Z a-z 0-9 - _ . ! ~ * ' ( )]. *)
Definition uri_unreserved (c : ascii) : bool :=
  is_upper c || is_lower c || is_digit c ||
  existsb (Ascii.eqb c) (list_ascii_of_string "-_.!~*'()").

Definition hex_digit (n : nat) : ascii :=
  if (n <? 10)%nat then ascii_of_nat (48 + n) else ascii_of_nat (55 + n).

Definition percent_encode (c : ascii) : string :=
  String "%" (String (hex_digit (nat_of_ascii c / 16))
             (String (hex_digit (nat_of_ascii c mod 16)) EmptyString)).

(** [encodeURIComponent(s)]: every byte of the UTF-8 text outside the
    unreserved set becomes [%XX]. *)
Fixpoint encodeURIComponent (s : string) : string :=
  match s with
  | EmptyString => EmptyString
  | String c s' =>
      (if uri_unreserved c then String c EmptyString else percent_encode c)
      +:+ encodeURIComponent s'
  end.

End JS.

(** ** The auth-required gate
    (src/helpers/with-middleware-auth-required.ts) *)

Module Gate.

(** *** The Fetch [Headers] class

    A header list: names are stored lower-cased, one entry per value, so a
    name such as [set-cookie] may occur several times. *)

Module Headers.

Definition t : Type := list (string * string).

Definition has_name (name : string) (e : string * string) : bool :=
  String.eqb (fst e) (JS.toLowerCase name).

(** The values stored under [name], in order. *)
Definition getAll (name : string) (h : t) : list string :=
  map snd (List.filter (has_name name) h).

(** [headers.get(name)]: [null] when the name is absent, otherwise the
    values joined by a comma and a space. *)
Definition get (name : string) (h : t) : option string :=
  match getAll name h with
  | [] => None
  | vs => Some (JS.join ", " vs)
  end.

Definition remove (name : string) (h : t) : t :=
  List.filter (fun e => negb (has_name name e)) h.

(** [headers.set(name, value)]: the first entry of that name takes the
    value and the others go; a new name is appended. *)
Fixpoint set (name value : string) (h : t) : t :=
  match h with
  | [] => [(JS.toLowerCase name, value)]
  | e :: h' =>
      if has_name name e
      then (JS.toLowerCase name, value) :: remove name h'
      else e :: set name value h'
  end.

(** [new Headers(init)] for an [init] that is itself a [Headers] object. *)
Definition new (init : t) : t := init.

End Headers.

(** [new URL(input, base)] *)
Record URL : Type := new_URL { url_input : string; url_base : string }.

(** [req.nextUrl] *)
Record NextURL : Type :=
  { pathname : string; origin : string; search : string }.

Record NextRequest : Type := { nextUrl : NextURL }.

Definition JsonObject : Type := list (string * string).

Record NextResponse : Type :=
  { status : Z; headers : Headers.t; body : option JsonObject }.

Record ResponseInit : Type :=
  { init_status : option Z; init_headers : option Headers.t }.

Definition no_init : ResponseInit :=
  {| init_status := None; init_headers := None |}.

Definition Claims : Type := list (string * string).

Record Session : Type :=
  { user : option Claims;
    idToken : option string;
    accessToken : option string }.

(** [session?.user] as a condition. *)
Definition session_user (session : option Session) : bool :=
  match session with
  | Some s => bool_decide (is_Some (user s))
  | None => false
  end.

(** The calls the gate makes to its collaborators, in order. *)
Inductive Call : Type :=
  | CallSessionGet (req : NextRequest)
  | CallMiddleware (req : NextRequest).

(** Computations that log their calls. *)
Definition M (A : Type) : Type := list Call -> A * list Call.

Definition ret {A : Type} (a : A) : M A := fun log => (a, log).

Definition bind {A B : Type} (m : M A) (k : A -> M B) : M B :=
  fun log => let '(a, log') := m log in k a log'.

Definition call {A : Type} (c : Call) (a : A) : M A :=
  fun log => (a, log ++ [c]).

Declare Scope gate_scope.
Delimit Scope gate_scope with gate.
Notation "x <- m ;; k" := (bind m (fun x => k))
  (at level 100, m at next level, k at level 200, right associativity) : gate_scope.

Section Factory.

(** The second argument of a middleware ([NextFetchEvent]). *)
Context {FetchEvent : Type}.

(** The serialisation of a URL object (the [Location] header takes the
    URL as a string). *)
Variable href : URL -> string.

(** [sessionCache.get(req, res)]: the session, if any, and the response
    object after the cache has written its cookies to it. *)
Record SessionCache : Type :=
  { sessionCache_get : NextRequest -> NextResponse -> option Session * NextResponse }.

Definition NextMiddleware : Type :=
  NextRequest -> FetchEvent -> option NextResponse.

(** [NextResponse.next(init)] *)
Definition NextResponse_next (init : ResponseInit) : NextResponse :=
  {| status := default 200 (init_status init);
     headers := Headers.set "x-middleware-next" "1"
                  (Headers.new (default [] (init_headers init)));
     body := None |}.

(** [NextResponse.json(body, init)] *)
Definition NextResponse_json (b : JsonObject) (init : ResponseInit) : NextResponse :=
  {| status := default 200 (init_status init);
     headers := Headers.set "content-type" "application/json"
                  (Headers.new (default [] (init_headers init)));
     body := Some b |}.

(** [NextResponse.redirect(url, init)]: without an explicit status the
    framework answers with a temporary redirect, 307. *)
Definition NextResponse_redirect (url : URL) (init : ResponseInit) : NextResponse :=
  {| status := default 307 (init_status init);
     headers := Headers.set "location" (href url)
                  (Headers.new (default [] (init_headers init)));
     body := None |}.

Definition not_authenticated : JsonObject :=
  [ ("error", "not_authenticated");
    ("description",
     "The user does not have an active session or is not authenticated") ].

(** [headers.get('set-cookie')?.split(', ') || []] *)
Definition split_cookies (h : Headers.t) : list string :=
  match Headers.get "set-cookie" h with
  | Some v => JS.split ", " v
  | None => []
  end.

Definition is_nil {A : Type} (l : list A) : bool :=
  match l with [] => true | _ => false end.

Local Open Scope gate_scope.

(** [withMiddlewareAuthRequiredFactory({ login, callback }, getSessionCache)
      (middleware)(req, event)] *)
Definition wrappedMiddleware
    (login callback : string) (getSessionCache : unit -> SessionCache)
    (middleware : option NextMiddleware)
    (req : NextRequest) (event : FetchEvent) : M (option NextResponse) :=
  let pathname := pathname (nextUrl req) in
  let origin := origin (nextUrl req) in
  let search := search (nextUrl req) in
  let ignorePaths := [login; callback; "/_next"; "/favicon.ico"] in
  if existsb (fun p => JS.startsWith pathname p) ignorePaths then ret None
  else
    let sessionCache := getSessionCache tt in
    let authRes := NextResponse_next no_init in
    got <- call (CallSessionGet req) (sessionCache_get sessionCache req authRes) ;;
    let '(session, authRes) := got in
    if negb (session_user session) then
      if JS.startsWith pathname "/api" then
        ret (Some (NextResponse_json not_authenticated
                     {| init_status := Some 401; init_headers := None |}))
      else
        ret (Some (NextResponse_redirect
                     (new_URL (login +:+ "?returnTo=" +:+
                               JS.encodeURIComponent (pathname +:+ search))
                              origin)
                     no_init))
    else
      res <- match middleware with
             | Some mw => call (CallMiddleware req) (mw req event)
             | None => ret None
             end ;;
      match res with
      | Some res =>
          let headers0 := Headers.new (headers res) in
          let cookies := split_cookies headers0 in
          let authCookies := split_cookies (headers authRes) in
          let headers1 :=
            if negb (is_nil cookies) || negb (is_nil authCookies)
            then Headers.set "set-cookie"
                   (JS.join ", " (authCookies ++ cookies)) headers0
            else headers0 in
          ret (Some (NextResponse_next
                       {| init_status := Some (status res);
                          init_headers := Some headers1 |}))
      | None => ret (Some authRes)
      end.

(** The request is not for an exempt path, so the gate enforces a session. *)
Definition enforced (login callback : string) (req : NextRequest) : Prop :=
  existsb (fun p => JS.startsWith (pathname (nextUrl req)) p)
    [login; callback; "/_next"; "/favicon.ico"] = false.

(** What session resolution gives for the request: the session, and the
    response object it wrote its cookies to. *)
Definition resolved (getSessionCache : unit -> SessionCache) (req : NextRequest)
    : option Session * NextResponse :=
  sessionCache_get (getSessionCache tt) req (NextResponse_next no_init).

End Factory.


(** For concrete runs: the serialisation of [new URL(input, base)] when
    [input] is an absolute path that needs no normalisation and [base] is an
    origin. The theorems below hold for any serialisation. *)
Definition href_of_path (u : URL) : string := url_base u +:+ url_input u.

(** A session cache that finds no session and writes no cookie. *)
Definition empty_cache : @SessionCache :=
  {| sessionCache_get := fun _ authRes => (None, authRes) |}.

Definition request_to (origin pathname search : string) : NextRequest :=
  {| nextUrl := {| pathname := pathname; origin := origin; search := search |} |}.

(** A session cache that finds a session and renews its cookie on the
    response it is given. *)
Definition renewing_cache : @SessionCache :=
  {| sessionCache_get := fun _ authRes =>
       (Some {| user := Some [("sub", "user-1")]; idToken := None; accessToken := None |},
        {| status := status authRes;
           headers := headers authRes ++ [("set-cookie", "appSession=abc; Path=/; HttpOnly")];
           body := body authRes |}) |}.

(** A middleware that answers with a cookie of its own. *)
Definition language_middleware : @NextMiddleware unit :=
  fun _ _ =>
    Some {| status := 200;
            headers := [("x-middleware-next", "1"); ("set-cookie", "hl=en; Path=/")];
            body := None |}.


End Gate.

(** ** The Node response abstraction ([NodeResponse]) *)

Module NodeResponse.

(** A header of [http.ServerResponse] holds a string or a list of
    strings (the source reads [Set-Cookie] with the cast [as string]). *)
Inductive HeaderValue : Type :=
  | HString (s : string)
  | HArray (l : list string).

(** The head of the response as [writeHead] hands it to [_storeHeader]:
    the status and the headers, keyed by lower-cased name. (Node adds
    [Date], [Connection] and the framing headers of its own.) *)
Record Head : Type :=
  { head_status : Z;
    head_headers : gmap string HeaderValue }.

(** The part of [http.ServerResponse] (Node 14 and later) that
    [setCookie] and [redirect] touch: [statusCode]; [statusMessage] if the
    application has set one ([writeHead] takes the standard reason phrase
    otherwise); the header table that [setHeader] fills and [getHeader]
    reads (keyed by lower-cased name, [None] until the first [setHeader]);
    the head once it has been sent ([headersSent]); whether the response
    may carry a body ([_hasBody]: not for [HEAD] requests, nor after a
    status 204, 304 or 1xx); the chunks written to the body; and
    [writableEnded]. *)
Record ServerResponse : Type :=
  { statusCode : Z;
    statusMessage : option string;
    headers : option (gmap string HeaderValue);
    head : option Head;
    hasBody : bool;
    written : list string;
    writableEnded : bool }.

(** The errors thrown: those of Node by their code, and the [TypeError]
    of [serialize]. *)
Inductive Error : Type :=
  | ERR_HTTP_HEADERS_SENT
  | ERR_HTTP_INVALID_STATUS_CODE
  | ERR_INVALID_HTTP_TOKEN
  | ERR_INVALID_CHAR
  | TypeError_serialize.

(** How a call ends: normally, or with an exception; either way with the
    response as the call left it. *)
Inductive Outcome : Type :=
  | Normal (res : ServerResponse)
  | Thrown (e : Error) (res : ServerResponse).

(** The next statement runs only if the call before it did not throw. *)
Definition and_then (o : Outcome) (k : ServerResponse -> Outcome) : Outcome :=
  match o with
  | Normal res => k res
  | Thrown e res => Thrown e res
  end.

Definition headersSent (res : ServerResponse) : bool :=
  match head res with
  | Some _ => true
  | None => false
  end.

(** [res.getHeader(name)] *)
Definition getHeader (name : string) (res : ServerResponse) : option HeaderValue :=
  headers res ≫= fun table => table !! JS.toLowerCase name.

(** [checkIsHttpToken]: [/^[\^_`a-zA-Z\-0-9!#$%&'*+.|~]+$/] *)
Definition is_http_token (name : string) : bool :=
  negb (String.eqb name "") &&
  forallb (fun c => JS.is_upper c || JS.is_lower c || JS.is_digit c ||
                    existsb (Ascii.eqb c) (list_ascii_of_string "^_`-!#$%&'*+.|~"))
    (list_ascii_of_string name).

(** [checkInvalidHeaderChar]: [/[^\t\x20-\x7e\x80-\xff]/] on the text. A
    character from [\x80] to [\xff] is, in UTF-8, the byte [C2] or [C3]
    followed by one byte from [80] to [BF]. *)
Fixpoint invalidHeaderChar (s : string) : bool :=
  match s with
  | EmptyString => false
  | String c s' =>
      let b := nat_of_ascii c in
      if (b =? 9)%nat || ((32 <=? b)%nat && (b <=? 126)%nat) then invalidHeaderChar s'
      else if (b =? 194)%nat || (b =? 195)%nat then
        match s' with
        | String c' s'' =>
            if (128 <=? nat_of_ascii c')%nat && (nat_of_ascii c' <=? 191)%nat
            then invalidHeaderChar s''
            else true
        | EmptyString => true
        end
      else true
  end.

(** The same test on a header value; an array is tested as the string it
    converts to, its items joined by commas. *)
Definition invalid_value (v : HeaderValue) : bool :=
  match v with
  | HString s => invalidHeaderChar s
  | HArray l => invalidHeaderChar (JS.join "," l)
  end.

Definition with_headers (table : gmap string HeaderValue) (res : ServerResponse)
    : ServerResponse :=
  {| statusCode := statusCode res;
     statusMessage := statusMessage res;
     headers := Some table;
     head := head res;
     hasBody := hasBody res;
     written := written res;
     writableEnded := writableEnded res |}.

(** [res.setHeader(name, v)] *)
Definition setHeader (name : string) (v : HeaderValue) (res : ServerResponse)
    : Outcome :=
  if headersSent res then Thrown ERR_HTTP_HEADERS_SENT res
  else if negb (is_http_token name) then Thrown ERR_INVALID_HTTP_TOKEN res
  else if invalid_value v then Thrown ERR_INVALID_CHAR res
  else Normal (with_headers (<[JS.toLowerCase name := v]> (default ∅ (headers res))) res).

(** [status |= 0] *)
Definition to_int32 (z : Z) : Z := (z + 2 ^ 31) mod 2 ^ 32 - 2 ^ 31.

(** The statuses after which a response has no body. *)
Definition bodiless (status : Z) : bool :=
  (status =? 204) || (status =? 304) || ((100 <=? status) && (status <=? 199)).

(** [writeHead] on a response with a header table: each header given goes
    through [setHeader], a header with an empty name is skipped. *)
Fixpoint setHeaders (hs : list (string * HeaderValue)) (res : ServerResponse)
    : Outcome :=
  match hs with
  | [] => Normal res
  | h :: hs' =>
      if String.eqb (fst h) "" then setHeaders hs' res
      else and_then (setHeader (fst h) (snd h) res) (setHeaders hs')
  end.

(** [writeHead] on a response without a header table: the headers given
    are checked as they are put into the head. *)
Fixpoint storeHeaders (hs : list (string * HeaderValue))
    (table : gmap string HeaderValue) : Error + gmap string HeaderValue :=
  match hs with
  | [] => inr table
  | h :: hs' =>
      if negb (is_http_token (fst h)) then inl ERR_INVALID_HTTP_TOKEN
      else if invalid_value (snd h) then inl ERR_INVALID_CHAR
      else storeHeaders hs' (<[JS.toLowerCase (fst h) := snd h]> table)
  end.

Definition with_status (status : Z) (res : ServerResponse) : ServerResponse :=
  {| statusCode := status;
     statusMessage := statusMessage res;
     headers := headers res;
     head := head res;
     hasBody := hasBody res;
     written := written res;
     writableEnded := writableEnded res |}.

Definition without_body_after (status : Z) (res : ServerResponse) : ServerResponse :=
  {| statusCode := statusCode res;
     statusMessage := statusMessage res;
     headers := headers res;
     head := head res;
     hasBody := hasBody res && negb (bodiless status);
     written := written res;
     writableEnded := writableEnded res |}.

Definition with_head (status : Z) (table : gmap string HeaderValue)
    (res : ServerResponse) : ServerResponse :=
  {| statusCode := statusCode res;
     statusMessage := statusMessage res;
     headers := headers res;
     head := Some {| head_status := status; head_headers := table |};
     hasBody := hasBody res;
     written := written res;
     writableEnded := writableEnded res |}.

(** The test of [checkInvalidHeaderChar] on the status message. *)
Definition invalid_message (res : ServerResponse) : bool :=
  match statusMessage res with
  | Some text => invalidHeaderChar text
  | None => false
  end.

(** [res.writeHead(status, hs)]: the head must not have been sent and the
    status, as a 32-bit integer, must lie in 100..999; then the status is
    set, the headers given go into the header table if there is one, the
    status message is tested, the response loses its body after 204, 304
    and 1xx, and the head is stored, with the headers of the table or
    else with those given. *)
Definition writeHead (status : Z) (hs : list (string * HeaderValue))
    (res : ServerResponse) : Outcome :=
  if headersSent res then Thrown ERR_HTTP_HEADERS_SENT res
  else
    let status := to_int32 status in
    if (status <? 100) || (999 <? status) then Thrown ERR_HTTP_INVALID_STATUS_CODE res
    else
      let res := with_status status res in
      and_then
        (match headers res with
         | Some _ => setHeaders hs res
         | None => Normal res
         end)
        (fun res =>
           if invalid_message res then Thrown ERR_INVALID_CHAR res
           else
             let res := without_body_after status res in
             match headers res with
             | Some table => Normal (with_head status table res)
             | None =>
                 match storeHeaders hs ∅ with
                 | inl e => Thrown e res
                 | inr table => Normal (with_head status table res)
                 end
             end).

(** [res.end(data)]: nothing on a response that has ended; else the head
    is sent if it has not been, the data is written unless it is empty or
    the response has no body, and the response is ended. *)
Definition end_ (data : string) (res : ServerResponse) : Outcome :=
  if writableEnded res then Normal res
  else
    and_then (if headersSent res then Normal res else writeHead (statusCode res) [] res)
      (fun res =>
         Normal {| statusCode := statusCode res;
                   statusMessage := statusMessage res;
                   headers := headers res;
                   head := head res;
                   hasBody := hasBody res;
                   written := if hasBody res && negb (String.eqb data "")
                              then written res ++ [data] else written res;
                   writableEnded := true |}).

(** JavaScript truthiness of what [getHeader] returns: [undefined] and the
    empty string are falsy, an array is truthy. *)
Definition truthy (v : option HeaderValue) : bool :=
  match v with
  | None => false
  | Some (HString s) => negb (String.eqb s "")
  | Some (HArray _) => true
  end.

(** [a || b] *)
Definition or_else (a : option HeaderValue) (b : HeaderValue) : HeaderValue :=
  match a with
  | Some v => if truthy a then v else b
  | None => b
  end.

(** The cookie strings the [Set-Cookie] header carries:
    [getHeader('Set-Cookie') || []], wrapped in a list when it is one string. *)
Definition cookies (res : ServerResponse) : list string :=
  match getHeader "Set-Cookie" res with
  | None => []
  | Some (HString s) => if String.eqb s "" then [] else [s]
  | Some (HArray l) => l
  end.

(** [cookie.startsWith(`${name}=`)] *)
Definition cookie_named (name cookie : string) : bool :=
  JS.startsWith cookie (name +:+ "=").

(** The name a cookie string gives: what stands before its first equals
    sign. *)
Fixpoint cookie_name (cookie : string) : option string :=
  match cookie with
  | EmptyString => None
  | String c rest =>
      if Ascii.eqb c "=" then Some EmptyString
      else String c <$> cookie_name rest
  end.

Section Methods.

(** [CookieSerializeOptions] and [serialize] of the [cookie] package;
    [None] stands for the [TypeError] it throws on an argument it refuses. *)
Context {CookieSerializeOptions : Type}.
Variable serialize : string -> string -> option CookieSerializeOptions -> option string.

(** [htmlSafe] of utils/errors. *)
Variable htmlSafe : string -> string.

(** [NodeResponse.setCookie(name, value, options)] *)
Definition setCookie (name value : string) (options : option CookieSerializeOptions)
    (res : ServerResponse) : Outcome :=
  let cookies := cookies res in
  match serialize name value options with
  | Some cookie =>
      setHeader "Set-Cookie"
        (HArray (List.filter (fun c => negb (cookie_named name c)) cookies
                 ++ [cookie]))
        res
  | None => Thrown TypeError_serialize res
  end.

(** [NodeResponse.redirect(location, status = 302)] *)
Definition redirect (location : string) (status : option Z) (res : ServerResponse)
    : Outcome :=
  let status := default 302 status in
  if writableEnded res then Normal res
  else
    and_then
      (writeHead status
         [("Location", or_else (getHeader "Location" res) (HString location))]
         res)
      (end_ (htmlSafe location)).

End Methods.

Definition html_escape (c : ascii) : string :=
  match nat_of_ascii c with
  | 38%nat => "&amp;"
  | 60%nat => "&lt;"
  | 62%nat => "&gt;"
  | 34%nat => "&quot;"
  | 39%nat => "&#39;"
  | _ => String c EmptyString
  end.

(** Modelled from the spec: [htmlSafe] lives in utils/errors, which is not
    among the sources. The spec asks that the location be HTML-escaped
    before it is written into the fallback body; this replaces the five
    characters that are special in HTML text and attributes. *)
Fixpoint htmlSafe (s : string) : string :=
  match s with
  | EmptyString => EmptyString
  | String c s' => html_escape c +:+ htmlSafe s'
  end.

(** A serializer of the shape the [cookie] package produces, for concrete
    runs: the name, an equals sign and the URI-encoded value; an empty name
    is refused. *)
Definition serialize_basic (name value : string) (options : option unit)
    : option string :=
  if String.eqb name "" then None
  else Some (name +:+ "=" +:+ JS.encodeURIComponent value).

(** A response on which nothing has been done yet. *)
Definition fresh : ServerResponse :=
  {| statusCode := 200; statusMessage := None; headers := None; head := None;
     hasBody := true; written := []; writableEnded := false |}.

(** A response on which only [setHeader(name, v)] has been called. *)
Definition fresh_with (name : string) (v : HeaderValue) : ServerResponse :=
  with_headers {[ JS.toLowerCase name := v ]} fresh.

(** A response that has been ended with the body [done]. *)
Definition ended : ServerResponse :=
  {| statusCode := 200; statusMessage := None; headers := None;
     head := Some {| head_status := 200; head_headers := ∅ |};
     hasBody := true; written := ["done"]; writableEnded := true |}.

End NodeResponse.

(** ** The configuration validator ([paramsSchema] and [get]) *)

Module ConfigValidator.

(** *** Values *)

(** A JavaScript number. *)
Inductive number : Type :=
  | Finite (q : Q)
  | NaN
  | Infinity (negative : bool).

Definition of_Z (z : Z) : number := Finite (inject_Z z).

(** [boolean | number] ([session.rollingDuration], [session.absoluteDuration]) *)
Inductive Duration : Type :=
  | DNumber (n : number)
  | DBoolean (b : bool).

(** [string | false] ([routes.login], [routes.logout]) *)
Inductive StringOrFalse : Type :=
  | IsString (s : string)
  | IsFalse.

(** [string | Array<string>] ([secret] as the caller gives it) *)
Inductive Secret : Type :=
  | SecretString (s : string)
  | SecretArray (l : list string).

(** One validated secret: the string itself, or the [Buffer] that
    [Joi.binary()] makes of it. *)
Inductive SecretItem : Type :=
  | ItemString (s : string)
  | ItemBuffer (bytes : string).

Inductive SecretValue : Type :=
  | OneSecret (i : SecretItem)
  | ManySecrets (l : list SecretItem).

(** An own property of the object given to [get]: absent, or present with
    a value or with [undefined]. The distinction matters to the spread
    that merges the environment. *)
Inductive Key (A : Type) : Type :=
  | Absent
  | Present (v : option A).
Arguments Absent {A}.
Arguments Present {A} v.

Definition key_value {A : Type} (k : Key A) : option A :=
  match k with
  | Absent => None
  | Present v => v
  end.

(** *** The caller's configuration, [ConfigParameters] *)

Module Raw.

Record CookieConfig : Type :=
  { domain : option string;
    transient : option bool;
    httpOnly : option bool;
    sameSite : option string;
    secure : option bool;
    path : option string }.

Record SessionConfig : Type :=
  { rolling : option bool;
    rollingDuration : option Duration;
    absoluteDuration : option Duration;
    name : option string;
    cookie : option CookieConfig }.

Record AuthorizationParameters : Type :=
  { response_type : option string;
    scope : option string;
    response_mode : option string;
    (* further parameters, passed through ([unknown(true)]) *)
    others : list (string * string) }.

Record Routes : Type :=
  { login : option StringOrFalse;
    logout : option StringOrFalse;
    callback : option string;
    postLogoutRedirect : option string }.

Record Config {Fn : Type} : Type :=
  { secret : Key Secret;
    session : option SessionConfig;
    auth0Logout : option bool;
    authorizationParams : option AuthorizationParameters;
    baseURL : Key string;
    clientID : Key string;
    clientSecret : Key string;
    clockTolerance : option number;
    enableTelemetry : option bool;
    errorOnRequiredAuth : option bool;
    attemptSilentLogin : option bool;
    getLoginState : option Fn;
    identityClaimFilter : option (list string);
    idpLogout : option bool;
    idTokenSigningAlg : option string;
    issuerBaseURL : Key string;
    legacySameSiteCookie : option bool;
    authRequired : option bool;
    routes : option Routes }.
Arguments Config Fn : clear implicits.

Definition no_cookie : CookieConfig :=
  {| domain := None; transient := None; httpOnly := None;
     sameSite := None; secure := None; path := None |}.

Definition no_session : SessionConfig :=
  {| rolling := None; rollingDuration := None; absoluteDuration := None;
     name := None; cookie := None |}.

Definition no_authorizationParams : AuthorizationParameters :=
  {| response_type := None; scope := None; response_mode := None; others := [] |}.

Definition no_routes : Routes :=
  {| login := None; logout := None; callback := None; postLogoutRedirect := None |}.

(** The empty object [{}]. *)
Definition empty {Fn : Type} : Config Fn :=
  {| secret := Absent; session := None; auth0Logout := None;
     authorizationParams := None; baseURL := Absent; clientID := Absent;
     clientSecret := Absent; clockTolerance := None; enableTelemetry := None;
     errorOnRequiredAuth := None; attemptSilentLogin := None;
     getLoginState := None; identityClaimFilter := None; idpLogout := None;
     idTokenSigningAlg := None; issuerBaseURL := Absent;
     legacySameSiteCookie := None; authRequired := None; routes := None |}.

End Raw.

(** *** The validated configuration, [Config] *)

Record CookieConfig : Type :=
  { domain : option string;
    transient : bool;
    httpOnly : bool;
    sameSite : string;
    secure : option bool;
    path : option string }.

Record SessionConfig : Type :=
  { rolling : bool;
    rollingDuration : Duration;
    absoluteDuration : Duration;
    name : string;
    cookie : CookieConfig }.

Record AuthorizationParameters : Type :=
  { response_type : string;
    scope : string;
    response_mode : option string;
    others : list (string * string) }.

Record Routes : Type :=
  { login : StringOrFalse;
    logout : StringOrFalse;
    callback : string;
    postLogoutRedirect : string }.

Record Config {Fn : Type} : Type :=
  { secret : SecretValue;
    session : SessionConfig;
    auth0Logout : bool;
    authorizationParams : AuthorizationParameters;
    baseURL : string;
    clientID : string;
    clientSecret : option string;
    clockTolerance : number;
    enableTelemetry : bool;
    errorOnRequiredAuth : bool;
    attemptSilentLogin : bool;
    getLoginState : Fn;
    identityClaimFilter : list string;
    idpLogout : bool;
    idTokenSigningAlg : string;
    issuerBaseURL : string;
    legacySameSiteCookie : bool;
    authRequired : bool;
    routes : Routes }.
Arguments Config Fn : clear implicits.

(** [process.env], as far as [get] reads it. *)
Record Env : Type :=
  { SECRET : option string;
    ISSUER_BASE_URL : option string;
    BASE_URL : option string;
    CLIENT_ID : option string;
    CLIENT_SECRET : option string }.

(** *** The validation package, as far as the schema uses it *)

Module Joi.

(** The error types the schema can report.

    A [Joi.alternatives] none of whose branches matches reports in one of
    three ways. A branch whose error is [any.only] or a [base] error only
    tells which values or types would do. If no branch says more, the
    report is [alternatives.types]; if exactly one branch says more (its
    error is of another type, or lies deeper in the value), the report is
    the error of that branch; if several do, it is [alternatives.match]. *)
Inductive ErrorCode : Type :=
  | any_required | any_only | any_invalid
  | string_empty | string_min | string_uri | string_uriRelativeOnly
  | string_token | string_pattern_name
  | number_base | number_infinity | number_unsafe | number_integer
  | array_includes
  | alternatives_match | alternatives_types.

(** One entry of [error.details]. [message] is [Some text] when the
    schema overrides the message of that error type with [.messages], and
    [None] when the package renders its own template around the label.
    In [path] a position in an array stands as its decimal numeral. *)
Record ValidationErrorItem : Type :=
  { path : list string; type : ErrorCode; message : option string }.

(** The position [i] of an array item, as it stands in a path. *)
Definition index (i : nat) : string := NilZero.string_of_uint (Nat.to_uint i).

Inductive Result (A : Type) : Type :=
  | Ok (value : A)
  | Error (e : ValidationErrorItem).
Arguments Ok {A} value.
Arguments Error {A} e.

Definition bind {A B : Type} (r : Result A) (k : A -> Result B) : Result B :=
  match r with
  | Ok a => k a
  | Error e => Error e
  end.

Definition fail {A : Type} (p : list string) (t : ErrorCode) : Result A :=
  Error {| path := p; type := t; message := None |}.

Definition fail_with {A : Type} (p : list string) (t : ErrorCode) (text : string)
    : Result A :=
  Error {| path := p; type := t; message := Some text |}.

(** The string predicates of the package that the model leaves open:
    [string().uri()], [string().uri({ relativeOnly: true })] and
    [string().uri({ allowRelative: true })]. *)
Record UriRules : Type :=
  { uri : string -> bool;
    uri_relativeOnly : string -> bool;
    uri_allowRelative : string -> bool }.

(** [s.length]: UTF-16 code units of the text whose UTF-8 bytes are [s]
    (one per character, two for a character of four bytes). *)
Fixpoint js_length (s : string) : nat :=
  match s with
  | EmptyString => 0
  | String c s' =>
      let b := nat_of_ascii c in
      ((if (b <? 128) || (192 <=? b) then 1 else 0) +
       (if 240 <=? b then 1 else 0) + js_length s')%nat
  end.

Definition is_word (c : ascii) : bool :=
  JS.is_upper c || JS.is_lower c || JS.is_digit c || Ascii.eqb c "_".

(** [/^\w+$/], the test behind [string().token()]. *)
Definition token (s : string) : bool :=
  negb (String.eqb s "") && forallb is_word (list_ascii_of_string s).

Definition starts_with_word (s : string) : bool :=
  match s with
  | EmptyString => false
  | String c _ => is_word c
  end.

(** [/\bopenid\b/]: [prev] tells whether the character before [s] is a
    word character. *)
Fixpoint contains_openid_from (prev : bool) (s : string) : bool :=
  match s with
  | EmptyString => false
  | String c s' =>
      (negb prev && JS.startsWith s "openid"
       && negb (starts_with_word (String.substring 6 (String.length s - 6) s)))
      || contains_openid_from (is_word c) s'
  end.

Definition contains_openid (s : string) : bool := contains_openid_from false s.

Definition MAX_SAFE_INTEGER : Z := 9007199254740991.

Definition safe (q : Q) : bool :=
  Qle_bool (inject_Z (- MAX_SAFE_INTEGER)) q && Qle_bool q (inject_Z MAX_SAFE_INTEGER).

Definition integral (q : Q) : bool := (Z.pos (Qden (Qred q)) =? 1)%Z.

(** What [Joi.number()] objects to in a number, if anything. *)
Definition number_error (n : number) : option ErrorCode :=
  match n with
  | Infinity _ => Some number_infinity
  | NaN => Some number_base
  | Finite q => if safe q then None else Some number_unsafe
  end.

(** What [Joi.number().integer()] objects to. *)
Definition integer_error (n : number) : option ErrorCode :=
  match number_error n, n with
  | Some e, _ => Some e
  | None, Finite q => if integral q then None else Some number_integer
  | None, _ => None
  end.

(** [Joi.string()] with the rule [rule] (error type [t]) on a value that
    is a string: the empty string is refused before any rule runs. *)
Definition string_rule (p : list string) (rule : string -> bool) (t : ErrorCode)
    (s : string) : Result string :=
  if String.eqb s "" then fail p string_empty
  else if rule s then Ok s
  else fail p t.

Definition any_string (s : string) : bool := true.

End Joi.

Declare Scope joi_scope.
Delimit Scope joi_scope with joi.
Notation "x <- m ;; k" := (Joi.bind m (fun x => k))
  (at level 100, m at next level, k at level 200, right associativity) : joi_scope.

(** *** [paramsSchema] *)

Definition quoted (label : string) : string := JS.dquote +:+ label +:+ JS.dquote.

Definition rollingDuration_number_base : string :=
  quoted "session.rollingDuration" +:+
  " must be provided an integer value when " +:+ quoted "session.rolling" +:+ " is true".

Definition rollingDuration_any_only : string :=
  quoted "session.rollingDuration" +:+
  " must be false when " +:+ quoted "session.rolling" +:+ " is disabled".

Definition absoluteDuration_number_base : string :=
  quoted "session.absoluteDuration" +:+
  " must be provided an integer value when " +:+ quoted "session.rolling" +:+ " is false".

Definition clientSecret_required_code : string :=
  quoted "clientSecret" +:+ " is required for a response_type that includes code".

Definition clientSecret_required_HMAC : string :=
  quoted "clientSecret" +:+ " is required for ID tokens with HMAC based algorithms".

Definition identityClaimFilter_default : list string :=
  ["aud"; "iss"; "iat"; "exp"; "nbf"; "nonce"; "azp"; "auth_time";
   "s_hash"; "at_hash"; "c_hash"].

(** What a call of [get] comes to: the configuration, or the [TypeError]
    thrown with the message of the first entry of [error.details]. *)
Inductive Completion (A : Type) : Type :=
  | Returns (value : A)
  | ThrowsTypeError (detail : Joi.ValidationErrorItem).
Arguments Returns {A} value.
Arguments ThrowsTypeError {A} detail.

Section Schema.

Context {Fn : Type}.

(** [defaultState] of hooks/get-login-state. *)
Variable defaultState : Fn.

Variable rules : Joi.UriRules.

Local Open Scope joi_scope.

(** [Joi.string().min(8)], else [Joi.binary().min(8)], which turns the
    string into a [Buffer] of its bytes. *)
Definition secret_item (s : string) : option SecretItem :=
  if negb (String.eqb s "") && (8 <=? Joi.js_length s)%nat then Some (ItemString s)
  else if (8 <=? String.length s)%nat then Some (ItemBuffer s)
  else None.

(** [Joi.array().items(Joi.string().min(8), Joi.binary().min(8))] on the
    items from position [i] on: the first item that fits neither schema is
    reported as [array.includes] at its position. *)
Fixpoint secret_items (i : nat) (l : list string) : Joi.Result (list SecretItem) :=
  match l with
  | [] => Joi.Ok []
  | s :: l' =>
      match secret_item s with
      | Some item => items <- secret_items (S i) l' ;; Joi.Ok (item :: items)
      | None => Joi.fail ["secret"; Joi.index i] Joi.array_includes
      end
  end.

(** [secret: Joi.alternatives([string().min(8), binary().min(8),
      array().items(string().min(8), binary().min(8))]).required()].
    For a string that is too short, the string and the binary branch both
    say more than a type ([alternatives.match]); for an array, only the
    array branch does, and its error is the one reported. *)
Definition validate_secret (v : option Secret) : Joi.Result SecretValue :=
  match v with
  | None => Joi.fail ["secret"] Joi.any_required
  | Some (SecretString s) =>
      match secret_item s with
      | Some i => Joi.Ok (OneSecret i)
      | None => Joi.fail ["secret"] Joi.alternatives_match
      end
  | Some (SecretArray l) =>
      items <- secret_items 0 l ;; Joi.Ok (ManySecrets items)
  end.

(** A number checked by [Joi.number().integer().messages({ 'number.base': text })]. *)
Definition integer_or (p : list string) (text : string) (d : Duration)
    : Joi.Result Duration :=
  match d with
  | DNumber n =>
      match Joi.integer_error n with
      | None => Joi.Ok d
      | Some Joi.number_base => Joi.fail_with p Joi.number_base text
      | Some e => Joi.fail p e
      end
  | DBoolean _ => Joi.fail_with p Joi.number_base text
  end.

(** [rollingDuration: Joi.when(Joi.ref('rolling'), { is: true, then: ...,
      otherwise: ... }).optional().default(parent => ...)] *)
Definition validate_rollingDuration (rolling : bool) (v : option Duration)
    : Joi.Result Duration :=
  let p := ["session"; "rollingDuration"] in
  match v with
  | None => Joi.Ok (if rolling then DNumber (of_Z (24 * 60 * 60)) else DBoolean false)
  | Some d =>
      if rolling then integer_or p rollingDuration_number_base d
      else
        match d with
        | DBoolean false => Joi.Ok d
        | _ => Joi.fail_with p Joi.any_only rollingDuration_any_only
        end
  end.

(** [absoluteDuration: Joi.when(Joi.ref('rolling'), { is: false, then: ...,
      otherwise: ... }).optional().default(7 * 24 * 60 * 60)] *)
Definition validate_absoluteDuration (rolling : bool) (v : option Duration)
    : Joi.Result Duration :=
  let p := ["session"; "absoluteDuration"] in
  match v with
  | None => Joi.Ok (DNumber (of_Z (7 * 24 * 60 * 60)))
  | Some d =>
      if negb rolling then integer_or p absoluteDuration_number_base d
      else
        match d with
        | DNumber n =>
            match Joi.integer_error n with
            | None => Joi.Ok d
            | Some Joi.number_base => Joi.fail p Joi.alternatives_types
            | Some e => Joi.fail p e
            end
        | DBoolean false => Joi.Ok d
        | DBoolean true => Joi.fail p Joi.alternatives_types
        end
  end.

(** An optional string with one rule. *)
Definition optional_string (p : list string) (rule : string -> bool)
    (t : Joi.ErrorCode) (v : option string) : Joi.Result (option string) :=
  match v with
  | None => Joi.Ok None
  | Some s => s' <- Joi.string_rule p rule t s ;; Joi.Ok (Some s')
  end.

(** An optional string with one rule and a default. *)
Definition string_default (p : list string) (rule : string -> bool)
    (t : Joi.ErrorCode) (d : string) (v : option string) : Joi.Result string :=
  match v with
  | None => Joi.Ok d
  | Some s => Joi.string_rule p rule t s
  end.

(** A required string with one rule. *)
Definition required_string (p : list string) (rule : string -> bool)
    (t : Joi.ErrorCode) (v : option string) : Joi.Result string :=
  match v with
  | None => Joi.fail p Joi.any_required
  | Some s => Joi.string_rule p rule t s
  end.

(** [Joi.string().valid(...)]: the allowed values are looked up before
    anything else, and nothing else passes. *)
Definition only (p : list string) (allowed : list string) (s : string)
    : Joi.Result string :=
  if existsb (String.eqb s) allowed then Joi.Ok s else Joi.fail p Joi.any_only.

(** [cookie: Joi.object({ ... }).default().unknown(false)] *)
Definition validate_cookie (v : option Raw.CookieConfig) : Joi.Result CookieConfig :=
  let c := default Raw.no_cookie v in
  let p := fun k => ["session"; "cookie"; k] in
  domain <- optional_string (p "domain") Joi.any_string Joi.string_empty (Raw.domain c) ;;
  let transient := default false (Raw.transient c) in
  let httpOnly := default true (Raw.httpOnly c) in
  sameSite <- match Raw.sameSite c with
              | None => Joi.Ok "Lax"
              | Some s => only (p "sameSite") ["Lax"; "Strict"; "None"] s
              end ;;
  let secure := Raw.secure c in
  path <- optional_string (p "path") (Joi.uri_relativeOnly rules)
            Joi.string_uriRelativeOnly (Raw.path c) ;;
  Joi.Ok {| domain := domain; transient := transient; httpOnly := httpOnly;
            sameSite := sameSite; secure := secure; path := path |}.

(** [session: Joi.object({ ... }).default().unknown(false)] *)
Definition validate_session (v : option Raw.SessionConfig) : Joi.Result SessionConfig :=
  let s := default Raw.no_session v in
  let rolling := default true (Raw.rolling s) in
  rollingDuration <- validate_rollingDuration rolling (Raw.rollingDuration s) ;;
  absoluteDuration <- validate_absoluteDuration rolling (Raw.absoluteDuration s) ;;
  name <- string_default ["session"; "name"] Joi.token Joi.string_token
            "appSession" (Raw.name s) ;;
  cookie <- validate_cookie (Raw.cookie s) ;;
  Joi.Ok {| rolling := rolling; rollingDuration := rollingDuration;
            absoluteDuration := absoluteDuration; name := name; cookie := cookie |}.

(** [response_mode: Joi.string().optional().when('response_type', { is: 'code',
      then: Joi.valid('query', 'query'),
      otherwise: Joi.valid('form_post').default('form_post') })] *)
Definition validate_response_mode (response_type : string) (v : option string)
    : Joi.Result (option string) :=
  let p := ["authorizationParams"; "response_mode"] in
  if String.eqb response_type "code" then
    match v with
    | None => Joi.Ok None
    | Some m => m' <- only p ["query"; "query"] m ;; Joi.Ok (Some m')
    end
  else
    match v with
    | None => Joi.Ok (Some "form_post")
    | Some m => m' <- only p ["form_post"] m ;; Joi.Ok (Some m')
    end.

(** [authorizationParams: Joi.object({ ... }).optional().unknown(true).default()] *)
Definition validate_authorizationParams (v : option Raw.AuthorizationParameters)
    : Joi.Result AuthorizationParameters :=
  let a := default Raw.no_authorizationParams v in
  response_type <- match Raw.response_type a with
                   | None => Joi.Ok "id_token"
                   | Some t => only ["authorizationParams"; "response_type"]
                                 ["id_token"; "code id_token"; "code"] t
                   end ;;
  scope <- string_default ["authorizationParams"; "scope"] Joi.contains_openid
             Joi.string_pattern_name "openid profile email" (Raw.scope a) ;;
  response_mode <- validate_response_mode response_type (Raw.response_mode a) ;;
  Joi.Ok {| response_type := response_type; scope := scope;
            response_mode := response_mode; others := Raw.others a |}.

(** [clockTolerance: Joi.number().optional().default(60)] *)
Definition validate_clockTolerance (v : option number) : Joi.Result number :=
  match v with
  | None => Joi.Ok (of_Z 60)
  | Some n =>
      match Joi.number_error n with
      | None => Joi.Ok n
      | Some e => Joi.fail ["clockTolerance"] e
      end
  end.

(** [idTokenSigningAlg: Joi.string().insensitive().not('none').optional()
      .default('RS256')] *)
Definition validate_idTokenSigningAlg (v : option string) : Joi.Result string :=
  match v with
  | None => Joi.Ok "RS256"
  | Some s =>
      if String.eqb (JS.toLowerCase s) "none"
      then Joi.fail ["idTokenSigningAlg"] Joi.any_invalid
      else Joi.string_rule ["idTokenSigningAlg"] Joi.any_string Joi.string_empty s
  end.

(** [clientSecret: Joi.string().when(<response_type includes 'code'>, { is: true,
      then: Joi.string().required().messages(...) })
      .when(<idTokenSigningAlg starts with 'HS'>, { is: true,
      then: Joi.string().required().messages(...) })].
    Both conditions are tried; when both hold the later message stands. *)
Definition validate_clientSecret (response_type idTokenSigningAlg : string)
    (v : option string) : Joi.Result (option string) :=
  let p := ["clientSecret"] in
  match v with
  | None =>
      if JS.startsWith idTokenSigningAlg "HS"
      then Joi.fail_with p Joi.any_required clientSecret_required_HMAC
      else if JS.includes response_type "code"
      then Joi.fail_with p Joi.any_required clientSecret_required_code
      else Joi.Ok None
  | Some s => s' <- Joi.string_rule p Joi.any_string Joi.string_empty s ;; Joi.Ok (Some s')
  end.

(** [Joi.alternatives([Joi.string().uri({ relativeOnly: true }),
      Joi.boolean().valid(false)]).default(d)]. For a string that the first
    branch refuses, the second only says [any.only], so the error of the
    string is the one reported. *)
Definition validate_route (p : list string) (d : string) (v : option StringOrFalse)
    : Joi.Result StringOrFalse :=
  match v with
  | None => Joi.Ok (IsString d)
  | Some IsFalse => Joi.Ok IsFalse
  | Some (IsString s) =>
      s' <- Joi.string_rule p (Joi.uri_relativeOnly rules) Joi.string_uriRelativeOnly s ;;
      Joi.Ok (IsString s')
  end.

(** [routes: Joi.object({ ... }).default().unknown(false)] *)
Definition validate_routes (v : option Raw.Routes) : Joi.Result Routes :=
  let r := default Raw.no_routes v in
  login <- validate_route ["routes"; "login"] "/login" (Raw.login r) ;;
  logout <- validate_route ["routes"; "logout"] "/logout" (Raw.logout r) ;;
  callback <- string_default ["routes"; "callback"] (Joi.uri_relativeOnly rules)
                Joi.string_uriRelativeOnly "/callback" (Raw.callback r) ;;
  postLogoutRedirect <- string_default ["routes"; "postLogoutRedirect"]
                          (Joi.uri_allowRelative rules) Joi.string_uri ""
                          (Raw.postLogoutRedirect r) ;;
  Joi.Ok {| login := login; logout := logout; callback := callback;
            postLogoutRedirect := postLogoutRedirect |}.

(** [paramsSchema.validate(config)]. The keys are taken in the order of the
    schema, except that [clientSecret], which refers to
    [authorizationParams.response_type] and to [idTokenSigningAlg], comes
    after both; validation stops at the first error. *)
Definition paramsSchema_validate (config : Raw.Config Fn) : Joi.Result (Config Fn) :=
  secret <- validate_secret (key_value (Raw.secret config)) ;;
  session <- validate_session (Raw.session config) ;;
  let auth0Logout := default false (Raw.auth0Logout config) in
  authorizationParams <- validate_authorizationParams (Raw.authorizationParams config) ;;
  baseURL <- required_string ["baseURL"] (Joi.uri rules) Joi.string_uri
               (key_value (Raw.baseURL config)) ;;
  clientID <- required_string ["clientID"] Joi.any_string Joi.string_empty
                (key_value (Raw.clientID config)) ;;
  clockTolerance <- validate_clockTolerance (Raw.clockTolerance config) ;;
  let enableTelemetry := default true (Raw.enableTelemetry config) in
  let errorOnRequiredAuth := default false (Raw.errorOnRequiredAuth config) in
  let attemptSilentLogin := default false (Raw.attemptSilentLogin config) in
  let getLoginState := default defaultState (Raw.getLoginState config) in
  let identityClaimFilter :=
    default identityClaimFilter_default (Raw.identityClaimFilter config) in
  let idpLogout := default (auth0Logout || false) (Raw.idpLogout config) in
  idTokenSigningAlg <- validate_idTokenSigningAlg (Raw.idTokenSigningAlg config) ;;
  clientSecret <- validate_clientSecret (response_type authorizationParams)
                    idTokenSigningAlg (key_value (Raw.clientSecret config)) ;;
  issuerBaseURL <- required_string ["issuerBaseURL"] (Joi.uri rules) Joi.string_uri
                     (key_value (Raw.issuerBaseURL config)) ;;
  let legacySameSiteCookie := default true (Raw.legacySameSiteCookie config) in
  let authRequired := default true (Raw.authRequired config) in
  routes <- validate_routes (Raw.routes config) ;;
  Joi.Ok
    {| secret := secret; session := session; auth0Logout := auth0Logout;
       authorizationParams := authorizationParams; baseURL := baseURL;
       clientID := clientID; clientSecret := clientSecret;
       clockTolerance := clockTolerance; enableTelemetry := enableTelemetry;
       errorOnRequiredAuth := errorOnRequiredAuth;
       attemptSilentLogin := attemptSilentLogin; getLoginState := getLoginState;
       identityClaimFilter := identityClaimFilter; idpLogout := idpLogout;
       idTokenSigningAlg := idTokenSigningAlg; issuerBaseURL := issuerBaseURL;
       legacySameSiteCookie := legacySameSiteCookie; authRequired := authRequired;
       routes := routes |}.

(** *** [get] *)

(** A key of [{ key: fromEnv, ...config }]: an own property of [config],
    even one holding [undefined], replaces the value from the environment. *)
Definition spread {A : Type} (fromEnv : option A) (k : Key A) : Key A :=
  match k with
  | Absent => Present fromEnv
  | Present v => Present v
  end.

(** [{ secret: process.env.SECRET, ..., clientSecret: process.env.CLIENT_SECRET,
       ...config }] *)
Definition with_env (env : Env) (config : Raw.Config Fn) : Raw.Config Fn :=
  {| Raw.secret := spread (SecretString <$> SECRET env) (Raw.secret config);
     Raw.session := Raw.session config;
     Raw.auth0Logout := Raw.auth0Logout config;
     Raw.authorizationParams := Raw.authorizationParams config;
     Raw.baseURL := spread (BASE_URL env) (Raw.baseURL config);
     Raw.clientID := spread (CLIENT_ID env) (Raw.clientID config);
     Raw.clientSecret := spread (CLIENT_SECRET env) (Raw.clientSecret config);
     Raw.clockTolerance := Raw.clockTolerance config;
     Raw.enableTelemetry := Raw.enableTelemetry config;
     Raw.errorOnRequiredAuth := Raw.errorOnRequiredAuth config;
     Raw.attemptSilentLogin := Raw.attemptSilentLogin config;
     Raw.getLoginState := Raw.getLoginState config;
     Raw.identityClaimFilter := Raw.identityClaimFilter config;
     Raw.idpLogout := Raw.idpLogout config;
     Raw.idTokenSigningAlg := Raw.idTokenSigningAlg config;
     Raw.issuerBaseURL := spread (ISSUER_BASE_URL env) (Raw.issuerBaseURL config);
     Raw.legacySameSiteCookie := Raw.legacySameSiteCookie config;
     Raw.authRequired := Raw.authRequired config;
     Raw.routes := Raw.routes config |}.

(** [get(params)], run with the environment [env]. *)
Definition get (env : Env) (params : option (Raw.Config Fn)) : Completion (Config Fn) :=
  let config := default Raw.empty params in
  let config := with_env env config in
  match paramsSchema_validate config with
  | Joi.Error e => ThrowsTypeError e
  | Joi.Ok value => Returns value
  end.

End Schema.

(** *** Reading and changing the caller's configuration *)

Section Access.

Context {Fn : Type}.

(** [config.session?.[key]] and the like: [undefined] when the parent
    object is missing. *)
Definition session_key {A : Type} (key : Raw.SessionConfig -> option A)
    (config : Raw.Config Fn) : option A :=
  Raw.session config ≫= key.

Definition cookie_key {A : Type} (key : Raw.CookieConfig -> option A)
    (config : Raw.Config Fn) : option A :=
  (Raw.session config ≫= Raw.cookie) ≫= key.

Definition authorization_key {A : Type} (key : Raw.AuthorizationParameters -> option A)
    (config : Raw.Config Fn) : option A :=
  Raw.authorizationParams config ≫= key.

Definition routes_key {A : Type} (key : Raw.Routes -> option A)
    (config : Raw.Config Fn) : option A :=
  Raw.routes config ≫= key.

(** The caller's object: [params], or [{}] when [get] is called with none. *)
Definition supplied (params : option (Raw.Config Fn)) : Raw.Config Fn :=
  default Raw.empty params.

(** The object [get] hands to the schema. *)
Definition given (env : Env) (params : option (Raw.Config Fn)) : Raw.Config Fn :=
  with_env env (supplied params).

(** [{ ...config, clientSecret: v }] *)
Definition set_clientSecret (v : option string) (config : Raw.Config Fn)
    : Raw.Config Fn :=
  {| Raw.secret := Raw.secret config;
     Raw.session := Raw.session config;
     Raw.auth0Logout := Raw.auth0Logout config;
     Raw.authorizationParams := Raw.authorizationParams config;
     Raw.baseURL := Raw.baseURL config;
     Raw.clientID := Raw.clientID config;
     Raw.clientSecret := Present v;
     Raw.clockTolerance := Raw.clockTolerance config;
     Raw.enableTelemetry := Raw.enableTelemetry config;
     Raw.errorOnRequiredAuth := Raw.errorOnRequiredAuth config;
     Raw.attemptSilentLogin := Raw.attemptSilentLogin config;
     Raw.getLoginState := Raw.getLoginState config;
     Raw.identityClaimFilter := Raw.identityClaimFilter config;
     Raw.idpLogout := Raw.idpLogout config;
     Raw.idTokenSigningAlg := Raw.idTokenSigningAlg config;
     Raw.issuerBaseURL := Raw.issuerBaseURL config;
     Raw.legacySameSiteCookie := Raw.legacySameSiteCookie config;
     Raw.authRequired := Raw.authRequired config;
     Raw.routes := Raw.routes config |}.

(** [{ ...config, session: { ...config.session, absoluteDuration: v } }] *)
Definition set_absoluteDuration (v : option Duration) (config : Raw.Config Fn)
    : Raw.Config Fn :=
  let s := default Raw.no_session (Raw.session config) in
  {| Raw.secret := Raw.secret config;
     Raw.session :=
       Some {| Raw.rolling := Raw.rolling s;
               Raw.rollingDuration := Raw.rollingDuration s;
               Raw.absoluteDuration := v;
               Raw.name := Raw.name s;
               Raw.cookie := Raw.cookie s |};
     Raw.auth0Logout := Raw.auth0Logout config;
     Raw.authorizationParams := Raw.authorizationParams config;
     Raw.baseURL := Raw.baseURL config;
     Raw.clientID := Raw.clientID config;
     Raw.clientSecret := Raw.clientSecret config;
     Raw.clockTolerance := Raw.clockTolerance config;
     Raw.enableTelemetry := Raw.enableTelemetry config;
     Raw.errorOnRequiredAuth := Raw.errorOnRequiredAuth config;
     Raw.attemptSilentLogin := Raw.attemptSilentLogin config;
     Raw.getLoginState := Raw.getLoginState config;
     Raw.identityClaimFilter := Raw.identityClaimFilter config;
     Raw.idpLogout := Raw.idpLogout config;
     Raw.idTokenSigningAlg := Raw.idTokenSigningAlg config;
     Raw.issuerBaseURL := Raw.issuerBaseURL config;
     Raw.legacySameSiteCookie := Raw.legacySameSiteCookie config;
     Raw.authRequired := Raw.authRequired config;
     Raw.routes := Raw.routes config |}.

(** The label an error message names: the label of the package's own
    template, or the quoted label a message of the schema starts with. *)
Definition names (label : string) (e : Joi.ValidationErrorItem) : Prop :=
  match Joi.message e with
  | Some text => JS.startsWith text (quoted label) = true
  | None => JS.join "." (Joi.path e) = label
  end.

End Access.

(** *** The validated configuration, read back *)

(** The strings of the secret as the caller gives it. *)
Definition secret_strings (v : Secret) : list string :=
  match v with
  | SecretString s => [s]
  | SecretArray l => l
  end.

(** Text of the Basic Multilingual Plane: no byte opens a sequence of
    four. *)
Definition below_four_bytes (s : string) : bool :=
  forallb (fun c => (nat_of_ascii c <? 240)%nat) (list_ascii_of_string s).

(** A duration that is a safe integer, not a boolean. *)
Definition is_integer (d : Duration) : bool :=
  match d with
  | DNumber n => match Joi.integer_error n with None => true | Some _ => false end
  | DBoolean _ => false
  end.

(** The validated [session.cookie], [session] and [authorizationParams]
    written out as the caller would give them, every key present. *)
Definition raw_of_cookie (c : CookieConfig) : Raw.CookieConfig :=
  {| Raw.domain := domain c;
     Raw.transient := Some (transient c);
     Raw.httpOnly := Some (httpOnly c);
     Raw.sameSite := Some (sameSite c);
     Raw.secure := secure c;
     Raw.path := path c |}.

Definition raw_of_session (s : SessionConfig) : Raw.SessionConfig :=
  {| Raw.rolling := Some (rolling s);
     Raw.rollingDuration := Some (rollingDuration s);
     Raw.absoluteDuration := Some (absoluteDuration s);
     Raw.name := Some (name s);
     Raw.cookie := Some (raw_of_cookie (cookie s)) |}.

Definition raw_of_authorizationParams (a : AuthorizationParameters)
    : Raw.AuthorizationParameters :=
  {| Raw.response_type := Some (response_type a);
     Raw.scope := Some (scope a);
     Raw.response_mode := response_mode a;
     Raw.others := others a |}.

(** *** Concrete configurations *)

Fixpoint scheme_rest (s : string) : bool :=
  match s with
  | EmptyString => false
  | String c s' =>
      if Ascii.eqb c ":" then true
      else (JS.is_upper c || JS.is_lower c || JS.is_digit c
            || existsb (Ascii.eqb c) (list_ascii_of_string "+-."))
           && scheme_rest s'
  end.

(** Whether [s] opens with a URI scheme and a colon. *)
Definition has_scheme (s : string) : bool :=
  match s with
  | EmptyString => false
  | String c s' => (JS.is_upper c || JS.is_lower c) && scheme_rest s'
  end.

(** URI tests for concrete runs: a URI opens with a scheme and has no
    space in it, a relative one has no scheme. The theorems below hold for
    any tests. *)
Definition simple_rules : Joi.UriRules :=
  {| Joi.uri := fun s => has_scheme s && negb (JS.includes s " ");
     Joi.uri_relativeOnly := fun s => negb (has_scheme s) && negb (JS.includes s " ");
     Joi.uri_allowRelative := fun s => negb (JS.includes s " ") |}.

Definition no_env : Env :=
  {| SECRET := None; ISSUER_BASE_URL := None; BASE_URL := None;
     CLIENT_ID := None; CLIENT_SECRET := None |}.

(** The four required settings and nothing else. *)
Definition minimal : Raw.Config unit :=
  {| Raw.secret := Present (Some (SecretString "a long, random secret"));
     Raw.session := None; Raw.auth0Logout := None;
     Raw.authorizationParams := None;
     Raw.baseURL := Present (Some "https://app.example.com");
     Raw.clientID := Present (Some "client-id");
     Raw.clientSecret := Absent; Raw.clockTolerance := None;
     Raw.enableTelemetry := None; Raw.errorOnRequiredAuth := None;
     Raw.attemptSilentLogin := None; Raw.getLoginState := None;
     Raw.identityClaimFilter := None; Raw.idpLogout := None;
     Raw.idTokenSigningAlg := None;
     Raw.issuerBaseURL := Present (Some "https://issuer.example.com");
     Raw.legacySameSiteCookie := None; Raw.authRequired := None;
     Raw.routes := None |}.

(** [{ ...config, authorizationParams: a }] *)
Definition set_authorizationParams {Fn : Type} (a : Raw.AuthorizationParameters)
    (config : Raw.Config Fn) : Raw.Config Fn :=
  {| Raw.secret := Raw.secret config;
     Raw.session := Raw.session config;
     Raw.auth0Logout := Raw.auth0Logout config;
     Raw.authorizationParams := Some a;
     Raw.baseURL := Raw.baseURL config;
     Raw.clientID := Raw.clientID config;
     Raw.clientSecret := Raw.clientSecret config;
     Raw.clockTolerance := Raw.clockTolerance config;
     Raw.enableTelemetry := Raw.enableTelemetry config;
     Raw.errorOnRequiredAuth := Raw.errorOnRequiredAuth config;
     Raw.attemptSilentLogin := Raw.attemptSilentLogin config;
     Raw.getLoginState := Raw.getLoginState config;
     Raw.identityClaimFilter := Raw.identityClaimFilter config;
     Raw.idpLogout := Raw.idpLogout config;
     Raw.idTokenSigningAlg := Raw.idTokenSigningAlg config;
     Raw.issuerBaseURL := Raw.issuerBaseURL config;
     Raw.legacySameSiteCookie := Raw.legacySameSiteCookie config;
     Raw.authRequired := Raw.authRequired config;
     Raw.routes := Raw.routes config |}.

(** [{ ...config, session: s }] *)
Definition set_session {Fn : Type} (s : Raw.SessionConfig)
    (config : Raw.Config Fn) : Raw.Config Fn :=
  {| Raw.secret := Raw.secret config;
     Raw.session := Some s;
     Raw.auth0Logout := Raw.auth0Logout config;
     Raw.authorizationParams := Raw.authorizationParams config;
     Raw.baseURL := Raw.baseURL config;
     Raw.clientID := Raw.clientID config;
     Raw.clientSecret := Raw.clientSecret config;
     Raw.clockTolerance := Raw.clockTolerance config;
     Raw.enableTelemetry := Raw.enableTelemetry config;
     Raw.errorOnRequiredAuth := Raw.errorOnRequiredAuth config;
     Raw.attemptSilentLogin := Raw.attemptSilentLogin config;
     Raw.getLoginState := Raw.getLoginState config;
     Raw.identityClaimFilter := Raw.identityClaimFilter config;
     Raw.idpLogout := Raw.idpLogout config;
     Raw.idTokenSigningAlg := Raw.idTokenSigningAlg config;
     Raw.issuerBaseURL := Raw.issuerBaseURL config;
     Raw.legacySameSiteCookie := Raw.legacySameSiteCookie config;
     Raw.authRequired := Raw.authRequired config;
     Raw.routes := Raw.routes config |}.

(** [{ ...config, idTokenSigningAlg: alg }] *)
Definition set_idTokenSigningAlg {Fn : Type} (alg : string)
    (config : Raw.Config Fn) : Raw.Config Fn :=
  {| Raw.secret := Raw.secret config;
     Raw.session := Raw.session config;
     Raw.auth0Logout := Raw.auth0Logout config;
     Raw.authorizationParams := Raw.authorizationParams config;
     Raw.baseURL := Raw.baseURL config;
     Raw.clientID := Raw.clientID config;
     Raw.clientSecret := Raw.clientSecret config;
     Raw.clockTolerance := Raw.clockTolerance config;
     Raw.enableTelemetry := Raw.enableTelemetry config;
     Raw.errorOnRequiredAuth := Raw.errorOnRequiredAuth config;
     Raw.attemptSilentLogin := Raw.attemptSilentLogin config;
     Raw.getLoginState := Raw.getLoginState config;
     Raw.identityClaimFilter := Raw.identityClaimFilter config;
     Raw.idpLogout := Raw.idpLogout config;
     Raw.idTokenSigningAlg := Some alg;
     Raw.issuerBaseURL := Raw.issuerBaseURL config;
     Raw.legacySameSiteCookie := Raw.legacySameSiteCookie config;
     Raw.authRequired := Raw.authRequired config;
     Raw.routes := Raw.routes config |}.

(** [{ response_type: 'code' }] *)
Definition code_flow : Raw.AuthorizationParameters :=
  {| Raw.response_type := Some "code"; Raw.scope := None;
     Raw.response_mode := None; Raw.others := [] |}.

(** [{ response_type: 'code', response_mode: 'form_post' }] *)
Definition code_flow_form_post : Raw.AuthorizationParameters :=
  {| Raw.response_type := Some "code"; Raw.scope := None;
     Raw.response_mode := Some "form_post"; Raw.others := [] |}.

(** [{ rolling: false }] *)
Definition not_rolling : Raw.SessionConfig :=
  {| Raw.rolling := Some false; Raw.rollingDuration := None;
     Raw.absoluteDuration := None; Raw.name := None; Raw.cookie := None |}.

(** An application that sets most things itself and leaves the URLs and
    the client credentials to the environment. *)
Definition custom_cookie : Raw.CookieConfig :=
  {| Raw.domain := Some "example.com"; Raw.transient := Some true;
     Raw.httpOnly := None; Raw.sameSite := Some "Strict";
     Raw.secure := Some true; Raw.path := Some "/app" |}.

Definition custom_session : Raw.SessionConfig :=
  {| Raw.rolling := Some false; Raw.rollingDuration := None;
     Raw.absoluteDuration := Some (DNumber (of_Z 3600));
     Raw.name := Some "my_session"; Raw.cookie := Some custom_cookie |}.

Definition custom_authorizationParams : Raw.AuthorizationParameters :=
  {| Raw.response_type := Some "code id_token";
     Raw.scope := Some "openid offline_access";
     Raw.response_mode := None;
     Raw.others := [("audience", "https://api.example.com")] |}.

Definition custom_routes : Raw.Routes :=
  {| Raw.login := Some IsFalse; Raw.logout := Some (IsString "/signout");
     Raw.callback := Some "/auth/callback";
     Raw.postLogoutRedirect := Some "/bye" |}.

Definition custom : Raw.Config unit :=
  {| Raw.secret := Present (Some (SecretArray ["a long, random secret";
                                               "the previous secret"]));
     Raw.session := Some custom_session; Raw.auth0Logout := Some true;
     Raw.authorizationParams := Some custom_authorizationParams;
     Raw.baseURL := Absent; Raw.clientID := Absent;
     Raw.clientSecret := Absent; Raw.clockTolerance := Some (of_Z 5);
     Raw.enableTelemetry := Some false; Raw.errorOnRequiredAuth := None;
     Raw.attemptSilentLogin := None; Raw.getLoginState := None;
     Raw.identityClaimFilter := None; Raw.idpLogout := None;
     Raw.idTokenSigningAlg := None; Raw.issuerBaseURL := Absent;
     Raw.legacySameSiteCookie := None; Raw.authRequired := None;
     Raw.routes := Some custom_routes |}.

(** The same application with a second secret that is too short. *)
Definition custom_with_short_secret : Raw.Config unit :=
  {| Raw.secret := Present (Some (SecretArray ["a long, random secret"; "short"]));
     Raw.session := Raw.session custom; Raw.auth0Logout := Raw.auth0Logout custom;
     Raw.authorizationParams := Raw.authorizationParams custom;
     Raw.baseURL := Raw.baseURL custom; Raw.clientID := Raw.clientID custom;
     Raw.clientSecret := Raw.clientSecret custom;
     Raw.clockTolerance := Raw.clockTolerance custom;
     Raw.enableTelemetry := Raw.enableTelemetry custom;
     Raw.errorOnRequiredAuth := Raw.errorOnRequiredAuth custom;
     Raw.attemptSilentLogin := Raw.attemptSilentLogin custom;
     Raw.getLoginState := Raw.getLoginState custom;
     Raw.identityClaimFilter := Raw.identityClaimFilter custom;
     Raw.idpLogout := Raw.idpLogout custom;
     Raw.idTokenSigningAlg := Raw.idTokenSigningAlg custom;
     Raw.issuerBaseURL := Raw.issuerBaseURL custom;
     Raw.legacySameSiteCookie := Raw.legacySameSiteCookie custom;
     Raw.authRequired := Raw.authRequired custom;
     Raw.routes := Raw.routes custom |}.

Definition deployment : Env :=
  {| SECRET := Some "the secret of the environment";
     ISSUER_BASE_URL := Some "https://issuer.example.com";
     BASE_URL := Some "https://app.example.com";
     CLIENT_ID := Some "client-id";
     CLIENT_SECRET := Some "client-secret" |}.

(** The same environment without [SECRET]. *)
Definition deployment_without_secret : Env :=
  {| SECRET := None;
     ISSUER_BASE_URL := Some "https://issuer.example.com";
     BASE_URL := Some "https://app.example.com";
     CLIENT_ID := Some "client-id";
     CLIENT_SECRET := Some "client-secret" |}.

End ConfigValidator.

(** * Properties *)

(** ** JavaScript strings *)

Module JSFacts.

Example encodeURIComponent_path :
  JS.encodeURIComponent "/private" = "%2Fprivate".
Proof. reflexivity. Qed.

Example encodeURIComponent_query :
  JS.encodeURIComponent "/a b?x=1&y=(z)" = "%2Fa%20b%3Fx%3D1%26y%3D(z)".
Proof. reflexivity. Qed.

Example split_cookie_header :
  JS.split ", " "a=1; Expires=Wed, 21 Oct 2015 07:28:00 GMT, b=2"
  = ["a=1; Expires=Wed"; "21 Oct 2015 07:28:00 GMT"; "b=2"].
Proof. reflexivity. Qed.

Example split_empty_string : JS.split ", " "" = [""].
Proof. reflexivity. Qed.

Lemma append_cons (c : ascii) (a b : string) :
  String c a +:+ b = String c (a +:+ b).
Proof. reflexivity. Qed.

Lemma append_nil (b : string) : EmptyString +:+ b = b.
Proof. reflexivity. Qed.

Lemma startsWith_cons (c : ascii) (s : string) (d : ascii) (p : string) :
  JS.startsWith (String c s) (String d p)
  = if ascii_dec d c then JS.startsWith s p else false.
Proof. reflexivity. Qed.

Lemma startsWith_nil (s : string) : JS.startsWith s EmptyString = true.
Proof. by destruct s. Qed.

Lemma includes_cons (c : ascii) (s sub : string) :
  JS.includes (String c s) sub = JS.startsWith (String c s) sub || JS.includes s sub.
Proof. reflexivity. Qed.

Lemma startsWith_app (p s : string) : JS.startsWith (p +:+ s) p = true.
Proof.
  unfold JS.startsWith. induction p as [|c p IH].
  - by destruct s.
  - rewrite append_cons. simpl. destruct (ascii_dec c c); [exact IH | congruence].
Qed.








Lemma append_assoc (a b c : string) : (a +:+ b) +:+ c = a +:+ (b +:+ c).
Proof. induction a as [|x a IH]; [done|]. rewrite !append_cons. by rewrite IH. Qed.


End JSFacts.

(** ** The auth-required gate *)

Module GateSpec.

Import Gate.














Section Wrapped.

Context {FetchEvent : Type}.
Variable href : URL -> string.
Variables login callback : string.
Variable getSessionCache : unit -> SessionCache.

(** A request for the login route, the callback route or a static asset
    passes: the gate returns nothing and calls nobody. *)
Lemma exempt_request_passes
    (middleware : option (@NextMiddleware FetchEvent))
    (req : NextRequest) (event : FetchEvent) (log : list Call) :
  existsb (fun p => JS.startsWith (pathname (nextUrl req)) p)
    [login; callback; "/_next"; "/favicon.ico"] = true ->
  wrappedMiddleware href login callback getSessionCache middleware req event log
    = (None, log).
Proof. intros H. unfold wrappedMiddleware. by rewrite H. Qed.

(** With a session and no response from downstream (no middleware, or one
    that returns nothing), the gate answers with the response that session
    resolution wrote its cookies to. *)
Lemma session_without_downstream_response
    (middleware : option (@NextMiddleware FetchEvent))
    (req : NextRequest) (event : FetchEvent) (log : list Call)
    (session : option Session) (authRes : NextResponse) :
  enforced login callback req ->
  resolved getSessionCache req = (session, authRes) ->
  session_user session = true ->
  match middleware with Some mw => mw req event = None | None => True end ->
  fst (wrappedMiddleware href login callback getSessionCache middleware req event log)
    = Some authRes.
Proof.
  unfold enforced, resolved. intros Hpath Hget Huser Hmw.
  unfold wrappedMiddleware. rewrite Hpath.
  unfold bind, call, ret. rewrite Hget, Huser. cbn [negb]. cbv beta iota.
  destruct middleware as [mw|]; [by rewrite Hmw | done].
Qed.

(** C1 (as amended). For a request whose path starts with no exempt prefix
    and for which the session cache yields no session with a user, the gate
    calls the session cache and nothing else, so the downstream handler is
    not invoked; for a path starting with [/api] the response has status
    401 and the JSON body [{error: 'not_authenticated', description: ...}];
    for every other path it is a redirect with the framework's default
    status, 307, to [new URL(login + '?returnTo=' +
    encodeURIComponent(pathname + search), origin)]. *)
Theorem unauthenticated_request_is_stopped
    (middleware : option (@NextMiddleware FetchEvent))
    (req : NextRequest) (event : FetchEvent) (log : list Call) :
  enforced login callback req ->
  session_user (fst (resolved getSessionCache req)) = false ->
  exists r,
    wrappedMiddleware href login callback getSessionCache middleware req event log
      = (Some r, log ++ [CallSessionGet req]) /\
    (JS.startsWith (pathname (nextUrl req)) "/api" = true ->
       status r = 401 /\
       body r = Some [("error", "not_authenticated");
                      ("description",
                       "The user does not have an active session or is not authenticated")]) /\
    (JS.startsWith (pathname (nextUrl req)) "/api" = false ->
       status r = 307 /\
       body r = None /\
       Headers.get "location" (headers r) =
         Some (href (new_URL
                 (login +:+ "?returnTo=" +:+
                  JS.encodeURIComponent (pathname (nextUrl req) +:+ search (nextUrl req)))
                 (origin (nextUrl req))))).
Proof.
  unfold enforced, resolved. intros Hpath Hnone.
  unfold wrappedMiddleware. rewrite Hpath.
  unfold bind, call.
  destruct (sessionCache_get (getSessionCache tt) req (NextResponse_next no_init))
    as [session authRes].
  simpl in Hnone. rewrite Hnone. cbn [negb]. cbv beta iota.
  destruct (JS.startsWith (pathname (nextUrl req)) "/api") eqn:Hapi.
  - eexists. split; [reflexivity|]. split; [|discriminate].
    intros _. split; reflexivity.
  - eexists. split; [reflexivity|]. split; [discriminate|].
    intros _. repeat split.
Qed.


End Wrapped.

(** C1, the claim as stated fails: the gate passes no status to
    [NextResponse.redirect], so an unauthenticated request to [/private] is
    answered with the framework's default, 307, not with 302. The target
    is the login route with [returnTo=%2Fprivate], as the claim says. *)
Lemma unauthenticated_page_request_gets_307 :
  fst (wrappedMiddleware href_of_path "/login" "/callback"
         (fun _ => empty_cache) None
         (request_to "http://localhost:3000" "/private" "") tt [])
    = Some {| status := 307;
              headers := [("location", "http://localhost:3000/login?returnTo=%2Fprivate")];
              body := None |} /\
  status <$> fst (wrappedMiddleware href_of_path "/login" "/callback"
                    (fun _ => empty_cache) None
                    (request_to "http://localhost:3000" "/private" "") tt [])
    <> Some 302.
Proof. split; [reflexivity | discriminate]. Qed.

Lemma unauthenticated_request_is_stopped_witness :
  exists r,
    wrappedMiddleware href_of_path "/login" "/callback" (fun _ => empty_cache)
      (Some language_middleware)
      (request_to "http://localhost:3000" "/api/orders" "?page=2") tt []
      = (Some r, [CallSessionGet (request_to "http://localhost:3000" "/api/orders" "?page=2")])
    /\ status r = 401.
Proof.
  destruct (unauthenticated_request_is_stopped href_of_path "/login" "/callback"
              (fun _ => empty_cache) (Some language_middleware)
              (request_to "http://localhost:3000" "/api/orders" "?page=2") tt [])
    as (r & Hrun & Hapi & _); [reflexivity | reflexivity |].
  exists r. split; [exact Hrun | apply Hapi; reflexivity].
Defined.


End GateSpec.

(** ** The Node response abstraction *)

Module NodeResponseSpec.

Import NodeResponse.

Lemma filter_negb_twice {A : Type} (f : A -> bool) (l : list A) :
  List.filter (fun x => negb (f x)) (List.filter (fun x => negb (f x)) l)
  = List.filter (fun x => negb (f x)) l.
Proof.
  induction l as [|x l IH]; [done|]. simpl.
  destruct (f x) eqn:Hx; simpl; [done|]. by rewrite Hx, IH.
Qed.


Lemma invalidHeaderChar_cons (c : ascii) (s' : string) :
  invalidHeaderChar (String c s')
  = let b := nat_of_ascii c in
    if (b =? 9)%nat || ((32 <=? b)%nat && (b <=? 126)%nat) then invalidHeaderChar s'
    else if (b =? 194)%nat || (b =? 195)%nat then
      match s' with
      | String c' s'' =>
          if (128 <=? nat_of_ascii c')%nat && (nat_of_ascii c' <=? 191)%nat
          then invalidHeaderChar s''
          else true
      | EmptyString => true
      end
    else true.
Proof. reflexivity. Qed.

(** A comma ends whatever stands before it: the text before and the text
    after it are tested on their own. *)
Lemma invalidHeaderChar_comma (a b : string) :
  invalidHeaderChar (a +:+ String "," b) = invalidHeaderChar a || invalidHeaderChar b.
Proof.
  remember (String.length a) as n eqn:Hn. revert a Hn.
  induction n as [n IH] using lt_wf_ind. intros a Hn.
  destruct a as [|c a]; [reflexivity|].
  rewrite JSFacts.append_cons, !invalidHeaderChar_cons. cbv zeta.
  destruct ((nat_of_ascii c =? 9)%nat
            || ((32 <=? nat_of_ascii c)%nat && (nat_of_ascii c <=? 126)%nat)).
  { apply (IH (String.length a)); [simpl in Hn; lia | done]. }
  destruct ((nat_of_ascii c =? 194)%nat || (nat_of_ascii c =? 195)%nat); [|done].
  destruct a as [|c' a]; [reflexivity|].
  rewrite JSFacts.append_cons.
  destruct ((128 <=? nat_of_ascii c')%nat && (nat_of_ascii c' <=? 191)%nat); [|done].
  apply (IH (String.length a)); [simpl in Hn; lia | done].
Qed.

(** An array passes the test exactly when each of its items does. *)
Lemma invalidHeaderChar_join (l : list string) :
  invalidHeaderChar (JS.join "," l) = existsb invalidHeaderChar l.
Proof.
  induction l as [|x l IH]; [done|].
  destruct l as [|y l].
  - simpl. by rewrite orb_false_r.
  - change (JS.join "," (x :: y :: l)) with (x +:+ "," +:+ JS.join "," (y :: l)).
    change ("," +:+ JS.join "," (y :: l)) with (String "," (JS.join "," (y :: l))).
    rewrite invalidHeaderChar_comma, IH. reflexivity.
Qed.



Lemma setHeader_Normal (name : string) (v : HeaderValue) (res res' : ServerResponse) :
  setHeader name v res = Normal res' ->
  headersSent res = false /\ is_http_token name = true /\ invalid_value v = false /\
  res' = with_headers (<[JS.toLowerCase name := v]> (default ∅ (headers res))) res.
Proof.
  unfold setHeader. destruct (headersSent res); [discriminate|].
  destruct (is_http_token name); [|discriminate]. cbn [negb].
  destruct (invalid_value v); [discriminate|]. by intros [= <-].
Qed.

Lemma setHeader_ok (name : string) (v : HeaderValue) (res : ServerResponse) :
  headersSent res = false -> is_http_token name = true -> invalid_value v = false ->
  setHeader name v res
  = Normal (with_headers (<[JS.toLowerCase name := v]> (default ∅ (headers res))) res).
Proof. unfold setHeader. by intros -> -> ->. Qed.

(** A [setHeader] that throws leaves the response as it was. *)
Lemma setHeader_Thrown (name : string) (v : HeaderValue) (res res' : ServerResponse)
    (e : Error) :
  setHeader name v res = Thrown e res' ->
  res' = res /\
  match e with
  | ERR_HTTP_HEADERS_SENT => headersSent res = true
  | ERR_INVALID_HTTP_TOKEN => headersSent res = false /\ is_http_token name = false
  | ERR_INVALID_CHAR => headersSent res = false /\ invalid_value v = true
  | _ => False
  end.
Proof.
  unfold setHeader. destruct (headersSent res); [by intros [= <- <-]|].
  destruct (is_http_token name); cbn [negb]; [|by intros [= <- <-]].
  destruct (invalid_value v); [by intros [= <- <-] | discriminate].
Qed.

Lemma getHeader_with_headers (name : string) (v : HeaderValue)
    (table : gmap string HeaderValue) (res : ServerResponse) :
  getHeader name (with_headers (<[JS.toLowerCase name := v]> table) res) = Some v.
Proof. unfold getHeader, with_headers. simpl. apply lookup_insert_eq. Qed.

Lemma lookup_table (name : string) (res : ServerResponse) :
  default ∅ (headers res) !! JS.toLowerCase name = getHeader name res.
Proof. unfold getHeader. destruct (headers res); simpl; [done | apply lookup_empty]. Qed.

Lemma getHeader_with_headers_other (n m : string) (v : HeaderValue)
    (res : ServerResponse) :
  JS.toLowerCase n <> JS.toLowerCase m ->
  getHeader n (with_headers (<[JS.toLowerCase m := v]> (default ∅ (headers res))) res)
  = getHeader n res.
Proof.
  intros H. unfold getHeader at 1. unfold with_headers. simpl.
  rewrite lookup_insert_ne by done. apply lookup_table.
Qed.

(** After [setHeader('Set-Cookie', l)] the header carries the list [l]. *)
Lemma cookies_with_headers (l : list string) (table : gmap string HeaderValue)
    (res : ServerResponse) :
  cookies (with_headers (<[JS.toLowerCase "Set-Cookie" := HArray l]> table) res) = l.
Proof. unfold cookies. by rewrite getHeader_with_headers. Qed.

Lemma cookie_name_cons (c : ascii) (rest : string) :
  cookie_name (String c rest)
  = if Ascii.eqb c "=" then Some EmptyString else String c <$> cookie_name rest.
Proof. reflexivity. Qed.

(** For a name without an equals sign, the test of the source picks
    exactly the cookie strings of that name. *)
Lemma cookie_named_iff_name (name cookie : string) :
  JS.includes name "=" = false ->
  cookie_named name cookie = true <-> cookie_name cookie = Some name.
Proof.
  unfold cookie_named. revert cookie.
  induction name as [|n name IH]; intros cookie Hname.
  - rewrite JSFacts.append_nil. destruct cookie as [|a r]; [done|].
    rewrite JSFacts.startsWith_cons, cookie_name_cons, JSFacts.startsWith_nil.
    destruct (ascii_dec "=" a) as [<-|Hne]; [done|].
    destruct (Ascii.eqb a "=") eqn:Ha.
    + apply Ascii.eqb_eq in Ha. congruence.
    + destruct (cookie_name r); simpl; split; congruence.
  - rewrite JSFacts.includes_cons, JSFacts.startsWith_cons in Hname.
    apply orb_false_iff in Hname as (Hn & Hname).
    rewrite JSFacts.append_cons.
    destruct cookie as [|a r]; [done|].
    rewrite JSFacts.startsWith_cons, cookie_name_cons.
    destruct (Ascii.eqb a "=") eqn:Ha.
    + apply Ascii.eqb_eq in Ha. subst a.
      destruct (ascii_dec n "=") as [->|Hne]; [|done].
      destruct (ascii_dec "=" "="); [|done].
      by rewrite JSFacts.startsWith_nil in Hn.
    + destruct (ascii_dec n a) as [<-|Hna].
      * rewrite (IH r Hname).
        destruct (cookie_name r); simpl; split; congruence.
      * destruct (cookie_name r); simpl; split; congruence.
Qed.

Lemma serialize_basic_named (name value : string) (o : option unit) (c : string) :
  serialize_basic name value o = Some c -> cookie_named name c = true.
Proof.
  unfold serialize_basic, cookie_named. destruct (String.eqb name ""); [done|].
  intros [= <-]. rewrite <- JSFacts.append_assoc. apply JSFacts.startsWith_app.
Qed.

Lemma token_Set_Cookie : is_http_token "Set-Cookie" = true.
Proof. reflexivity. Qed.

Lemma token_Location : is_http_token "Location" = true.
Proof. reflexivity. Qed.

Lemma writeHead_Thrown_sent (status : Z) (hs : list (string * HeaderValue))
    (res : ServerResponse) :
  headersSent res = true -> writeHead status hs res = Thrown ERR_HTTP_HEADERS_SENT res.
Proof. unfold writeHead. by intros ->. Qed.

Lemma writeHead_Thrown_status (status : Z) (hs : list (string * HeaderValue))
    (res : ServerResponse) :
  headersSent res = false ->
  ~ (100 <= to_int32 status <= 999) ->
  writeHead status hs res = Thrown ERR_HTTP_INVALID_STATUS_CODE res.
Proof.
  unfold writeHead. intros -> Hs.
  replace ((to_int32 status <? 100) || (999 <? to_int32 status)) with true; [done|].
  symmetry. apply orb_true_iff.
  destruct (Z.ltb_spec (to_int32 status) 100); [by left|].
  destruct (Z.ltb_spec 999 (to_int32 status)); [by right|]. lia.
Qed.

(** [writeHead(status, { Location: v })] with a status, a status message
    and a value that Node accepts, on a response whose head has not been
    sent. *)
Lemma writeHead_Location (status : Z) (v : HeaderValue) (res : ServerResponse) :
  headersSent res = false ->
  100 <= to_int32 status <= 999 ->
  invalid_message res = false ->
  invalid_value v = false ->
  exists res',
    writeHead status [("Location", v)] res = Normal res' /\
    statusCode res' = to_int32 status /\
    headers res' = (<[JS.toLowerCase "Location" := v]> <$> headers res) /\
    head res'
      = Some {| head_status := to_int32 status;
                head_headers := <[JS.toLowerCase "Location" := v]> (default ∅ (headers res)) |} /\
    hasBody res' = hasBody res && negb (bodiless (to_int32 status)) /\
    written res' = written res /\
    writableEnded res' = writableEnded res.
Proof.
  intros Hsent Hs Hm Hv. unfold writeHead. rewrite Hsent.
  replace ((to_int32 status <? 100) || (999 <? to_int32 status)) with false.
  2:{ symmetry. apply orb_false_iff. split; [apply Z.ltb_ge | apply Z.ltb_ge]; lia. }
  cbv zeta. cbn [headers with_status].
  destruct (headers res) as [table|] eqn:Htable.
  - cbn [setHeaders fst snd].
    replace (String.eqb "Location" "") with false by reflexivity.
    rewrite setHeader_ok; [|done|done|done].
    cbn [and_then headers with_status with_headers default from_option id].
    unfold invalid_message in *. cbn [statusMessage with_headers with_status].
    rewrite Hm, Htable. cbn [headers without_body_after with_headers].
    eexists. split; [reflexivity|]. by repeat split.
  - cbn [and_then]. unfold invalid_message in *. cbn [statusMessage with_status].
    rewrite Hm. cbn [headers without_body_after with_status]. rewrite Htable.
    cbn [storeHeaders fst snd]. rewrite token_Location, Hv. cbn [negb].
    eexists. split; [reflexivity|]. by repeat split.
Qed.

(** What a [writeHead] that returns has done, and what one that throws
    has not. *)
Lemma writeHead_inv (status : Z) (v : HeaderValue) (res : ServerResponse) :
  match writeHead status [("Location", v)] res with
  | Normal r =>
      headersSent res = false /\ headersSent r = true /\
      written r = written res /\ writableEnded r = writableEnded res /\
      getHeader "Set-Cookie" r = getHeader "Set-Cookie" res
  | Thrown e r =>
      head r = head res /\ written r = written res /\
      writableEnded r = writableEnded res /\
      getHeader "Set-Cookie" r = getHeader "Set-Cookie" res
  end.
Proof.
  unfold writeHead. destruct (headersSent res) eqn:Hsent; [done|].
  destruct ((to_int32 status <? 100) || (999 <? to_int32 status)); [done|].
  cbv zeta. cbn [headers with_status].
  destruct (headers res) as [table|] eqn:Htable.
  - cbn [setHeaders fst snd].
    replace (String.eqb "Location" "") with false by reflexivity.
    destruct (setHeader "Location" v (with_status (to_int32 status) res))
      as [r|e r] eqn:Hset; cbn [and_then].
    + apply setHeader_Normal in Hset as (_ & _ & _ & ->).
      destruct (invalid_message _).
      * cbn [head written writableEnded with_headers with_status].
        repeat split. unfold getHeader. cbn [headers with_headers with_status default
          from_option id]. rewrite Htable. simpl. by rewrite lookup_insert_ne.
      * cbn [headers without_body_after with_headers].
        cbn [headersSent head written writableEnded with_head without_body_after
             with_headers with_status].
        repeat split. unfold getHeader. cbn [headers with_head without_body_after
          with_headers with_status default from_option id]. rewrite Htable. simpl.
        by rewrite lookup_insert_ne.
    + apply setHeader_Thrown in Hset as (-> & _).
      unfold getHeader. by cbn [head written writableEnded headers with_status].
  - cbn [and_then]. destruct (invalid_message _).
    { unfold getHeader. by cbn [head written writableEnded headers with_status]. }
    cbn [headers without_body_after with_status]. rewrite Htable.
    cbn [storeHeaders fst snd].
    destruct (negb (is_http_token "Location")).
    { unfold getHeader.
      by cbn [head written writableEnded headers without_body_after with_status]. }
    destruct (invalid_value v).
    { unfold getHeader.
      by cbn [head written writableEnded headers without_body_after with_status]. }
    unfold getHeader.
    cbn [headersSent head written writableEnded headers with_head without_body_after
         with_status].
    by rewrite Htable.
Qed.

Lemma with_headers_twice (t t' : gmap string HeaderValue) (res : ServerResponse) :
  with_headers t' (with_headers t res) = with_headers t' res.
Proof. reflexivity. Qed.

(** [end(data)] on a response whose head has been sent. *)
Lemma end_after_head (data : string) (res : ServerResponse) :
  writableEnded res = false -> headersSent res = true ->
  end_ data res
  = Normal {| statusCode := statusCode res;
              statusMessage := statusMessage res;
              headers := headers res;
              head := head res;
              hasBody := hasBody res;
              written := if hasBody res && negb (String.eqb data "")
                         then written res ++ [data] else written res;
              writableEnded := true |}.
Proof. unfold end_. by intros -> ->. Qed.

Section Methods.

Context {CookieSerializeOptions : Type}.
Variable serialize : string -> string -> option CookieSerializeOptions -> option string.
Variable htmlSafe : string -> string.

(** What [setCookie] relies on in [serialize]: the string it returns opens
    with the cookie's name and an equals sign. *)
Hypothesis serialize_names_cookie :
  forall name value options c,
    serialize name value options = Some c -> cookie_named name c = true.



(** X11. [setCookie] is idempotent: a second call with the same name,
    value and options leaves the response exactly as the first call made
    it, with no second entry and no change of order. *)
Lemma setCookie_idempotent (name value : string)
    (options : option CookieSerializeOptions) (res res1 : ServerResponse) :
  setCookie serialize name value options res = Normal res1 ->
  setCookie serialize name value options res1 = Normal res1.
Proof.
  unfold setCookie. destruct (serialize name value options) as [c|] eqn:Hc; [|done].
  intros H. apply setHeader_Normal in H as (Hsent & Htoken & Hvalid & ->).
  rewrite cookies_with_headers.
  rewrite List.filter_app, filter_negb_twice. simpl.
  rewrite (serialize_names_cookie _ _ _ _ Hc). simpl. rewrite app_nil_r.
  rewrite setHeader_ok; [|done|done|done].
  rewrite with_headers_twice. cbn [headers with_headers default from_option id].
  by rewrite insert_insert_eq.
Qed.


(** C4 (as amended). [redirect(location, status)] changes nothing on a
    response that has been finalized ([writableEnded]). On another
    response whose head has been sent it throws [ERR_HTTP_HEADERS_SENT],
    and for a status (302 when none is given, taken as a 32-bit integer)
    outside 100..999 it throws [ERR_HTTP_INVALID_STATUS_CODE]; in both
    cases the response is left as it was. Otherwise, when the [Location]
    value is a valid header value (and so is the status message, if the
    application has set one), it sets the status, sends the head with
    that status and with [Location] (the non-empty value already set, else
    [location]) beside the headers already set, writes the HTML-escaped
    [location] as the one new body chunk (none if it is empty or the
    response has no body, as after 204, 304 or 1xx) and ends the
    response. *)
Theorem redirect_is_noop_once_finalized
    (location : string) (status : option Z) (res : ServerResponse) :
  (writableEnded res = true -> redirect htmlSafe location status res = Normal res) /\
  (writableEnded res = false -> headersSent res = true ->
     redirect htmlSafe location status res = Thrown ERR_HTTP_HEADERS_SENT res) /\
  (writableEnded res = false -> headersSent res = false ->
     ~ (100 <= to_int32 (default 302 status) <= 999) ->
     redirect htmlSafe location status res = Thrown ERR_HTTP_INVALID_STATUS_CODE res) /\
  (writableEnded res = false -> headersSent res = false ->
     100 <= to_int32 (default 302 status) <= 999 ->
     invalid_message res = false ->
     invalid_value (or_else (getHeader "Location" res) (HString location)) = false ->
     exists res' h,
       redirect htmlSafe location status res = Normal res' /\
       statusCode res' = to_int32 (default 302 status) /\
       head res' = Some h /\
       head_status h = to_int32 (default 302 status) /\
       head_headers h !! "location"
         = Some (or_else (getHeader "Location" res) (HString location)) /\
       (forall name, JS.toLowerCase name <> "location" ->
          head_headers h !! JS.toLowerCase name = getHeader name res) /\
       hasBody res' = hasBody res && negb (bodiless (to_int32 (default 302 status))) /\
       written res'
         = written res ++
           (if hasBody res' && negb (String.eqb (htmlSafe location) "")
            then [htmlSafe location] else []) /\
       writableEnded res' = true).
Proof.
  unfold redirect. split; [by intros ->|]. split; [|split].
  - intros -> Hsent. by rewrite writeHead_Thrown_sent.
  - intros -> Hsent Hs. by rewrite writeHead_Thrown_status.
  - intros Hopen Hsent Hs Hm Hv. rewrite Hopen.
    destruct (writeHead_Location (default 302 status) _ res Hsent Hs Hm Hv)
      as (r & -> & Hstatus & Htable & Hhead & Hbody & Hwritten & Hended).
    cbn [and_then]. rewrite end_after_head;
      [|by rewrite Hended|by unfold headersSent; rewrite Hhead].
    eexists. eexists. split; [reflexivity|]. cbn [statusCode head hasBody written writableEnded].
    split; [done|]. split; [exact Hhead|]. cbn [head_status head_headers].
    split; [done|]. split; [apply lookup_insert_eq|]. split.
    { intros name Hname. rewrite lookup_insert_ne by (intros Heq; by rewrite <- Heq in Hname).
      apply lookup_table. }
    split; [done|]. split; [|done].
    rewrite Hwritten. destruct (hasBody r && negb (String.eqb (htmlSafe location) ""));
      [done | by rewrite app_nil_r].
Qed.

(** C10 (as amended). If the response has not been finalized, its head
    has not been sent and it already carries a non-empty [Location] header
    (a valid header value, as is the status message if one is set), then
    [redirect(location, status)] with a status in 100..999 sends that header value rather than its [location]
    argument and leaves it in the header table, while the body chunk it
    writes is the HTML-escaped [location] argument (none if that is empty
    or the response has no body). *)
Theorem redirect_keeps_existing_location
    (location : string) (status : option Z) (res : ServerResponse) (v : HeaderValue) :
  writableEnded res = false ->
  headersSent res = false ->
  getHeader "Location" res = Some v ->
  truthy (Some v) = true ->
  invalid_value v = false ->
  invalid_message res = false ->
  100 <= to_int32 (default 302 status) <= 999 ->
  exists res' h,
    redirect htmlSafe location status res = Normal res' /\
    head res' = Some h /\
    head_headers h !! "location" = Some v /\
    getHeader "Location" res' = Some v /\
    written res'
      = written res ++
        (if hasBody res' && negb (String.eqb (htmlSafe location) "")
         then [htmlSafe location] else []).
Proof.
  intros Hopen Hsent Hloc Htruthy Hv Hm Hs. unfold redirect. rewrite Hopen, Hloc.
  assert (or_else (Some v) (HString location) = v) as ->.
  { unfold or_else. by rewrite Htruthy. }
  destruct (writeHead_Location (default 302 status) v res Hsent Hs Hm Hv)
    as (r & -> & Hstatus & Htable & Hhead & Hbody & Hwritten & Hended).
  cbn [and_then]. rewrite end_after_head;
    [|by rewrite Hended|by unfold headersSent; rewrite Hhead].
  eexists. eexists. split; [reflexivity|]. cbn [head written hasBody].
  split; [exact Hhead|]. cbn [head_headers].
  split; [apply lookup_insert_eq|]. split.
  - unfold getHeader in *. cbn [headers]. rewrite Htable.
    destruct (headers res) as [table|]; [|done]. simpl. apply lookup_insert_eq.
  - rewrite Hwritten. destruct (hasBody r && negb (String.eqb (htmlSafe location) ""));
      [done | by rewrite app_nil_r].
Qed.

End Methods.



Lemma redirect_keeps_existing_location_witness :
  exists res' h,
    redirect htmlSafe "/second?a=<b>" None (fresh_with "Location" (HString "/first"))
      = Normal res' /\
    head res' = Some h /\
    head_headers h !! "location" = Some (HString "/first") /\
    written res' = ["/second?a=&lt;b&gt;"].
Proof.
  destruct (redirect_keeps_existing_location htmlSafe "/second?a=<b>" None
              (fresh_with "Location" (HString "/first")) (HString "/first")
              eq_refl eq_refl eq_refl eq_refl eq_refl eq_refl)
    as (res' & h & Hrun & Hhead & Hlocation & _ & Hwritten).
  { split; vm_compute; discriminate. }
  exists res', h. split; [exact Hrun|]. split; [exact Hhead|].
  split; [exact Hlocation|]. rewrite Hwritten.
  assert (hasBody res' = true) as ->.
  { vm_compute in Hrun. by injection Hrun as <-. }
  reflexivity.
Defined.

Lemma redirect_is_noop_once_finalized_witness :
  redirect htmlSafe "/elsewhere" (Some 301) ended = Normal ended /\
  exists res',
    redirect htmlSafe "/login?next=<home>" None fresh = Normal res' /\
    statusCode res' = 302 /\
    writableEnded res' = true.
Proof.
  destruct (redirect_is_noop_once_finalized htmlSafe "/elsewhere" (Some 301) ended)
    as (Hended & _).
  destruct (redirect_is_noop_once_finalized htmlSafe "/login?next=<home>" None fresh)
    as (_ & _ & _ & Hopen).
  destruct (Hopen eq_refl eq_refl) as (res' & h & Hrun & Hstatus & _ & _ & _ & _ & _ & _ & Hend).
  { split; vm_compute; discriminate. }
  { reflexivity. }
  { reflexivity. }
  split; [exact (Hended eq_refl)|].
  exists res'. split; [exact Hrun|]. split; [exact Hstatus | exact Hend].
Defined.

(** C4, the claim as stated fails: on a response that has not been
    finalized it need not write anything. With the status 0, [writeHead]
    throws [ERR_HTTP_INVALID_STATUS_CODE] (a [RangeError]): no status, no
    [Location] and no body are written, and the response stays open. *)
Lemma redirect_with_status_0_throws :
  writableEnded fresh = false /\
  redirect htmlSafe "/a" (Some 0) fresh = Thrown ERR_HTTP_INVALID_STATUS_CODE fresh /\
  head fresh = None /\
  written fresh = [].
Proof. repeat split. Qed.

(** C10, the claim as stated fails in two ways. After a first
    [redirect('/a')] the head with [Location: /a] has been sent and the
    response is finalized, so a second [redirect('/b')] writes nothing:
    the body stays the escaped first location. And an empty [Location]
    header, although set, gives way to the [location] argument. *)
Lemma second_redirect_writes_no_body :
  (exists r1 h,
     redirect htmlSafe "/a" None fresh = Normal r1 /\
     head r1 = Some h /\
     head_headers h !! "location" = Some (HString "/a") /\
     redirect htmlSafe "/b" None r1 = Normal r1 /\
     written r1 = ["/a"]) /\
  (exists r2 h,
     getHeader "Location" (fresh_with "Location" (HString "")) = Some (HString "") /\
     redirect htmlSafe "/b" None (fresh_with "Location" (HString "")) = Normal r2 /\
     head r2 = Some h /\
     head_headers h !! "location" = Some (HString "/b")).
Proof.
  split.
  - eexists. eexists. split; [reflexivity|]. split; [reflexivity|]. by repeat split.
  - eexists. eexists. split; [reflexivity|]. split; [reflexivity|]. by repeat split.
Qed.

(** On a response without a header table, the [Location] goes into the
    head only: [getHeader] still gives nothing after the redirect. *)
Example redirect_fresh :
  exists res h,
    redirect htmlSafe "/login?x=<script>" None fresh = Normal res /\
    statusCode res = 302 /\
    head res = Some h /\
    head_headers h !! "location" = Some (HString "/login?x=<script>") /\
    getHeader "Location" res = None /\
    written res = ["/login?x=&lt;script&gt;"] /\
    writableEnded res = true.
Proof. eexists. eexists. split; [reflexivity|]. by repeat split. Qed.

(** No body is written with the status 304. *)
Example redirect_not_modified :
  exists res,
    redirect htmlSafe "/login" (Some 304) fresh = Normal res /\
    statusCode res = 304 /\ written res = [] /\ writableEnded res = true.
Proof. eexists. split; [reflexivity|]. by repeat split. Qed.

End NodeResponseSpec.

(** ** The configuration validator *)

Module ConfigSpec.

Import ConfigValidator.

Lemma bind_Ok {A B : Type} (m : Joi.Result A) (k : A -> Joi.Result B) (b : B) :
  Joi.bind m k = Joi.Ok b -> exists a, m = Joi.Ok a /\ k a = Joi.Ok b.
Proof. destruct m as [a|e]; simpl; [eauto | discriminate]. Qed.

Lemma string_rule_Ok (p : list string) (rule : string -> bool) (t : Joi.ErrorCode)
    (s s' : string) :
  Joi.string_rule p rule t s = Joi.Ok s' -> s' = s /\ s <> EmptyString /\ rule s = true.
Proof.
  unfold Joi.string_rule. destruct (String.eqb s "") eqn:He; [discriminate|].
  destruct (rule s); [|discriminate]. intros [= <-].
  apply String.eqb_neq in He. done.
Qed.

Lemma only_Ok (p : list string) (allowed : list string) (s s' : string) :
  only p allowed s = Joi.Ok s' -> s' = s /\ In s allowed.
Proof.
  unfold only. destruct (existsb (String.eqb s) allowed) eqn:He; [|discriminate].
  intros [= <-]. split; [done|].
  apply existsb_exists in He as (x & Hx & Heq).
  apply String.eqb_eq in Heq. by subst.
Qed.

Ltac joi_inv H :=
  repeat (let a := fresh "v" in
          let Ha := fresh "Hv" in
          apply bind_Ok in H; destruct H as (a & Ha & H)).

Section Validated.

Context {Fn : Type}.
Variable defaultState : Fn.
Variable rules : Joi.UriRules.

(** A configuration the schema accepts is made of the results of the
    validators of its keys. *)
Lemma paramsSchema_validate_Ok (config : Raw.Config Fn) (cfg : Config Fn) :
  paramsSchema_validate defaultState rules config = Joi.Ok cfg ->
  validate_secret (key_value (Raw.secret config)) = Joi.Ok (secret cfg) /\
  validate_session rules (Raw.session config) = Joi.Ok (session cfg) /\
  validate_authorizationParams (Raw.authorizationParams config)
    = Joi.Ok (authorizationParams cfg) /\
  required_string ["baseURL"] (Joi.uri rules) Joi.string_uri
    (key_value (Raw.baseURL config)) = Joi.Ok (baseURL cfg) /\
  required_string ["clientID"] Joi.any_string Joi.string_empty
    (key_value (Raw.clientID config)) = Joi.Ok (clientID cfg) /\
  validate_clockTolerance (Raw.clockTolerance config) = Joi.Ok (clockTolerance cfg) /\
  identityClaimFilter cfg
    = default identityClaimFilter_default (Raw.identityClaimFilter config) /\
  validate_idTokenSigningAlg (Raw.idTokenSigningAlg config)
    = Joi.Ok (idTokenSigningAlg cfg) /\
  validate_clientSecret (response_type (authorizationParams cfg)) (idTokenSigningAlg cfg)
    (key_value (Raw.clientSecret config)) = Joi.Ok (clientSecret cfg) /\
  required_string ["issuerBaseURL"] (Joi.uri rules) Joi.string_uri
    (key_value (Raw.issuerBaseURL config)) = Joi.Ok (issuerBaseURL cfg) /\
  validate_routes rules (Raw.routes config) = Joi.Ok (routes cfg).
Proof.
  unfold paramsSchema_validate. intros H. joi_inv H.
  injection H as <-. simpl. repeat split; assumption.
Qed.

Lemma get_Returns (env : Env) (params : option (Raw.Config Fn)) (cfg : Config Fn) :
  get defaultState rules env params = Returns cfg <->
  paramsSchema_validate defaultState rules (given env params) = Joi.Ok cfg.
Proof.
  unfold get, given, supplied.
  destruct (paramsSchema_validate _ _ _); split; congruence.
Qed.

Lemma get_Throws (env : Env) (params : option (Raw.Config Fn)) :
  (forall cfg, get defaultState rules env params <> Returns cfg) ->
  exists e, get defaultState rules env params = ThrowsTypeError e.
Proof.
  intros H. destruct (get defaultState rules env params) as [cfg|e]; [|eauto].
  by destruct (H cfg).
Qed.

Lemma validate_cookie_Ok (v : option Raw.CookieConfig) (c : CookieConfig) :
  validate_cookie rules v = Joi.Ok c ->
  httpOnly c = default true (Raw.httpOnly (default Raw.no_cookie v)) /\
  match Raw.sameSite (default Raw.no_cookie v) with
  | None => sameSite c = "Lax"
  | Some s => sameSite c = s /\ In s ["Lax"; "Strict"; "None"]
  end.
Proof.
  unfold validate_cookie. intros H. joi_inv H. injection H as <-. simpl.
  split; [done|].
  destruct (Raw.sameSite (default Raw.no_cookie v)) as [s|].
  - by apply only_Ok in Hv0.
  - by injection Hv0.
Qed.

Lemma validate_session_Ok (v : option Raw.SessionConfig) (s : SessionConfig) :
  validate_session rules v = Joi.Ok s ->
  rolling s = default true (Raw.rolling (default Raw.no_session v)) /\
  validate_rollingDuration (rolling s) (Raw.rollingDuration (default Raw.no_session v))
    = Joi.Ok (rollingDuration s) /\
  validate_absoluteDuration (rolling s) (Raw.absoluteDuration (default Raw.no_session v))
    = Joi.Ok (absoluteDuration s) /\
  validate_cookie rules (Raw.cookie (default Raw.no_session v)) = Joi.Ok (cookie s).
Proof.
  unfold validate_session. intros H. joi_inv H. injection H as <-. by simpl.
Qed.

Lemma validate_authorizationParams_Ok (v : option Raw.AuthorizationParameters)
    (a : AuthorizationParameters) :
  validate_authorizationParams v = Joi.Ok a ->
  match Raw.response_type (default Raw.no_authorizationParams v) with
  | None => response_type a = "id_token"
  | Some t => response_type a = t /\ In t ["id_token"; "code id_token"; "code"]
  end /\
  validate_response_mode (response_type a)
    (Raw.response_mode (default Raw.no_authorizationParams v))
    = Joi.Ok (response_mode a).
Proof.
  unfold validate_authorizationParams. intros H. joi_inv H. injection H as <-. simpl.
  split; [|done].
  destruct (Raw.response_type (default Raw.no_authorizationParams v)) as [t|].
  - by apply only_Ok in Hv.
  - by injection Hv.
Qed.

Lemma validate_routes_Ok (v : option Raw.Routes) (r : Routes) :
  validate_routes rules v = Joi.Ok r ->
  (Raw.login (default Raw.no_routes v) = None -> login r = IsString "/login") /\
  (Raw.logout (default Raw.no_routes v) = None -> logout r = IsString "/logout") /\
  (Raw.callback (default Raw.no_routes v) = None -> callback r = "/callback").
Proof.
  unfold validate_routes. intros H. joi_inv H. injection H as <-. simpl.
  repeat split; intros Hnone; rewrite Hnone in *; simpl in *; congruence.
Qed.

(** C5. A configuration that [get] returns carries the documented default
    for each of these settings that the caller left out:
    [session.rolling = true], [session.rollingDuration = 86400] (for a
    rolling session), [session.absoluteDuration = 604800],
    [session.cookie.sameSite = 'Lax'], [session.cookie.httpOnly = true],
    the routes [/login], [/logout] and [/callback], the claim filter of
    the standard registered claims, [idTokenSigningAlg = 'RS256'] and
    [clockTolerance = 60]. *)
Theorem defaults_are_applied
    (env : Env) (params : option (Raw.Config Fn)) (cfg : Config Fn) :
  get defaultState rules env params = Returns cfg ->
  (session_key Raw.rolling (supplied params) = None ->
     rolling (session cfg) = true) /\
  (rolling (session cfg) = true ->
   session_key Raw.rollingDuration (supplied params) = None ->
     rollingDuration (session cfg) = DNumber (of_Z 86400)) /\
  (session_key Raw.absoluteDuration (supplied params) = None ->
     absoluteDuration (session cfg) = DNumber (of_Z 604800)) /\
  (cookie_key Raw.sameSite (supplied params) = None ->
     sameSite (cookie (session cfg)) = "Lax") /\
  (cookie_key Raw.httpOnly (supplied params) = None ->
     httpOnly (cookie (session cfg)) = true) /\
  (routes_key Raw.login (supplied params) = None ->
     login (routes cfg) = IsString "/login") /\
  (routes_key Raw.logout (supplied params) = None ->
     logout (routes cfg) = IsString "/logout") /\
  (routes_key Raw.callback (supplied params) = None ->
     callback (routes cfg) = "/callback") /\
  (Raw.identityClaimFilter (supplied params) = None ->
     identityClaimFilter cfg =
       ["aud"; "iss"; "iat"; "exp"; "nbf"; "nonce"; "azp"; "auth_time";
        "s_hash"; "at_hash"; "c_hash"]) /\
  (Raw.idTokenSigningAlg (supplied params) = None ->
     idTokenSigningAlg cfg = "RS256") /\
  (Raw.clockTolerance (supplied params) = None ->
     clockTolerance cfg = of_Z 60).
Proof.
  intros H. apply get_Returns, paramsSchema_validate_Ok in H.
  unfold given in H. simpl in H. set (config := supplied params) in *.
  destruct H as (_ & Hs & _ & _ & _ & Hct & Hicf & Halg & _ & _ & Hr).
  apply validate_session_Ok in Hs as (Hrolling & Hrd & Had & Hc).
  apply validate_cookie_Ok in Hc as (Hho & Hss).
  apply validate_routes_Ok in Hr as (Hlogin & Hlogout & Hcallback).
  unfold session_key, cookie_key, routes_key.
  repeat split.
  - intros Hn. rewrite Hrolling.
    destruct (Raw.session config) as [s|]; simpl in *; [by rewrite Hn | done].
  - intros Ht Hn. rewrite Ht in Hrd.
    destruct (Raw.session config) as [s|]; simpl in *;
      [rewrite Hn in Hrd|]; by injection Hrd.
  - intros Hn.
    destruct (Raw.session config) as [s|]; simpl in *;
      [rewrite Hn in Had|]; by injection Had.
  - intros Hn.
    destruct (Raw.session config) as [s|]; simpl in *; [|done].
    destruct (Raw.cookie s) as [c|]; simpl in *; [|done].
    by rewrite Hn in Hss.
  - intros Hn. rewrite Hho.
    destruct (Raw.session config) as [s|]; simpl in *; [|done].
    destruct (Raw.cookie s) as [c|]; simpl in *; [by rewrite Hn | done].
  - intros Hn. apply Hlogin.
    by destruct (Raw.routes config).
  - intros Hn. apply Hlogout.
    by destruct (Raw.routes config).
  - intros Hn. apply Hcallback.
    by destruct (Raw.routes config).
  - intros Hn. by rewrite Hicf, Hn.
  - intros Hn. rewrite Hn in Halg. by injection Halg.
  - intros Hn. rewrite Hn in Hct. by injection Hct.
Qed.

Lemma validate_idTokenSigningAlg_Ok (v : option string) (alg : string) :
  validate_idTokenSigningAlg v = Joi.Ok alg ->
  JS.toLowerCase alg <> "none" /\
  match v with Some s => alg = s | None => alg = "RS256" end.
Proof.
  unfold validate_idTokenSigningAlg. destruct v as [s|].
  - destruct (String.eqb (JS.toLowerCase s) "none") eqn:He; [discriminate|].
    intros H. apply string_rule_Ok in H as (-> & _ & _).
    by apply String.eqb_neq in He.
  - by intros [= <-].
Qed.

(** C9. [get] throws a [TypeError] for every configuration whose
    [idTokenSigningAlg] is [none] in any letter case, so no configuration
    it returns allows unsigned ID tokens. *)
Theorem alg_none_is_refused (env : Env) (params : option (Raw.Config Fn)) :
  (forall alg,
     Raw.idTokenSigningAlg (supplied params) = Some alg ->
     JS.toLowerCase alg = "none" ->
     exists e, get defaultState rules env params = ThrowsTypeError e) /\
  (forall cfg,
     get defaultState rules env params = Returns cfg ->
     JS.toLowerCase (idTokenSigningAlg cfg) <> "none").
Proof.
  split.
  - intros alg Halg Hnone. apply get_Throws. intros cfg H.
    apply get_Returns, paramsSchema_validate_Ok in H.
    destruct H as (_ & _ & _ & _ & _ & _ & _ & H & _).
    unfold given in H. simpl in H. rewrite Halg in H.
    apply validate_idTokenSigningAlg_Ok in H as (Hne & Heq).
    rewrite Heq in Hne. done.
  - intros cfg H. apply get_Returns, paramsSchema_validate_Ok in H.
    destruct H as (_ & _ & _ & _ & _ & _ & _ & H & _).
    by apply validate_idTokenSigningAlg_Ok in H as (Hne & _).
Qed.

Lemma validate_response_mode_Ok (rt : string) (v m : option string) :
  validate_response_mode rt v = Joi.Ok m ->
  (rt = "code" -> m = v /\ (m = None \/ m = Some "query")) /\
  (rt <> "code" -> m = Some "form_post" /\ (v = None \/ v = Some "form_post")).
Proof.
  unfold validate_response_mode. intros H.
  destruct (String.eqb rt "code") eqn:Hrt.
  - apply String.eqb_eq in Hrt. split; [intros _|done].
    destruct v as [x|]; [|injection H as <-; auto].
    joi_inv H. injection H as <-.
    apply only_Ok in Hv as (-> & Hin). split; [done|].
    right. destruct Hin as [<-|[<-|[]]]; done.
  - apply String.eqb_neq in Hrt. split; [done|intros _].
    destruct v as [x|]; [|injection H as <-; auto].
    joi_inv H. injection H as <-.
    apply only_Ok in Hv as (-> & Hin).
    destruct Hin as [<-|[]]. auto.
Qed.

(** C6 (as amended). In every configuration that [get] returns,
    [response_mode] is [form_post] whenever [response_type] is [id_token]
    or [code id_token]; when [response_type] is [code], [response_mode] is
    what the caller gave, which is either nothing (the key stays absent)
    or [query]. And [get] throws for every configuration that gives a
    [response_mode] other than [query] with [response_type] [code], or
    other than [form_post] with any other [response_type]. *)
Theorem response_mode_follows_response_type
    (env : Env) (params : option (Raw.Config Fn)) :
  (forall cfg,
     get defaultState rules env params = Returns cfg ->
     (response_type (authorizationParams cfg) = "id_token" \/
      response_type (authorizationParams cfg) = "code id_token" ->
        response_mode (authorizationParams cfg) = Some "form_post") /\
     (response_type (authorizationParams cfg) = "code" ->
        response_mode (authorizationParams cfg)
          = authorization_key Raw.response_mode (supplied params) /\
        (response_mode (authorizationParams cfg) = None \/
         response_mode (authorizationParams cfg) = Some "query"))) /\
  (forall m,
     authorization_key Raw.response_mode (supplied params) = Some m ->
     (authorization_key Raw.response_type (supplied params) = Some "code" ->
        m <> "query") ->
     (authorization_key Raw.response_type (supplied params) <> Some "code" ->
        m <> "form_post") ->
     exists e, get defaultState rules env params = ThrowsTypeError e).
Proof.
  assert (forall cfg,
            get defaultState rules env params = Returns cfg ->
            match authorization_key Raw.response_type (supplied params) with
            | None => response_type (authorizationParams cfg) = "id_token"
            | Some t => response_type (authorizationParams cfg) = t
            end /\
            validate_response_mode (response_type (authorizationParams cfg))
              (authorization_key Raw.response_mode (supplied params))
              = Joi.Ok (response_mode (authorizationParams cfg))) as Hcfg.
  { intros cfg H. apply get_Returns, paramsSchema_validate_Ok in H.
    destruct H as (_ & _ & H & _). unfold given in H. simpl in H.
    apply validate_authorizationParams_Ok in H as (Hrt & Hrm).
    unfold authorization_key.
    destruct (Raw.authorizationParams (supplied params)) as [a|]; simpl in *.
    - split; [|done]. destruct (Raw.response_type a); [by destruct Hrt | done].
    - done. }
  split.
  - intros cfg H. apply Hcfg in H as (_ & Hrm).
    apply validate_response_mode_Ok in Hrm as (Hcode & Hother).
    split.
    + intros Hrt. apply Hother. by destruct Hrt as [-> | ->].
    + exact Hcode.
  - intros m Hm Hcode Hother. apply get_Throws. intros cfg H.
    apply Hcfg in H as (Hrt & Hrm). rewrite Hm in Hrm.
    apply validate_response_mode_Ok in Hrm as (Hc & Ho).
    destruct (decide (response_type (authorizationParams cfg) = "code")) as [E|E].
    + destruct (Hc E) as (Heq & Hq). rewrite Heq in Hq.
      destruct Hq as [|[= ->]]; [done|]. apply Hcode; [|done].
      destruct (authorization_key Raw.response_type (supplied params));
        congruence.
    + destruct (Ho E) as (_ & [|[= ->]]); [done|]. apply Hother; [|done].
      intros Hraw. rewrite Hraw in Hrt. done.
Qed.

(** When the keys validated before [clientSecret] pass, an error on
    [clientSecret] is the error of the whole validation. *)
Lemma paramsSchema_validate_clientSecret_Error (config : Raw.Config Fn)
    (cfg : Config Fn) (e : Joi.ValidationErrorItem) :
  validate_secret (key_value (Raw.secret config)) = Joi.Ok (secret cfg) ->
  validate_session rules (Raw.session config) = Joi.Ok (session cfg) ->
  validate_authorizationParams (Raw.authorizationParams config)
    = Joi.Ok (authorizationParams cfg) ->
  required_string ["baseURL"] (Joi.uri rules) Joi.string_uri
    (key_value (Raw.baseURL config)) = Joi.Ok (baseURL cfg) ->
  required_string ["clientID"] Joi.any_string Joi.string_empty
    (key_value (Raw.clientID config)) = Joi.Ok (clientID cfg) ->
  validate_clockTolerance (Raw.clockTolerance config) = Joi.Ok (clockTolerance cfg) ->
  validate_idTokenSigningAlg (Raw.idTokenSigningAlg config)
    = Joi.Ok (idTokenSigningAlg cfg) ->
  validate_clientSecret (response_type (authorizationParams cfg)) (idTokenSigningAlg cfg)
    (key_value (Raw.clientSecret config)) = Joi.Error e ->
  paramsSchema_validate defaultState rules config = Joi.Error e.
Proof.
  intros H1 H2 H3 H4 H5 H6 H7 H8. unfold paramsSchema_validate.
  rewrite H1, H2, H3, H4, H5, H6, H7. simpl. by rewrite H8.
Qed.

(** When every other key passes and [clientSecret] passes with the value
    [cs], the validation passes and the configuration holds [cs]. *)
Lemma paramsSchema_validate_clientSecret_Ok (config : Raw.Config Fn)
    (cfg : Config Fn) (cs : option string) :
  validate_secret (key_value (Raw.secret config)) = Joi.Ok (secret cfg) ->
  validate_session rules (Raw.session config) = Joi.Ok (session cfg) ->
  validate_authorizationParams (Raw.authorizationParams config)
    = Joi.Ok (authorizationParams cfg) ->
  required_string ["baseURL"] (Joi.uri rules) Joi.string_uri
    (key_value (Raw.baseURL config)) = Joi.Ok (baseURL cfg) ->
  required_string ["clientID"] Joi.any_string Joi.string_empty
    (key_value (Raw.clientID config)) = Joi.Ok (clientID cfg) ->
  validate_clockTolerance (Raw.clockTolerance config) = Joi.Ok (clockTolerance cfg) ->
  validate_idTokenSigningAlg (Raw.idTokenSigningAlg config)
    = Joi.Ok (idTokenSigningAlg cfg) ->
  validate_clientSecret (response_type (authorizationParams cfg)) (idTokenSigningAlg cfg)
    (key_value (Raw.clientSecret config)) = Joi.Ok cs ->
  required_string ["issuerBaseURL"] (Joi.uri rules) Joi.string_uri
    (key_value (Raw.issuerBaseURL config)) = Joi.Ok (issuerBaseURL cfg) ->
  validate_routes rules (Raw.routes config) = Joi.Ok (routes cfg) ->
  exists cfg',
    paramsSchema_validate defaultState rules config = Joi.Ok cfg' /\
    clientSecret cfg' = cs.
Proof.
  intros H1 H2 H3 H4 H5 H6 H7 H8 H9 H10. unfold paramsSchema_validate.
  rewrite H1, H2, H3, H4, H5, H6, H7. simpl. rewrite H8. simpl.
  rewrite H9, H10. simpl. eauto.
Qed.

Lemma get_Throws_of_Error (env : Env) (params : option (Raw.Config Fn))
    (e : Joi.ValidationErrorItem) :
  paramsSchema_validate defaultState rules (given env params) = Joi.Error e ->
  get defaultState rules env params = ThrowsTypeError e.
Proof. unfold get, given, supplied. by intros ->. Qed.

Lemma validate_clientSecret_None (rt alg : string) :
  match validate_clientSecret rt alg None with
  | Joi.Ok cs =>
      cs = None /\ JS.includes rt "code" = false /\ JS.startsWith alg "HS" = false
  | Joi.Error e =>
      (JS.includes rt "code" = true \/ JS.startsWith alg "HS" = true) /\
      Joi.path e = ["clientSecret"] /\ Joi.type e = Joi.any_required /\
      names "clientSecret" e
  end.
Proof.
  unfold validate_clientSecret, names.
  destruct (JS.startsWith alg "HS"); [|destruct (JS.includes rt "code")]; simpl.
  - split; [by right|]. by repeat split.
  - split; [by left|]. by repeat split.
  - done.
Qed.

(** C7 (as amended). Take a configuration that gives no [clientSecret]
    (none in the environment either). If its [response_type] includes
    [code] or its [idTokenSigningAlg] starts with [HS], [get] throws; and
    whenever the configuration is otherwise valid (it would be returned
    with some [clientSecret] added), the error thrown is the one of
    [clientSecret]: [any.required] with a message naming [clientSecret].
    If neither condition holds, an otherwise valid configuration is
    returned without a [clientSecret]. *)
Theorem clientSecret_required_for_code_or_HMAC
    (env : Env) (params : option (Raw.Config Fn)) :
  key_value (Raw.clientSecret (given env params)) = None ->
  ((exists t,
       authorization_key Raw.response_type (supplied params) = Some t /\
       JS.includes t "code" = true) \/
    (exists a,
       Raw.idTokenSigningAlg (supplied params) = Some a /\
       JS.startsWith a "HS" = true) ->
    exists e,
      get defaultState rules env params = ThrowsTypeError e /\
      forall s cfg,
        get defaultState rules env (Some (set_clientSecret (Some s) (supplied params)))
          = Returns cfg ->
        Joi.path e = ["clientSecret"] /\ Joi.type e = Joi.any_required /\
        names "clientSecret" e) /\
  (forall s cfg,
     get defaultState rules env (Some (set_clientSecret (Some s) (supplied params)))
       = Returns cfg ->
     JS.includes (response_type (authorizationParams cfg)) "code" = false ->
     JS.startsWith (idTokenSigningAlg cfg) "HS" = false ->
     exists cfg',
       get defaultState rules env params = Returns cfg' /\ clientSecret cfg' = None).
Proof.
  intros Hnone. split.
  - intros Hcond.
    assert (forall cfg,
              get defaultState rules env params <> Returns cfg) as Hfails.
    { intros cfg H. apply get_Returns, paramsSchema_validate_Ok in H.
      destruct H as (_ & _ & Hap & _ & _ & _ & _ & Halg & Hcs & _).
      rewrite Hnone in Hcs.
      pose proof (validate_clientSecret_None
                    (response_type (authorizationParams cfg)) (idTokenSigningAlg cfg)) as Hn.
      rewrite Hcs in Hn. destruct Hn as (_ & Hcode & Hhs).
      unfold given in Hap, Halg. simpl in Hap, Halg.
      apply validate_authorizationParams_Ok in Hap as (Hrt & _).
      apply validate_idTokenSigningAlg_Ok in Halg as (_ & Ha).
      destruct Hcond as [(t & Ht & Hin) | (a & Ha' & Hin)].
      - unfold authorization_key in Ht.
        destruct (Raw.authorizationParams (supplied params)) as [ap|]; [|done].
        simpl in *. rewrite Ht in Hrt. destruct Hrt as (Hrt & _). congruence.
      - rewrite Ha' in Ha. congruence. }
    destruct (get_Throws env params Hfails) as (e & He).
    exists e. split; [exact He|]. intros s cfg H.
    apply get_Returns, paramsSchema_validate_Ok in H.
    destruct H as (H1 & H2 & H3 & H4 & H5 & H6 & _ & H7 & _ & H9 & H10).
    pose proof (validate_clientSecret_None
                  (response_type (authorizationParams cfg)) (idTokenSigningAlg cfg)) as Hn.
    destruct (validate_clientSecret (response_type (authorizationParams cfg))
                (idTokenSigningAlg cfg) None) as [cs|e'] eqn:Hcs.
    + exfalso.
      destruct (paramsSchema_validate_clientSecret_Ok (given env params) cfg cs)
        as (cfg' & Hok & _); try assumption; [by rewrite Hnone|].
      apply get_Returns in Hok. by destruct (Hfails cfg').
    + assert (get defaultState rules env params = ThrowsTypeError e') as He'.
      { apply get_Throws_of_Error.
        apply (paramsSchema_validate_clientSecret_Error _ cfg); try assumption.
        by rewrite Hnone. }
      rewrite He in He'. injection He' as ->. by destruct Hn as (_ & ? & ? & ?).
  - intros s cfg H Hcode Hhs.
    apply get_Returns, paramsSchema_validate_Ok in H.
    destruct H as (H1 & H2 & H3 & H4 & H5 & H6 & _ & H7 & _ & H9 & H10).
    pose proof (validate_clientSecret_None
                  (response_type (authorizationParams cfg)) (idTokenSigningAlg cfg)) as Hn.
    destruct (validate_clientSecret (response_type (authorizationParams cfg))
                (idTokenSigningAlg cfg) None) as [cs|e'] eqn:Hcs.
    + destruct Hn as (-> & _).
      destruct (paramsSchema_validate_clientSecret_Ok (given env params) cfg None)
        as (cfg' & Hok & Hcs'); try assumption; [by rewrite Hnone|].
      exists cfg'. split; [by apply get_Returns | done].
    + destruct Hn as ([?|?] & _); congruence.
Qed.

Lemma validate_absoluteDuration_default (rolling : bool) :
  validate_absoluteDuration rolling (Some (DNumber (of_Z 604800)))
  = validate_absoluteDuration rolling None.
Proof. by destruct rolling. Qed.

Lemma validate_session_set_absoluteDuration (config : Raw.Config Fn) :
  session_key Raw.absoluteDuration config = None ->
  validate_session rules
    (Raw.session (set_absoluteDuration (Some (DNumber (of_Z 604800))) config))
  = validate_session rules (Raw.session config).
Proof.
  unfold session_key, set_absoluteDuration, validate_session. simpl.
  destruct (Raw.session config) as [s|]; simpl; intros Hn.
  - rewrite Hn. by destruct (default true (Raw.rolling s)).
  - reflexivity.
Qed.

(** C8 (as amended). [session.absoluteDuration] is never required. Whether
    or not [session.rolling] is false, leaving it out is the same to [get]
    as giving 604800: the result is the same, and a configuration that is
    returned holds [absoluteDuration = 604800]. What [session.rolling =
    false] refuses is a boolean [absoluteDuration]: [get] throws for it. *)
Theorem absoluteDuration_is_never_required
    (env : Env) (params : option (Raw.Config Fn)) :
  (session_key Raw.absoluteDuration (supplied params) = None ->
     get defaultState rules env params
       = get defaultState rules env
           (Some (set_absoluteDuration (Some (DNumber (of_Z 604800))) (supplied params))) /\
     forall cfg,
       get defaultState rules env params = Returns cfg ->
       absoluteDuration (session cfg) = DNumber (of_Z 604800)) /\
  (forall b,
     session_key Raw.rolling (supplied params) = Some false ->
     session_key Raw.absoluteDuration (supplied params) = Some (DBoolean b) ->
     exists e, get defaultState rules env params = ThrowsTypeError e).
Proof.
  split.
  - intros Hn. split.
    + unfold get.
      assert (paramsSchema_validate defaultState rules
                (with_env env
                   (default Raw.empty
                      (Some (set_absoluteDuration (Some (DNumber (of_Z 604800)))
                               (supplied params)))))
              = paramsSchema_validate defaultState rules
                  (with_env env (default Raw.empty params))) as ->; [|done].
      unfold paramsSchema_validate.
      change (Raw.session
                (with_env env
                   (default Raw.empty
                      (Some (set_absoluteDuration (Some (DNumber (of_Z 604800)))
                               (supplied params))))))
        with (Raw.session
                (set_absoluteDuration (Some (DNumber (of_Z 604800))) (supplied params))).
      rewrite validate_session_set_absoluteDuration by done. reflexivity.
    + intros cfg H. apply get_Returns, paramsSchema_validate_Ok in H.
      destruct H as (_ & Hs & _). unfold given in Hs. simpl in Hs.
      apply validate_session_Ok in Hs as (_ & _ & Had & _).
      unfold session_key in Hn.
      destruct (Raw.session (supplied params)) as [s|]; simpl in *;
        [rewrite Hn in Had|]; by injection Had.
  - intros b Hr Ha. apply get_Throws. intros cfg H.
    apply get_Returns, paramsSchema_validate_Ok in H.
    destruct H as (_ & Hs & _). unfold given in Hs. simpl in Hs.
    apply validate_session_Ok in Hs as (Hrolling & _ & Had & _).
    unfold session_key in Hr, Ha.
    destruct (Raw.session (supplied params)) as [s|]; simpl in *; [|done].
    rewrite Hr in Hrolling. simpl in Hrolling.
    rewrite Hrolling, Ha in Had. done.
Qed.

End Validated.

Lemma defaults_are_applied_witness :
  exists cfg,
    get tt simple_rules no_env (Some minimal) = Returns cfg /\
    rolling (session cfg) = true /\
    rollingDuration (session cfg) = DNumber (of_Z 86400) /\
    absoluteDuration (session cfg) = DNumber (of_Z 604800) /\
    sameSite (cookie (session cfg)) = "Lax" /\
    httpOnly (cookie (session cfg)) = true /\
    login (routes cfg) = IsString "/login" /\
    logout (routes cfg) = IsString "/logout" /\
    callback (routes cfg) = "/callback" /\
    idTokenSigningAlg cfg = "RS256" /\
    clockTolerance cfg = of_Z 60.
Proof.
  destruct (get tt simple_rules no_env (Some minimal)) as [cfg|e] eqn:Hget;
    [|vm_compute in Hget; discriminate].
  exists cfg. split; [reflexivity|].
  destruct (defaults_are_applied tt simple_rules no_env (Some minimal) cfg Hget)
    as (H1 & H2 & H3 & H4 & H5 & H6 & H7 & H8 & _ & H10 & H11).
  pose proof (H1 eq_refl) as Hrolling.
  repeat split;
    [ exact Hrolling | exact (H2 Hrolling eq_refl) | exact (H3 eq_refl)
    | exact (H4 eq_refl) | exact (H5 eq_refl) | exact (H6 eq_refl)
    | exact (H7 eq_refl) | exact (H8 eq_refl) | exact (H10 eq_refl)
    | exact (H11 eq_refl) ].
Defined.

Lemma response_mode_follows_response_type_witness :
  (forall cfg,
     get tt simple_rules no_env (Some minimal) = Returns cfg ->
     response_type (authorizationParams cfg) = "id_token" ->
     response_mode (authorizationParams cfg) = Some "form_post") /\
  exists e,
    get tt simple_rules no_env
      (Some (set_clientSecret (Some "client-secret")
               (set_authorizationParams code_flow_form_post minimal)))
      = ThrowsTypeError e.
Proof.
  split.
  - intros cfg Hget Hrt.
    destruct (response_mode_follows_response_type tt simple_rules no_env (Some minimal))
      as (Hinv & _).
    destruct (Hinv cfg Hget) as (Hform & _). apply Hform. by left.
  - destruct (response_mode_follows_response_type tt simple_rules no_env
                (Some (set_clientSecret (Some "client-secret")
                         (set_authorizationParams code_flow_form_post minimal))))
      as (_ & Hrej).
    apply (Hrej "form_post"); [reflexivity | discriminate | intros H; by destruct H].
Defined.

(** C6, the claim as stated fails: with [response_type: 'code'] and no
    [response_mode], the configuration is returned and its
    [response_mode] is absent, not [query]. *)
Lemma code_flow_leaves_response_mode_absent :
  exists cfg,
    get tt simple_rules no_env
      (Some (set_clientSecret (Some "client-secret")
               (set_authorizationParams code_flow minimal)))
      = Returns cfg /\
    response_type (authorizationParams cfg) = "code" /\
    response_mode (authorizationParams cfg) = None /\
    response_mode (authorizationParams cfg) <> Some "query".
Proof. eexists. split; [reflexivity|]. by repeat split. Qed.

Lemma clientSecret_required_for_code_or_HMAC_witness :
  exists e,
    get tt simple_rules no_env (Some (set_authorizationParams code_flow minimal))
      = ThrowsTypeError e /\
    Joi.path e = ["clientSecret"] /\
    Joi.type e = Joi.any_required.
Proof.
  destruct (clientSecret_required_for_code_or_HMAC tt simple_rules no_env
              (Some (set_authorizationParams code_flow minimal)) eq_refl)
    as (Hreq & _).
  destruct Hreq as (e & Hthrows & Hnames).
  { left. exists "code". split; reflexivity. }
  exists e. split; [exact Hthrows|].
  destruct (get tt simple_rules no_env
              (Some (set_clientSecret (Some "client-secret")
                       (supplied (Some (set_authorizationParams code_flow minimal))))))
    as [cfg|e'] eqn:Hget; [|vm_compute in Hget; discriminate].
  destruct (Hnames "client-secret" cfg Hget) as (Hpath & Htype & _).
  split; [exact Hpath | exact Htype].
Defined.

(** C7, the claim as stated fails: a configuration that asks for the code
    flow and gives neither [secret] nor [clientSecret] is refused with the
    error of [secret], the first key validated; [clientSecret] is not
    named. *)
Lemma missing_secret_is_reported_first :
  key_value (Raw.clientSecret
               (given no_env (Some (set_authorizationParams code_flow (@Raw.empty unit)))))
    = None /\
  exists e,
    get tt simple_rules no_env (Some (set_authorizationParams code_flow Raw.empty))
      = ThrowsTypeError e /\
    Joi.path e = ["secret"] /\
    ~ names "clientSecret" e.
Proof.
  split; [reflexivity|]. eexists. split; [reflexivity|]. split; [reflexivity|].
  unfold names. simpl. discriminate.
Qed.

Lemma absoluteDuration_is_never_required_witness :
  get tt simple_rules no_env (Some (set_session not_rolling minimal))
  = get tt simple_rules no_env
      (Some (set_absoluteDuration (Some (DNumber (of_Z 604800)))
               (set_session not_rolling minimal))) /\
  exists e,
    get tt simple_rules no_env
      (Some (set_absoluteDuration (Some (DBoolean false))
               (set_session not_rolling minimal)))
      = ThrowsTypeError e.
Proof.
  split.
  - destruct (absoluteDuration_is_never_required tt simple_rules no_env
                (Some (set_session not_rolling minimal))) as (Hdefault & _).
    destruct (Hdefault eq_refl) as (Hsame & _). exact Hsame.
  - destruct (absoluteDuration_is_never_required tt simple_rules no_env
                (Some (set_absoluteDuration (Some (DBoolean false))
                         (set_session not_rolling minimal)))) as (_ & Hbool).
    exact (Hbool false eq_refl eq_refl).
Defined.

(** C8, the claim as stated fails: with [session.rolling = false] and no
    [session.absoluteDuration], [get] does not throw; it returns a
    configuration whose [absoluteDuration] is the default, 604800. *)
Lemma absolute_session_without_duration_is_accepted :
  exists cfg,
    get tt simple_rules no_env (Some (set_session not_rolling minimal)) = Returns cfg /\
    rolling (session cfg) = false /\
    absoluteDuration (session cfg) = DNumber (of_Z 604800).
Proof. eexists. split; [reflexivity|]. by split. Qed.

Lemma alg_none_is_refused_witness :
  exists e,
    get tt simple_rules no_env (Some (set_idTokenSigningAlg "NoNe" minimal))
      = ThrowsTypeError e.
Proof.
  destruct (alg_none_is_refused tt simple_rules no_env
              (Some (set_idTokenSigningAlg "NoNe" minimal))) as (Hrefused & _).
  exact (Hrefused "NoNe" eq_refl eq_refl).
Defined.

Example alg_none_error :
  get tt simple_rules no_env (Some (set_idTokenSigningAlg "NONE" minimal))
  = ThrowsTypeError
      {| Joi.path := ["idTokenSigningAlg"]; Joi.type := Joi.any_invalid;
         Joi.message := None |}.
Proof. reflexivity. Qed.

Example rolling_false_with_false_duration :
  get tt simple_rules no_env
    (Some (set_absoluteDuration (Some (DBoolean false)) (set_session not_rolling minimal)))
  = ThrowsTypeError
      {| Joi.path := ["session"; "absoluteDuration"]; Joi.type := Joi.number_base;
         Joi.message := Some absoluteDuration_number_base |}.
Proof. reflexivity. Qed.

End ConfigSpec.

(** ** More on the auth-required gate *)

Module GateCoverage.

Import Gate.

Lemma percent_encode_safe (c : ascii) :
  forallb (fun c => JS.uri_unreserved c || Ascii.eqb c "%")
    (list_ascii_of_string (JS.percent_encode c)) = true.
Proof. destruct c as [[] [] [] [] [] [] [] []]; reflexivity. Qed.

Lemma list_ascii_of_string_app (a b : string) :
  list_ascii_of_string (a +:+ b) = list_ascii_of_string a ++ list_ascii_of_string b.
Proof.
  induction a as [|c a IH]; [done|].
  rewrite JSFacts.append_cons. simpl. by rewrite IH.
Qed.

Lemma encodeURIComponent_cons (c : ascii) (s : string) :
  JS.encodeURIComponent (String c s)
  = (if JS.uri_unreserved c then String c EmptyString else JS.percent_encode c)
    +:+ JS.encodeURIComponent s.
Proof. reflexivity. Qed.

Lemma encodeURIComponent_safe (s : string) :
  forallb (fun c => JS.uri_unreserved c || Ascii.eqb c "%")
    (list_ascii_of_string (JS.encodeURIComponent s)) = true.
Proof.
  induction s as [|c s IH]; [done|].
  rewrite encodeURIComponent_cons, list_ascii_of_string_app, forallb_app, IH.
  rewrite andb_true_r.
  destruct (JS.uri_unreserved c) eqn:Hc; [|apply percent_encode_safe].
  simpl. by rewrite Hc.
Qed.

Section Wrapped.

Context {FetchEvent : Type}.
Variable href : URL -> string.
Variables login callback : string.
Variable getSessionCache : unit -> SessionCache.

(** X1. A request whose path starts with the login route, the callback
    route, [/_next] or [/favicon.ico] is let through: the gate returns
    nothing and calls neither the session cache nor the middleware. The
    test is a plain prefix test, so a path that merely continues one of
    these strings passes as well. *)
Theorem exempt_prefix_passes
    (middleware : option (@NextMiddleware FetchEvent))
    (req : NextRequest) (event : FetchEvent) (log : list Call) (p : string) :
  In p [login; callback; "/_next"; "/favicon.ico"] ->
  JS.startsWith (pathname (nextUrl req)) p = true ->
  wrappedMiddleware href login callback getSessionCache middleware req event log
    = (None, log).
Proof.
  intros Hin Hp. apply GateSpec.exempt_request_passes.
  apply existsb_exists. eauto.
Qed.

(** X2. With a session and no response from downstream (no middleware, or
    one that returns nothing), the gate answers with the very response
    object that session resolution wrote to, so the renewed session cookie
    goes out unchanged. *)
Theorem session_without_response_returns_authRes
    (middleware : option (@NextMiddleware FetchEvent))
    (req : NextRequest) (event : FetchEvent) (log : list Call)
    (session : option Session) (authRes : NextResponse) :
  enforced login callback req ->
  resolved getSessionCache req = (session, authRes) ->
  session_user session = true ->
  match middleware with Some mw => mw req event = None | None => True end ->
  wrappedMiddleware href login callback getSessionCache middleware req event log
    = (Some authRes,
       log ++ CallSessionGet req ::
              match middleware with Some _ => [CallMiddleware req] | None => [] end).
Proof.
  unfold enforced, resolved. intros Hpath Hget Huser Hmw.
  unfold wrappedMiddleware. rewrite Hpath.
  unfold bind, call, ret. rewrite Hget, Huser. cbn [negb]. cbv beta iota.
  destruct middleware as [mw|]; [|done].
  rewrite Hmw. by rewrite <- app_assoc.
Qed.

(** X3. Whatever the request, the gate calls the session cache at most
    once and the downstream middleware at most once, the middleware only
    after the session cache; and the middleware is called only for a
    request that is enforced and for which session resolution found a user. *)
Theorem gate_calls_in_order
    (middleware : option (@NextMiddleware FetchEvent))
    (req : NextRequest) (event : FetchEvent) (log : list Call) :
  exists new,
    snd (wrappedMiddleware href login callback getSessionCache middleware req event log)
      = log ++ new /\
    (new = [] \/ new = [CallSessionGet req] \/
     new = [CallSessionGet req; CallMiddleware req]) /\
    (In (CallMiddleware req) new ->
       enforced login callback req /\
       session_user (fst (resolved getSessionCache req)) = true /\
       middleware <> None).
Proof.
  unfold wrappedMiddleware, enforced, resolved.
  destruct (existsb _ _) eqn:Hpath.
  { exists []. rewrite app_nil_r. split; [done|]. split; [by left | intros []]. }
  unfold bind, call, ret.
  destruct (sessionCache_get (getSessionCache tt) req (NextResponse_next no_init))
    as [session authRes].
  destruct (session_user session) eqn:Huser; cbn [negb fst]; cbv beta iota.
  - destruct middleware as [mw|].
    + exists [CallSessionGet req; CallMiddleware req].
      split; [destruct (mw req event); simpl; by rewrite <- app_assoc|].
      split; [by right; right | done].
    + exists [CallSessionGet req]. split; [done|].
      split; [by right; left|]. intros [H|[]]. discriminate.
  - exists [CallSessionGet req].
    split; [by destruct (JS.startsWith _ "/api")|].
    split; [by right; left|]. intros [H|[]]. discriminate.
Qed.


(** X5. The response to an unauthenticated request (the 401 or the redirect)
    is a new one: it carries no [set-cookie] header, whatever session
    resolution wrote to its own response object. *)
Theorem unauthenticated_response_has_no_cookie
    (middleware : option (@NextMiddleware FetchEvent))
    (req : NextRequest) (event : FetchEvent) (log : list Call) :
  enforced login callback req ->
  session_user (fst (resolved getSessionCache req)) = false ->
  exists r,
    fst (wrappedMiddleware href login callback getSessionCache middleware req event log)
      = Some r /\
    Headers.get "set-cookie" (headers r) = None.
Proof.
  unfold enforced, resolved. intros Hpath Hnone.
  unfold wrappedMiddleware. rewrite Hpath. unfold bind, call, ret.
  destruct (sessionCache_get (getSessionCache tt) req (NextResponse_next no_init))
    as [session authRes].
  simpl in Hnone. rewrite Hnone. cbn [negb fst]. cbv beta iota.
  destruct (JS.startsWith (pathname (nextUrl req)) "/api"); eexists; by split.
Qed.

(** X6. In the redirect to the login route, what follows [returnTo=] is
    made of unreserved characters and percent signs only: no [&], [=], [#],
    [?], [/] or space of the original path and query survives unescaped, so
    the original URL stays one query parameter. *)
Theorem returnTo_is_escaped
    (middleware : option (@NextMiddleware FetchEvent))
    (req : NextRequest) (event : FetchEvent) (log : list Call) :
  enforced login callback req ->
  session_user (fst (resolved getSessionCache req)) = false ->
  JS.startsWith (pathname (nextUrl req)) "/api" = false ->
  exists r returnTo,
    fst (wrappedMiddleware href login callback getSessionCache middleware req event log)
      = Some r /\
    Headers.get "location" (headers r)
      = Some (href (new_URL (login +:+ "?returnTo=" +:+ returnTo) (origin (nextUrl req)))) /\
    forallb (fun c => JS.uri_unreserved c || Ascii.eqb c "%")
      (list_ascii_of_string returnTo) = true.
Proof.
  unfold enforced, resolved. intros Hpath Hnone Hapi.
  unfold wrappedMiddleware. rewrite Hpath. unfold bind, call, ret.
  destruct (sessionCache_get (getSessionCache tt) req (NextResponse_next no_init))
    as [session authRes].
  simpl in Hnone. rewrite Hnone, Hapi. cbn [negb fst]. cbv beta iota.
  eexists. eexists. split; [reflexivity|]. split; [reflexivity|].
  apply encodeURIComponent_safe.
Qed.

End Wrapped.

Lemma exempt_prefix_passes_witness :
  wrappedMiddleware href_of_path "/login" "/callback" (fun _ => empty_cache)
    (Some language_middleware)
    (request_to "http://localhost:3000" "/login-help/private" "") tt []
  = (None, []).
Proof.
  apply (exempt_prefix_passes href_of_path "/login" "/callback"
           (fun _ => empty_cache) (Some language_middleware)
           (request_to "http://localhost:3000" "/login-help/private" "") tt []
           "/login").
  - left. reflexivity.
  - reflexivity.
Defined.

Lemma session_without_response_returns_authRes_witness :
  wrappedMiddleware href_of_path "/login" "/callback" (fun _ => renewing_cache)
    None (request_to "http://localhost:3000" "/private" "") tt []
  = (Some {| status := 200;
             headers := [("x-middleware-next", "1");
                         ("set-cookie", "appSession=abc; Path=/; HttpOnly")];
             body := None |},
     [CallSessionGet (request_to "http://localhost:3000" "/private" "")]).
Proof.
  apply (session_without_response_returns_authRes href_of_path "/login" "/callback"
           (fun _ => renewing_cache) None
           (request_to "http://localhost:3000" "/private" "") tt []
           (Some {| user := Some [("sub", "user-1")]; idToken := None;
                    accessToken := None |})).
  - reflexivity.
  - reflexivity.
  - reflexivity.
  - exact I.
Defined.


Lemma unauthenticated_response_has_no_cookie_witness :
  exists r,
    fst (wrappedMiddleware href_of_path "/login" "/callback" (fun _ => empty_cache)
           None (request_to "http://localhost:3000" "/private" "?tab=2") tt [])
      = Some r /\
    Headers.get "set-cookie" (headers r) = None.
Proof.
  apply (unauthenticated_response_has_no_cookie href_of_path "/login" "/callback"
           (fun _ => empty_cache) None
           (request_to "http://localhost:3000" "/private" "?tab=2") tt []);
    reflexivity.
Defined.

Lemma returnTo_is_escaped_witness :
  exists r returnTo,
    fst (wrappedMiddleware href_of_path "/login" "/callback" (fun _ => empty_cache)
           None (request_to "http://localhost:3000" "/private" "?tab=2&x=a b") tt [])
      = Some r /\
    Headers.get "location" (headers r)
      = Some ("http://localhost:3000/login?returnTo=" +:+ returnTo) /\
    forallb (fun c => JS.uri_unreserved c || Ascii.eqb c "%")
      (list_ascii_of_string returnTo) = true.
Proof.
  apply (returnTo_is_escaped href_of_path "/login" "/callback"
           (fun _ => empty_cache) None
           (request_to "http://localhost:3000" "/private" "?tab=2&x=a b") tt []);
    reflexivity.
Defined.

End GateCoverage.

Module EncodingCoverage.

Lemma hex_digit_inj (n m : nat) :
  (n < 16)%nat -> (m < 16)%nat -> JS.hex_digit n = JS.hex_digit m -> n = m.
Proof.
  intros Hn Hm.
  do 16 (destruct n as [|n]; [do 16 (destruct m as [|m]; [by vm_compute|]); lia|]).
  lia.
Qed.

Lemma percent_encode_inj (c1 c2 : ascii) :
  JS.percent_encode c1 = JS.percent_encode c2 -> c1 = c2.
Proof.
  unfold JS.percent_encode. intros Heq.
  assert (H1 : (nat_of_ascii c1 < 256)%nat) by apply nat_ascii_bounded.
  assert (H2 : (nat_of_ascii c2 < 256)%nat) by apply nat_ascii_bounded.
  pose proof (Nat.div_mod_eq (nat_of_ascii c1) 16) as E1.
  pose proof (Nat.div_mod_eq (nat_of_ascii c2) 16) as E2.
  pose proof (Nat.mod_upper_bound (nat_of_ascii c1) 16 ltac:(lia)) as M1.
  pose proof (Nat.mod_upper_bound (nat_of_ascii c2) 16 ltac:(lia)) as M2.
  remember (nat_of_ascii c1 / 16)%nat as d1.
  remember (nat_of_ascii c2 / 16)%nat as d2.
  remember (nat_of_ascii c1 mod 16)%nat as m1.
  remember (nat_of_ascii c2 mod 16)%nat as m2.
  injection Heq as Hhi Hlo.
  apply hex_digit_inj in Hhi; [|lia|lia].
  apply hex_digit_inj in Hlo; [|lia|lia].
  assert (Hn : nat_of_ascii c1 = nat_of_ascii c2).
  { lia. }
  rewrite <- (ascii_nat_embedding c1), <- (ascii_nat_embedding c2).
  by rewrite Hn.
Qed.

Lemma percent_not_unreserved (c : ascii) :
  JS.uri_unreserved c = true -> c <> "%"%char.
Proof. intros Hc ->. by vm_compute in Hc. Qed.

(** X7. [encodeURIComponent] loses nothing: two strings with the same
    encoding are the same string. The [returnTo] parameter of the login
    redirect therefore determines the path and query the visitor asked
    for. *)
Theorem encodeURIComponent_injective (s1 s2 : string) :
  JS.encodeURIComponent s1 = JS.encodeURIComponent s2 -> s1 = s2.
Proof.
  revert s2. induction s1 as [|c1 s1 IH]; intros [|c2 s2].
  - done.
  - rewrite GateCoverage.encodeURIComponent_cons.
    destruct (JS.uri_unreserved c2); discriminate.
  - rewrite GateCoverage.encodeURIComponent_cons.
    destruct (JS.uri_unreserved c1); discriminate.
  - rewrite !GateCoverage.encodeURIComponent_cons.
    destruct (JS.uri_unreserved c1) eqn:H1, (JS.uri_unreserved c2) eqn:H2.
    + rewrite !JSFacts.append_cons, !JSFacts.append_nil.
      intros [= -> Hrest]. f_equal. by apply IH.
    + unfold JS.percent_encode. rewrite !JSFacts.append_cons.
      intros [= -> _]. by apply percent_not_unreserved in H1.
    + unfold JS.percent_encode. rewrite !JSFacts.append_cons.
      intros [= <- _]. by apply percent_not_unreserved in H2.
    + unfold JS.percent_encode. rewrite !JSFacts.append_cons, !JSFacts.append_nil.
      intros Heq.
      assert (Hc : JS.percent_encode c1 = JS.percent_encode c2).
      { unfold JS.percent_encode. congruence. }
      injection Heq as _ _ Hrest.
      apply percent_encode_inj in Hc as ->.
      f_equal. by apply IH.
Qed.

Lemma encodeURIComponent_injective_witness :
  JS.encodeURIComponent "/a b?x=1&y" = JS.encodeURIComponent "/a b?x=1&y" /\
  "/a b?x=1&y" = "/a b?x=1&y".
Proof.
  split; [reflexivity|].
  by apply (encodeURIComponent_injective "/a b?x=1&y" "/a b?x=1&y").
Defined.

End EncodingCoverage.

(** ** More on the Node response *)

Module NodeResponseCoverage.

Import NodeResponse.

Lemma filter_ext_bool {A : Type} (f g : A -> bool) (l : list A) :
  (forall x, f x = g x) -> List.filter f l = List.filter g l.
Proof.
  intros H. induction l as [|x l IH]; [done|]. simpl. by rewrite H, IH.
Qed.

Section Methods.

Context {CookieSerializeOptions : Type}.
Variable serialize : string -> string -> option CookieSerializeOptions -> option string.
Variable htmlSafe : string -> string.

(** X8. [setCookie] touches the [Set-Cookie] header and nothing else.
    When it returns, the status, the head, the body written so far,
    [writableEnded] and every other header are as before, and the header
    is an array. When it throws, the response is left as it was: it
    throws the error of [serialize], or [ERR_HTTP_HEADERS_SENT] when the
    head has been sent, or [ERR_INVALID_CHAR] when a cookie is not a valid
    header value. *)
Theorem setCookie_touches_only_set_cookie
    (name value : string) (options : option CookieSerializeOptions)
    (res : ServerResponse) :
  match setCookie serialize name value options res with
  | Normal res' =>
      headersSent res = false /\
      statusCode res' = statusCode res /\
      head res' = head res /\
      hasBody res' = hasBody res /\
      written res' = written res /\
      writableEnded res' = writableEnded res /\
      (exists l, getHeader "Set-Cookie" res' = Some (HArray l)) /\
      forall h, JS.toLowerCase h <> "set-cookie" -> getHeader h res' = getHeader h res
  | Thrown e res' =>
      res' = res /\
      match e with
      | TypeError_serialize => serialize name value options = None
      | ERR_HTTP_HEADERS_SENT => headersSent res = true
      | ERR_INVALID_CHAR =>
          exists c,
            serialize name value options = Some c /\
            existsb invalidHeaderChar
              (List.filter (fun x => negb (cookie_named name x)) (cookies res) ++ [c])
            = true
      | _ => False
      end
  end.
Proof.
  unfold setCookie. destruct (serialize name value options) as [c|]; [|done].
  destruct (setHeader _ _ res) as [res'|e res'] eqn:Hset.
  - apply NodeResponseSpec.setHeader_Normal in Hset as (Hsent & _ & _ & ->).
    repeat split; try done.
    + eexists. apply NodeResponseSpec.getHeader_with_headers.
    + intros h Hh. by apply NodeResponseSpec.getHeader_with_headers_other.
  - apply NodeResponseSpec.setHeader_Thrown in Hset as (-> & He).
    split; [done|]. destruct e; try done.
    + destruct He as (_ & He). by rewrite NodeResponseSpec.token_Set_Cookie in He.
    + destruct He as (_ & He). exists c. split; [done|].
      unfold invalid_value in He. by rewrite NodeResponseSpec.invalidHeaderChar_join in He.
Qed.

(** X9. For a name without an equals sign, [setCookie] selects by the
    exact cookie name: the cookies it drops are those whose name is
    [name], and a cookie whose name only begins with [name] (a chunk such
    as [appSession.0] beside [appSession]) stays. *)
Theorem setCookie_replaces_by_exact_name
    (name value : string) (options : option CookieSerializeOptions)
    (res res' : ServerResponse) :
  JS.includes name "=" = false ->
  setCookie serialize name value options res = Normal res' ->
  exists c,
    serialize name value options = Some c /\
    cookies res'
    = List.filter (fun x => negb (bool_decide (cookie_name x = Some name))) (cookies res)
      ++ [c].
Proof.
  intros Hname. unfold setCookie.
  destruct (serialize name value options) as [c|]; [|done].
  intros H. apply NodeResponseSpec.setHeader_Normal in H as (_ & _ & _ & ->).
  exists c. split; [done|].
  rewrite NodeResponseSpec.cookies_with_headers. f_equal.
  apply filter_ext_bool. intros x. f_equal.
  pose proof (NodeResponseSpec.cookie_named_iff_name name x Hname) as Hiff.
  destruct (cookie_named name x) eqn:Hx.
  - symmetry. apply bool_decide_eq_true. by apply Hiff.
  - symmetry. apply bool_decide_eq_false. intros Hn. apply Hiff in Hn. congruence.
Qed.

(** X10. A [redirect] that returns leaves the response ended, so a second
    [redirect], whatever its arguments, changes nothing; one that throws
    leaves the response open, with nothing written and no head sent by
    it. Either way the cookies set before it are undisturbed. *)
Theorem redirect_happens_once
    (l1 l2 : string) (s1 s2 : option Z) (res : ServerResponse) :
  match redirect htmlSafe l1 s1 res with
  | Normal r1 =>
      writableEnded r1 = true /\
      redirect htmlSafe l2 s2 r1 = Normal r1 /\
      cookies r1 = cookies res
  | Thrown e r1 =>
      writableEnded r1 = false /\
      written r1 = written res /\
      head r1 = head res /\
      cookies r1 = cookies res
  end.
Proof.
  unfold redirect. destruct (writableEnded res) eqn:He.
  { by rewrite He. }
  pose proof (NodeResponseSpec.writeHead_inv (default 302 s1)
                (or_else (getHeader "Location" res) (HString l1)) res) as Hinv.
  destruct (writeHead _ _ res) as [r|e r]; cbn [and_then].
  - destruct Hinv as (_ & Hsent & Hwritten & Hended & Hcookie).
    rewrite NodeResponseSpec.end_after_head; [|by rewrite Hended|done].
    cbn [writableEnded]. split; [done|]. split; [done|].
    unfold cookies, getHeader in *. cbn [headers]. by rewrite Hcookie.
  - destruct Hinv as (Hhead & Hwritten & Hended & Hcookie).
    rewrite Hended. split; [done|]. split; [done|]. split; [done|].
    unfold cookies. by rewrite Hcookie.
Qed.

End Methods.

Lemma setCookie_replaces_by_exact_name_witness :
  exists res',
    setCookie serialize_basic "appSession" "new" None
      (fresh_with "Set-Cookie"
         (HArray ["appSession=old"; "appSession.0=chunk"; "lang=en"]))
      = Normal res' /\
    cookies res' = ["appSession.0=chunk"; "lang=en"; "appSession=new"].
Proof.
  destruct (setCookie serialize_basic "appSession" "new" None
              (fresh_with "Set-Cookie"
                 (HArray ["appSession=old"; "appSession.0=chunk"; "lang=en"])))
    as [res'|e res'] eqn:Hset; [|vm_compute in Hset; discriminate].
  exists res'. split; [reflexivity|].
  destruct (setCookie_replaces_by_exact_name serialize_basic "appSession" "new" None
              _ res' eq_refl Hset) as (c & Hc & Hcookies).
  rewrite Hcookies. vm_compute in Hc. injection Hc as <-.
  vm_compute. reflexivity.
Defined.

Lemma setCookie_idempotent_witness :
  exists res1,
    setCookie serialize_basic "appSession" "abc" None
      (fresh_with "Set-Cookie" (HArray ["appSession=old"; "lang=en"]))
      = Normal res1 /\
    setCookie serialize_basic "appSession" "abc" None res1 = Normal res1.
Proof.
  destruct (setCookie serialize_basic "appSession" "abc" None
              (fresh_with "Set-Cookie" (HArray ["appSession=old"; "lang=en"])))
    as [res1|e res1] eqn:Hset; [|vm_compute in Hset; discriminate].
  exists res1. split; [reflexivity|].
  apply (NodeResponseSpec.setCookie_idempotent serialize_basic
           NodeResponseSpec.serialize_basic_named "appSession" "abc" None _ res1 Hset).
Defined.

End NodeResponseCoverage.

(** ** More on the configuration validator *)

Module ConfigCoverage.

Import ConfigValidator.
Import ConfigSpec.

Lemma js_length_le (s : string) :
  below_four_bytes s = true -> (Joi.js_length s <= String.length s)%nat.
Proof.
  unfold below_four_bytes. induction s as [|c s IH]; [done|].
  cbn [list_ascii_of_string forallb Joi.js_length String.length].
  intros H. apply andb_true_iff in H as (Hc & Hs). specialize (IH Hs).
  apply Nat.ltb_lt in Hc.
  destruct (240 <=? nat_of_ascii c)%nat eqn:H240; [apply Nat.leb_le in H240; lia|].
  destruct ((nat_of_ascii c <? 128)%nat || (192 <=? nat_of_ascii c)%nat); lia.
Qed.

Lemma secret_item_short (s : string) :
  below_four_bytes s = true -> (String.length s < 8)%nat -> secret_item s = None.
Proof.
  intros Hb Hlen. pose proof (js_length_le s Hb) as Hjs. unfold secret_item.
  replace (8 <=? Joi.js_length s)%nat with false by (symmetry; apply Nat.leb_gt; lia).
  replace (8 <=? String.length s)%nat with false by (symmetry; apply Nat.leb_gt; lia).
  by rewrite andb_false_r.
Qed.

(** An array with an item that is refused is reported at the position of
    the first such item. *)
Lemma secret_items_short (i : nat) (l : list string) (s : string) :
  In s l -> secret_item s = None ->
  exists k,
    (k < length l)%nat /\
    secret_item (nth k l "") = None /\
    (forall j, (j < k)%nat -> secret_item (nth j l "") <> None) /\
    secret_items i l = Joi.fail ["secret"; Joi.index (i + k)] Joi.array_includes.
Proof.
  revert i. induction l as [|x l IH]; [done|]. intros i Hin Hs.
  destruct (secret_item x) as [item|] eqn:Hx.
  - destruct Hin as [->|Hin]; [congruence|].
    destruct (IH (S i) Hin Hs) as (k & Hk & Hrefused & Hbefore & Hfail).
    exists (S k). split; [simpl; lia|]. split; [done|]. split.
    + intros [|j] Hj; simpl; [congruence | apply Hbefore; lia].
    + simpl. rewrite Hx, Hfail. simpl. by rewrite Nat.add_succ_r.
  - exists 0%nat. split; [simpl; lia|]. split; [done|]. split; [lia|].
    simpl. by rewrite Hx, Nat.add_0_r.
Qed.

Lemma integer_or_Ok (p : list string) (text : string) (d d' : Duration) :
  integer_or p text d = Joi.Ok d' -> d' = d /\ is_integer d = true.
Proof.
  unfold integer_or. destruct d as [n|b]; [|discriminate].
  destruct (Joi.integer_error n) as [[]|] eqn:Hn; try discriminate.
  intros [= <-]. split; [done|]. unfold is_integer. by rewrite Hn.
Qed.

Lemma validate_rollingDuration_Ok (rolling : bool) (v : option Duration) (d : Duration) :
  validate_rollingDuration rolling v = Joi.Ok d ->
  if rolling then is_integer d = true else d = DBoolean false.
Proof.
  unfold validate_rollingDuration. destruct v as [x|], rolling.
  - intros H. by apply integer_or_Ok in H as (-> & H).
  - destruct x as [n|[]]; try discriminate. by intros [= <-].
  - by intros [= <-].
  - by intros [= <-].
Qed.

Lemma validate_absoluteDuration_Ok (rolling : bool) (v : option Duration) (d : Duration) :
  validate_absoluteDuration rolling v = Joi.Ok d ->
  is_integer d = true \/ (rolling = true /\ d = DBoolean false).
Proof.
  unfold validate_absoluteDuration. destruct v as [x|].
  - destruct rolling; cbn [negb].
    + destruct x as [n|[]]; try discriminate.
      * destruct (Joi.integer_error n) as [[]|] eqn:Hn; try discriminate.
        intros [= <-]. left. unfold is_integer. by rewrite Hn.
      * intros [= <-]. by right.
    + intros H. apply integer_or_Ok in H as (-> & H). by left.
  - intros [= <-]. by left.
Qed.

Section Validated.

Context {Fn : Type}.
Variable defaultState : Fn.
Variable rules : Joi.UriRules.

(** X12. The secret is checked before anything else, so what follows
    holds whatever else the configuration holds. Without a secret (none in
    the configuration, none in [SECRET]) [get] throws [any.required] for
    [secret]. With a secret string of fewer than eight bytes (text of the
    Basic Multilingual Plane) it throws [alternatives.match] for [secret].
    With an array that holds such a string it throws [array.includes] at
    the position of the first item that is refused. *)
Theorem secret_is_required_and_long
    (env : Env) (params : option (Raw.Config Fn)) :
  (key_value (Raw.secret (given env params)) = None ->
     get defaultState rules env params
       = ThrowsTypeError {| Joi.path := ["secret"]; Joi.type := Joi.any_required;
                            Joi.message := None |}) /\
  (forall s,
     key_value (Raw.secret (given env params)) = Some (SecretString s) ->
     below_four_bytes s = true ->
     (String.length s < 8)%nat ->
     get defaultState rules env params
       = ThrowsTypeError {| Joi.path := ["secret"]; Joi.type := Joi.alternatives_match;
                            Joi.message := None |}) /\
  (forall l s,
     key_value (Raw.secret (given env params)) = Some (SecretArray l) ->
     In s l ->
     below_four_bytes s = true ->
     (String.length s < 8)%nat ->
     exists k,
       (k < length l)%nat /\
       secret_item (nth k l "") = None /\
       (forall j, (j < k)%nat -> secret_item (nth j l "") <> None) /\
       get defaultState rules env params
         = ThrowsTypeError {| Joi.path := ["secret"; Joi.index k];
                              Joi.type := Joi.array_includes;
                              Joi.message := None |}).
Proof.
  split; [|split].
  - intros Hnone. apply get_Throws_of_Error.
    unfold paramsSchema_validate. by rewrite Hnone.
  - intros s Hraw Hb Hlen. apply get_Throws_of_Error.
    unfold paramsSchema_validate. rewrite Hraw. simpl.
    by rewrite (secret_item_short s Hb Hlen).
  - intros l s Hraw Hin Hb Hlen.
    destruct (secret_items_short 0 l s Hin (secret_item_short s Hb Hlen))
      as (k & Hk & Hrefused & Hbefore & Hfail).
    exists k. split; [done|]. split; [done|]. split; [done|].
    apply get_Throws_of_Error.
    unfold paramsSchema_validate. rewrite Hraw. simpl. by rewrite Hfail.
Qed.

(** X13. In a configuration that [get] returns, [baseURL], [clientID] and
    [issuerBaseURL] are the values the caller or the environment gave:
    they are never missing, never empty, and the two URLs pass the URI
    test. [clientSecret] is likewise the value given, or absent, and never
    the empty string; [clockTolerance] is a finite number in the safe
    range. *)
Theorem required_settings_are_carried_over
    (env : Env) (params : option (Raw.Config Fn)) (cfg : Config Fn) :
  get defaultState rules env params = Returns cfg ->
  (key_value (Raw.baseURL (given env params)) = Some (baseURL cfg) /\
   baseURL cfg <> "" /\ Joi.uri rules (baseURL cfg) = true) /\
  (key_value (Raw.clientID (given env params)) = Some (clientID cfg) /\
   clientID cfg <> "") /\
  (key_value (Raw.issuerBaseURL (given env params)) = Some (issuerBaseURL cfg) /\
   issuerBaseURL cfg <> "" /\ Joi.uri rules (issuerBaseURL cfg) = true) /\
  (key_value (Raw.clientSecret (given env params)) = clientSecret cfg /\
   clientSecret cfg <> Some "") /\
  Joi.number_error (clockTolerance cfg) = None.
Proof.
  intros H. apply get_Returns, paramsSchema_validate_Ok in H.
  destruct H as (_ & _ & _ & Hb & Hc & Hclock & _ & _ & Hcs & Hi & _).
  unfold required_string in Hb, Hc, Hi.
  destruct (key_value (Raw.baseURL (given env params))) as [b|]; [|discriminate].
  destruct (key_value (Raw.clientID (given env params))) as [c|]; [|discriminate].
  destruct (key_value (Raw.issuerBaseURL (given env params))) as [i|]; [|discriminate].
  apply string_rule_Ok in Hb as (-> & ? & ?).
  apply string_rule_Ok in Hc as (-> & ? & _).
  apply string_rule_Ok in Hi as (-> & ? & ?).
  repeat split; try done.
  - unfold validate_clientSecret in Hcs.
    destruct (key_value (Raw.clientSecret (given env params))) as [x|].
    + joi_inv Hcs. injection Hcs as <-. by apply string_rule_Ok in Hv as (-> & _).
    + destruct (JS.startsWith _ _); [discriminate|].
      destruct (JS.includes _ _); [discriminate|]. by injection Hcs as <-.
  - unfold validate_clientSecret in Hcs.
    destruct (key_value (Raw.clientSecret (given env params))) as [x|].
    + joi_inv Hcs. injection Hcs as <-. apply string_rule_Ok in Hv as (-> & Hne & _).
      congruence.
    + destruct (JS.startsWith _ _); [discriminate|].
      destruct (JS.includes _ _); [discriminate|]. by injection Hcs as <-.
  - unfold validate_clockTolerance in Hclock.
    destruct (Raw.clockTolerance (given env params)) as [n|].
    + destruct (Joi.number_error n) eqn:Hn; [discriminate|]. by injection Hclock as <-.
    + by injection Hclock as <-.
Qed.

(** X14. The environment only fills in keys the caller's object does not
    have. Two environments that agree on [SECRET], [BASE_URL],
    [CLIENT_ID], [CLIENT_SECRET] and [ISSUER_BASE_URL] wherever the
    matching key is absent from the object give the same result; a key
    that is present, even with [undefined], hides the environment. *)
Theorem environment_fills_absent_keys_only
    (env env' : Env) (params : option (Raw.Config Fn)) :
  (Raw.secret (supplied params) = Absent -> SECRET env = SECRET env') ->
  (Raw.baseURL (supplied params) = Absent -> BASE_URL env = BASE_URL env') ->
  (Raw.clientID (supplied params) = Absent -> CLIENT_ID env = CLIENT_ID env') ->
  (Raw.clientSecret (supplied params) = Absent -> CLIENT_SECRET env = CLIENT_SECRET env') ->
  (Raw.issuerBaseURL (supplied params) = Absent ->
     ISSUER_BASE_URL env = ISSUER_BASE_URL env') ->
  get defaultState rules env params = get defaultState rules env' params.
Proof.
  intros H1 H2 H3 H4 H5. unfold get. fold (supplied params).
  assert (with_env env (supplied params) = with_env env' (supplied params)) as ->; [|done].
  unfold with_env.
  destruct (Raw.secret (supplied params)); [rewrite H1 by done|];
  destruct (Raw.baseURL (supplied params)); [rewrite H2 by done| |rewrite H2 by done|];
  destruct (Raw.clientID (supplied params)); try rewrite H3 by done;
  destruct (Raw.clientSecret (supplied params)); try rewrite H4 by done;
  destruct (Raw.issuerBaseURL (supplied params)); try rewrite H5 by done;
  reflexivity.
Qed.

(** X15. The session of a returned configuration always has a finite
    lifetime. With [rolling] on, [rollingDuration] is a safe integer and
    [absoluteDuration] is a safe integer or [false]; with [rolling] off,
    [rollingDuration] is [false] and [absoluteDuration] is a safe integer.
    Neither is ever [true]. *)
Theorem session_has_a_finite_lifetime
    (env : Env) (params : option (Raw.Config Fn)) (cfg : Config Fn) :
  get defaultState rules env params = Returns cfg ->
  if rolling (session cfg)
  then is_integer (rollingDuration (session cfg)) = true /\
       (is_integer (absoluteDuration (session cfg)) = true \/
        absoluteDuration (session cfg) = DBoolean false)
  else rollingDuration (session cfg) = DBoolean false /\
       is_integer (absoluteDuration (session cfg)) = true.
Proof.
  intros H. apply get_Returns, paramsSchema_validate_Ok in H.
  destruct H as (_ & Hs & _).
  apply validate_session_Ok in Hs as (_ & Hrd & Had & _).
  apply validate_rollingDuration_Ok in Hrd.
  apply validate_absoluteDuration_Ok in Had.
  destruct (rolling (session cfg)).
  - split; [done|]. destruct Had as [?|(_ & ?)]; auto.
  - split; [done|]. by destruct Had as [?|(? & _)].
Qed.

Lemma optional_string_Ok (p : list string) (rule : string -> bool)
    (t : Joi.ErrorCode) (v o : option string) :
  optional_string p rule t v = Joi.Ok o ->
  o = v /\ forall s, v = Some s -> s <> "" /\ rule s = true.
Proof.
  unfold optional_string. destruct v as [x|].
  - intros H. joi_inv H. injection H as <-.
    apply string_rule_Ok in Hv as (-> & Hne & Hr).
    split; [done|]. by intros s [= <-].
  - intros [= <-]. split; [done|]. discriminate.
Qed.

Lemma string_default_Ok (p : list string) (rule : string -> bool)
    (t : Joi.ErrorCode) (d : string) (v : option string) (s : string) :
  string_default p rule t d v = Joi.Ok s ->
  match v with
  | None => s = d
  | Some x => s = x /\ x <> "" /\ rule x = true
  end.
Proof.
  unfold string_default. destruct v as [x|].
  - apply string_rule_Ok.
  - by intros [= <-].
Qed.

Lemma validate_route_Ok (p : list string) (d : string) (v : option StringOrFalse)
    (r : StringOrFalse) :
  validate_route rules p d v = Joi.Ok r ->
  match v with
  | None => r = IsString d
  | Some x => r = x /\ forall s, x = IsString s -> s <> "" /\ Joi.uri_relativeOnly rules s = true
  end.
Proof.
  unfold validate_route. destruct v as [[s|]|].
  - intros H. joi_inv H. injection H as <-.
    apply string_rule_Ok in Hv as (-> & Hne & Hr).
    split; [done|]. by intros s' [= <-].
  - intros [= <-]. split; [done|]. discriminate.
  - by intros [= <-].
Qed.

Lemma validate_cookie_fields (v : option Raw.CookieConfig) (c : CookieConfig) :
  validate_cookie rules v = Joi.Ok c ->
  optional_string ["session"; "cookie"; "domain"] Joi.any_string Joi.string_empty
    (Raw.domain (default Raw.no_cookie v)) = Joi.Ok (domain c) /\
  transient c = default false (Raw.transient (default Raw.no_cookie v)) /\
  secure c = Raw.secure (default Raw.no_cookie v) /\
  optional_string ["session"; "cookie"; "path"] (Joi.uri_relativeOnly rules)
    Joi.string_uriRelativeOnly (Raw.path (default Raw.no_cookie v)) = Joi.Ok (path c).
Proof.
  unfold validate_cookie. intros H. joi_inv H. injection H as <-. by simpl.
Qed.

Lemma validate_session_name (v : option Raw.SessionConfig) (s : SessionConfig) :
  validate_session rules v = Joi.Ok s ->
  string_default ["session"; "name"] Joi.token Joi.string_token "appSession"
    (Raw.name (default Raw.no_session v)) = Joi.Ok (name s).
Proof.
  unfold validate_session. intros H. joi_inv H. injection H as <-. by simpl.
Qed.

Lemma validate_authorizationParams_fields (v : option Raw.AuthorizationParameters)
    (a : AuthorizationParameters) :
  validate_authorizationParams v = Joi.Ok a ->
  string_default ["authorizationParams"; "scope"] Joi.contains_openid
    Joi.string_pattern_name "openid profile email"
    (Raw.scope (default Raw.no_authorizationParams v)) = Joi.Ok (scope a) /\
  others a = Raw.others (default Raw.no_authorizationParams v).
Proof.
  unfold validate_authorizationParams. intros H. joi_inv H. injection H as <-. by simpl.
Qed.

Lemma validate_routes_fields (v : option Raw.Routes) (r : Routes) :
  validate_routes rules v = Joi.Ok r ->
  validate_route rules ["routes"; "login"] "/login" (Raw.login (default Raw.no_routes v))
    = Joi.Ok (login r) /\
  validate_route rules ["routes"; "logout"] "/logout" (Raw.logout (default Raw.no_routes v))
    = Joi.Ok (logout r) /\
  string_default ["routes"; "callback"] (Joi.uri_relativeOnly rules)
    Joi.string_uriRelativeOnly "/callback" (Raw.callback (default Raw.no_routes v))
    = Joi.Ok (callback r) /\
  string_default ["routes"; "postLogoutRedirect"] (Joi.uri_allowRelative rules)
    Joi.string_uri "" (Raw.postLogoutRedirect (default Raw.no_routes v))
    = Joi.Ok (postLogoutRedirect r).
Proof.
  unfold validate_routes. intros H. joi_inv H. injection H as <-. by simpl.
Qed.

Lemma paramsSchema_validate_flags (config : Raw.Config Fn) (cfg : Config Fn) :
  paramsSchema_validate defaultState rules config = Joi.Ok cfg ->
  auth0Logout cfg = default false (Raw.auth0Logout config) /\
  idpLogout cfg = default (auth0Logout cfg) (Raw.idpLogout config) /\
  enableTelemetry cfg = default true (Raw.enableTelemetry config) /\
  errorOnRequiredAuth cfg = default false (Raw.errorOnRequiredAuth config) /\
  attemptSilentLogin cfg = default false (Raw.attemptSilentLogin config) /\
  legacySameSiteCookie cfg = default true (Raw.legacySameSiteCookie config) /\
  authRequired cfg = default true (Raw.authRequired config) /\
  getLoginState cfg = default defaultState (Raw.getLoginState config).
Proof.
  unfold paramsSchema_validate. intros H. joi_inv H.
  injection H as <-. simpl. rewrite orb_false_r. done.
Qed.

Lemma cookie_key_default {A : Type} (key : Raw.CookieConfig -> option A)
    (config : Raw.Config Fn) :
  key Raw.no_cookie = None ->
  key (default Raw.no_cookie (Raw.cookie (default Raw.no_session (Raw.session config))))
  = cookie_key key config.
Proof.
  intros Hk. unfold cookie_key.
  destruct (Raw.session config) as [s|]; simpl; [|done].
  by destruct (Raw.cookie s).
Qed.

(** X16. In a configuration that [get] returns, the session cookie can be
    set as it stands: its name is a token (letters, digits and
    underscores, not empty), [sameSite] is [Lax], [Strict] or [None], and
    [domain], [secure] and [path] are what the caller gave, with no
    default put in their place; a [domain] or [path] that is given is not
    empty, and the [path] passes the relative-URI test. *)
Theorem session_cookie_is_well_formed
    (env : Env) (params : option (Raw.Config Fn)) (cfg : Config Fn) :
  get defaultState rules env params = Returns cfg ->
  Joi.token (name (session cfg)) = true /\
  In (sameSite (cookie (session cfg))) ["Lax"; "Strict"; "None"] /\
  domain (cookie (session cfg)) = cookie_key Raw.domain (supplied params) /\
  domain (cookie (session cfg)) <> Some "" /\
  secure (cookie (session cfg)) = cookie_key Raw.secure (supplied params) /\
  path (cookie (session cfg)) = cookie_key Raw.path (supplied params) /\
  (forall p, path (cookie (session cfg)) = Some p ->
     p <> "" /\ Joi.uri_relativeOnly rules p = true).
Proof.
  intros H. apply get_Returns, paramsSchema_validate_Ok in H.
  unfold given in H. simpl in H. set (config := supplied params) in *.
  destruct H as (_ & Hs & _).
  pose proof (validate_session_name _ _ Hs) as Hname.
  apply validate_session_Ok in Hs as (_ & _ & _ & Hc).
  pose proof (validate_cookie_fields _ _ Hc) as (Hd & _ & Hsec & Hp).
  apply validate_cookie_Ok in Hc as (_ & Hss).
  apply string_default_Ok in Hname.
  rewrite (cookie_key_default Raw.domain) in Hd by done.
  rewrite (cookie_key_default Raw.secure) in Hsec by done.
  rewrite (cookie_key_default Raw.path) in Hp by done.
  apply optional_string_Ok in Hd as (Hd & Hdne).
  apply optional_string_Ok in Hp as (Hp & Hpok).
  repeat split.
  - destruct (Raw.name (default Raw.no_session (Raw.session config))) as [x|].
    + by destruct Hname as (-> & _ & ?).
    + by rewrite Hname.
  - destruct (Raw.sameSite _) as [x|].
    + by destruct Hss as (-> & ?).
    + rewrite Hss. by left.
  - done.
  - intros Hempty. rewrite Hd in Hempty. by destruct (Hdne "" Hempty).
  - done.
  - done.
  - rewrite <- Hp in Hpok. by apply Hpok.
  - rewrite <- Hp in Hpok. by apply Hpok.
Qed.

(** X17. In a configuration that [get] returns, [response_type] is one of
    [id_token], [code id_token] and [code], the [scope] holds [openid] as
    a word of its own, and the further authorization parameters of the
    caller are passed on untouched. *)
Theorem authorizationParams_are_well_formed
    (env : Env) (params : option (Raw.Config Fn)) (cfg : Config Fn) :
  get defaultState rules env params = Returns cfg ->
  In (response_type (authorizationParams cfg)) ["id_token"; "code id_token"; "code"] /\
  Joi.contains_openid (scope (authorizationParams cfg)) = true /\
  scope (authorizationParams cfg)
    = default "openid profile email" (authorization_key Raw.scope (supplied params)) /\
  others (authorizationParams cfg)
    = Raw.others (default Raw.no_authorizationParams
                    (Raw.authorizationParams (supplied params))).
Proof.
  intros H. apply get_Returns, paramsSchema_validate_Ok in H.
  unfold given in H. simpl in H. set (config := supplied params) in *.
  destruct H as (_ & _ & Ha & _).
  pose proof (validate_authorizationParams_fields _ _ Ha) as (Hscope & Hothers).
  apply validate_authorizationParams_Ok in Ha as (Hrt & _).
  apply string_default_Ok in Hscope.
  assert (Raw.scope (default Raw.no_authorizationParams (Raw.authorizationParams config))
          = authorization_key Raw.scope config) as Hkey.
  { unfold authorization_key. by destruct (Raw.authorizationParams config). }
  rewrite Hkey in Hscope.
  repeat split.
  - destruct (Raw.response_type _) as [x|].
    + by destruct Hrt as (-> & ?).
    + rewrite Hrt. by left.
  - destruct (authorization_key Raw.scope config) as [x|].
    + by destruct Hscope as (-> & _ & ?).
    + by rewrite Hscope.
  - destruct (authorization_key Raw.scope config) as [x|].
    + by destruct Hscope as (-> & _).
    + done.
  - done.
Qed.

(** X18. A route the caller gives is kept as it is, and [get] returns
    only if it is not the empty string and passes its URI test (relative
    only for [login], [logout] and [callback]); [login] and [logout] may
    also be [false]. [postLogoutRedirect] is the empty string exactly when
    the caller leaves it out: given as the empty string it is refused. *)
Theorem routes_are_kept_as_given
    (env : Env) (params : option (Raw.Config Fn)) (cfg : Config Fn) :
  get defaultState rules env params = Returns cfg ->
  (forall v, routes_key Raw.login (supplied params) = Some v ->
     login (routes cfg) = v /\
     forall s, v = IsString s -> s <> "" /\ Joi.uri_relativeOnly rules s = true) /\
  (forall v, routes_key Raw.logout (supplied params) = Some v ->
     logout (routes cfg) = v /\
     forall s, v = IsString s -> s <> "" /\ Joi.uri_relativeOnly rules s = true) /\
  (forall s, routes_key Raw.callback (supplied params) = Some s ->
     callback (routes cfg) = s /\ s <> "" /\ Joi.uri_relativeOnly rules s = true) /\
  (forall s, routes_key Raw.postLogoutRedirect (supplied params) = Some s ->
     postLogoutRedirect (routes cfg) = s /\ s <> "" /\
     Joi.uri_allowRelative rules s = true) /\
  (postLogoutRedirect (routes cfg) = "" <->
   routes_key Raw.postLogoutRedirect (supplied params) = None).
Proof.
  intros H. apply get_Returns, paramsSchema_validate_Ok in H.
  unfold given in H. simpl in H. set (config := supplied params) in *.
  destruct H as (_ & _ & _ & _ & _ & _ & _ & _ & _ & _ & Hr).
  apply validate_routes_fields in Hr as (Hlogin & Hlogout & Hcb & Hplr).
  apply validate_route_Ok in Hlogin, Hlogout.
  apply string_default_Ok in Hcb, Hplr.
  assert (forall A (key : Raw.Routes -> option A),
            key (default Raw.no_routes (Raw.routes config)) = routes_key key config
            \/ Raw.routes config = None) as Hkey.
  { intros A key. unfold routes_key. destruct (Raw.routes config); auto. }
  assert (forall A (key : Raw.Routes -> option A) x,
            routes_key key config = Some x ->
            key (default Raw.no_routes (Raw.routes config)) = Some x) as Hsome.
  { intros A key x. unfold routes_key. by destruct (Raw.routes config). }
  repeat split.
  - apply Hsome in H. rewrite H in Hlogin. by destruct Hlogin.
  - apply Hsome in H. rewrite H in Hlogin. destruct Hlogin as (_ & Hl).
    by apply (Hl s).
  - apply Hsome in H. rewrite H in Hlogin. destruct Hlogin as (_ & Hl).
    by apply (Hl s).
  - apply Hsome in H. rewrite H in Hlogout. by destruct Hlogout.
  - apply Hsome in H. rewrite H in Hlogout. destruct Hlogout as (_ & Hl).
    by apply (Hl s).
  - apply Hsome in H. rewrite H in Hlogout. destruct Hlogout as (_ & Hl).
    by apply (Hl s).
  - apply Hsome in H. rewrite H in Hcb. by destruct Hcb.
  - apply Hsome in H. rewrite H in Hcb. by destruct Hcb as (_ & ? & _).
  - apply Hsome in H. rewrite H in Hcb. by destruct Hcb as (_ & _ & ?).
  - apply Hsome in H. rewrite H in Hplr. by destruct Hplr.
  - apply Hsome in H. rewrite H in Hplr. by destruct Hplr as (_ & ? & _).
  - apply Hsome in H. rewrite H in Hplr. by destruct Hplr as (_ & _ & ?).
  - intros Hempty.
    destruct (routes_key Raw.postLogoutRedirect config) as [x|] eqn:Hx; [|done].
    apply Hsome in Hx. rewrite Hx in Hplr. destruct Hplr as (He & Hne & _). congruence.
  - intros Hnone. unfold routes_key in Hnone.
    destruct (Raw.routes config) as [r|]; simpl in *; [|done].
    by rewrite Hnone in Hplr.
Qed.

(** X19. The switches and their defaults. In a configuration that [get]
    returns, each switch is the caller's value or its default:
    [auth0Logout] false, [enableTelemetry] true, [errorOnRequiredAuth]
    false, [attemptSilentLogin] false, [legacySameSiteCookie] true,
    [authRequired] true, [session.cookie.transient] false; [idpLogout]
    falls back on the value of [auth0Logout], [getLoginState] on the
    library's own; the session name falls back on [appSession] and
    [response_type] on [id_token]. *)
Theorem switches_have_their_defaults
    (env : Env) (params : option (Raw.Config Fn)) (cfg : Config Fn) :
  get defaultState rules env params = Returns cfg ->
  auth0Logout cfg = default false (Raw.auth0Logout (supplied params)) /\
  idpLogout cfg = default (auth0Logout cfg) (Raw.idpLogout (supplied params)) /\
  enableTelemetry cfg = default true (Raw.enableTelemetry (supplied params)) /\
  errorOnRequiredAuth cfg = default false (Raw.errorOnRequiredAuth (supplied params)) /\
  attemptSilentLogin cfg = default false (Raw.attemptSilentLogin (supplied params)) /\
  legacySameSiteCookie cfg = default true (Raw.legacySameSiteCookie (supplied params)) /\
  authRequired cfg = default true (Raw.authRequired (supplied params)) /\
  getLoginState cfg = default defaultState (Raw.getLoginState (supplied params)) /\
  transient (cookie (session cfg))
    = default false (cookie_key Raw.transient (supplied params)) /\
  name (session cfg) = default "appSession" (session_key Raw.name (supplied params)) /\
  response_type (authorizationParams cfg)
    = default "id_token" (authorization_key Raw.response_type (supplied params)).
Proof.
  intros H. apply get_Returns in H.
  pose proof (paramsSchema_validate_flags _ _ H)
    as (H1 & H2 & H3 & H4 & H5 & H6 & H7 & H8).
  apply paramsSchema_validate_Ok in H.
  unfold given in *. simpl in *. set (config := supplied params) in *.
  destruct H as (_ & Hs & Ha & _).
  pose proof (validate_session_name _ _ Hs) as Hname.
  apply validate_session_Ok in Hs as (_ & _ & _ & Hc).
  apply validate_cookie_fields in Hc as (_ & Ht & _).
  apply validate_authorizationParams_Ok in Ha as (Hrt & _).
  apply string_default_Ok in Hname.
  rewrite (cookie_key_default Raw.transient) in Ht by done.
  repeat split; try done.
  - unfold session_key.
    destruct (Raw.session config) as [s|]; simpl in *; [|done].
    destruct (Raw.name s); simpl; [by destruct Hname | done].
  - unfold authorization_key.
    destruct (Raw.authorizationParams config) as [a|]; simpl in *; [|done].
    destruct (Raw.response_type a); simpl; [by destruct Hrt | done].
Qed.

Lemma string_rule_again (p : list string) (rule : string -> bool) (t : Joi.ErrorCode)
    (s : string) :
  s <> "" -> rule s = true -> Joi.string_rule p rule t s = Joi.Ok s.
Proof.
  intros Hne Hr. unfold Joi.string_rule.
  apply String.eqb_neq in Hne. by rewrite Hne, Hr.
Qed.

Lemma optional_string_again (p : list string) (rule : string -> bool)
    (t : Joi.ErrorCode) (v o : option string) :
  optional_string p rule t v = Joi.Ok o -> optional_string p rule t o = Joi.Ok o.
Proof. intros H. by pose proof (optional_string_Ok _ _ _ _ _ H) as (-> & _). Qed.

Lemma string_default_again (p : list string) (rule : string -> bool)
    (t : Joi.ErrorCode) (d : string) (v : option string) (s : string) :
  d <> "" -> rule d = true ->
  string_default p rule t d v = Joi.Ok s ->
  string_default p rule t d (Some s) = Joi.Ok s.
Proof.
  intros Hd Hr H. apply string_default_Ok in H. simpl.
  destruct v as [x|].
  - destruct H as (-> & ? & ?). by apply string_rule_again.
  - subst s. by apply string_rule_again.
Qed.

Lemma only_again (p : list string) (allowed : list string) (s : string) :
  In s allowed -> only p allowed s = Joi.Ok s.
Proof.
  intros Hin. unfold only.
  replace (existsb (String.eqb s) allowed) with true; [done|].
  symmetry. apply existsb_exists. exists s. split; [done|]. apply String.eqb_refl.
Qed.

Lemma integer_or_again (p : list string) (text : string) (d : Duration) :
  is_integer d = true -> integer_or p text d = Joi.Ok d.
Proof.
  unfold is_integer, integer_or. destruct d as [n|b]; [|discriminate].
  by destruct (Joi.integer_error n).
Qed.

Lemma validate_rollingDuration_again (rolling : bool) (v : option Duration)
    (d : Duration) :
  validate_rollingDuration rolling v = Joi.Ok d ->
  validate_rollingDuration rolling (Some d) = Joi.Ok d.
Proof.
  intros H. apply validate_rollingDuration_Ok in H.
  unfold validate_rollingDuration. destruct rolling.
  - by apply integer_or_again.
  - by subst d.
Qed.

Lemma validate_absoluteDuration_again (rolling : bool) (v : option Duration)
    (d : Duration) :
  validate_absoluteDuration rolling v = Joi.Ok d ->
  validate_absoluteDuration rolling (Some d) = Joi.Ok d.
Proof.
  intros H. apply validate_absoluteDuration_Ok in H.
  unfold validate_absoluteDuration.
  destruct H as [Hint|(-> & ->)]; [|done].
  destruct rolling; cbn [negb].
  - unfold is_integer in Hint. destruct d as [n|b]; [|discriminate].
    by destruct (Joi.integer_error n).
  - by apply integer_or_again.
Qed.

Lemma validate_cookie_again (v : option Raw.CookieConfig) (c : CookieConfig) :
  validate_cookie rules v = Joi.Ok c ->
  validate_cookie rules (Some (raw_of_cookie c)) = Joi.Ok c.
Proof.
  intros H. pose proof (validate_cookie_fields _ _ H) as (Hd & _ & _ & Hp).
  pose proof (validate_cookie_Ok rules _ _ H) as (_ & Hss).
  apply optional_string_again in Hd, Hp.
  assert (In (sameSite c) ["Lax"; "Strict"; "None"]) as Hin.
  { destruct (Raw.sameSite _) as [x|].
    - by destruct Hss as (-> & ?).
    - rewrite Hss. by left. }
  unfold validate_cookie. cbv beta zeta.
  cbn [default from_option id raw_of_cookie Raw.domain Raw.transient Raw.httpOnly Raw.sameSite
       Raw.secure Raw.path].
  rewrite Hd. cbn [Joi.bind]. rewrite (only_again _ _ _ Hin). cbn [Joi.bind].
  rewrite Hp. by destruct c.
Qed.

Lemma validate_session_again (v : option Raw.SessionConfig) (s : SessionConfig) :
  validate_session rules v = Joi.Ok s ->
  validate_session rules (Some (raw_of_session s)) = Joi.Ok s.
Proof.
  intros H. pose proof (validate_session_name _ _ H) as Hname.
  apply (validate_session_Ok rules) in H as (_ & Hrd & Had & Hc).
  apply validate_rollingDuration_again in Hrd.
  apply validate_absoluteDuration_again in Had.
  apply string_default_again in Hname; [|done|done].
  apply validate_cookie_again in Hc.
  unfold validate_session. cbv beta zeta.
  cbn [default from_option id raw_of_session Raw.rolling Raw.rollingDuration Raw.absoluteDuration
       Raw.name Raw.cookie].
  rewrite Hrd. cbn [Joi.bind]. rewrite Had. cbn [Joi.bind].
  rewrite Hname. cbn [Joi.bind]. rewrite Hc. by destruct s.
Qed.

Lemma validate_response_mode_again (rt : string) (v m : option string) :
  validate_response_mode rt v = Joi.Ok m ->
  validate_response_mode rt m = Joi.Ok m.
Proof.
  intros H. apply validate_response_mode_Ok in H as (Hcode & Hother).
  destruct (String.eqb rt "code") eqn:Hrt.
  - apply String.eqb_eq in Hrt. destruct (Hcode Hrt) as (_ & [->| ->]); by subst rt.
  - unfold validate_response_mode. rewrite Hrt.
    apply String.eqb_neq in Hrt. by destruct (Hother Hrt) as (-> & _).
Qed.

Lemma validate_authorizationParams_again (v : option Raw.AuthorizationParameters)
    (a : AuthorizationParameters) :
  validate_authorizationParams v = Joi.Ok a ->
  validate_authorizationParams (Some (raw_of_authorizationParams a)) = Joi.Ok a.
Proof.
  intros H. pose proof (validate_authorizationParams_fields _ _ H) as (Hscope & _).
  apply validate_authorizationParams_Ok in H as (Hrt & Hrm).
  apply string_default_again in Hscope; [|done|done].
  apply validate_response_mode_again in Hrm.
  assert (In (response_type a) ["id_token"; "code id_token"; "code"]) as Hin.
  { destruct (Raw.response_type _) as [x|].
    - by destruct Hrt as (-> & ?).
    - rewrite Hrt. by left. }
  unfold validate_authorizationParams. cbv beta zeta.
  cbn [default from_option id raw_of_authorizationParams Raw.response_type Raw.scope
       Raw.response_mode Raw.others].
  rewrite (only_again _ _ _ Hin). cbn [Joi.bind].
  rewrite Hscope. cbn [Joi.bind]. rewrite Hrm. by destruct a.
Qed.

(** The schema reads [session] and [authorizationParams] through their
    validators only. *)
Lemma paramsSchema_validate_ext (c1 c2 : Raw.Config Fn) :
  validate_session rules (Raw.session c1) = validate_session rules (Raw.session c2) ->
  validate_authorizationParams (Raw.authorizationParams c1)
    = validate_authorizationParams (Raw.authorizationParams c2) ->
  Raw.secret c1 = Raw.secret c2 ->
  Raw.auth0Logout c1 = Raw.auth0Logout c2 ->
  Raw.baseURL c1 = Raw.baseURL c2 ->
  Raw.clientID c1 = Raw.clientID c2 ->
  Raw.clientSecret c1 = Raw.clientSecret c2 ->
  Raw.clockTolerance c1 = Raw.clockTolerance c2 ->
  Raw.enableTelemetry c1 = Raw.enableTelemetry c2 ->
  Raw.errorOnRequiredAuth c1 = Raw.errorOnRequiredAuth c2 ->
  Raw.attemptSilentLogin c1 = Raw.attemptSilentLogin c2 ->
  Raw.getLoginState c1 = Raw.getLoginState c2 ->
  Raw.identityClaimFilter c1 = Raw.identityClaimFilter c2 ->
  Raw.idpLogout c1 = Raw.idpLogout c2 ->
  Raw.idTokenSigningAlg c1 = Raw.idTokenSigningAlg c2 ->
  Raw.issuerBaseURL c1 = Raw.issuerBaseURL c2 ->
  Raw.legacySameSiteCookie c1 = Raw.legacySameSiteCookie c2 ->
  Raw.authRequired c1 = Raw.authRequired c2 ->
  Raw.routes c1 = Raw.routes c2 ->
  paramsSchema_validate defaultState rules c1 = paramsSchema_validate defaultState rules c2.
Proof.
  intros Hs Ha E1 E2 E3 E4 E5 E6 E7 E8 E9 E10 E11 E12 E13 E14 E15 E16 E17.
  unfold paramsSchema_validate.
  by rewrite Hs, Ha, E1, E2, E3, E4, E5, E6, E7, E8, E9, E10, E11, E12, E13, E14,
    E15, E16, E17.
Qed.

(** X20. Validation is stable: writing the [session] and the
    [authorizationParams] of a returned configuration back into the
    caller's object, every default spelled out, gives the same
    configuration again. No default of these two objects is a value the
    schema would refuse. *)
Theorem session_and_authorizationParams_validate_again
    (env : Env) (params : option (Raw.Config Fn)) (cfg : Config Fn) :
  get defaultState rules env params = Returns cfg ->
  get defaultState rules env
    (Some (set_session (raw_of_session (session cfg))
             (set_authorizationParams
                (raw_of_authorizationParams (authorizationParams cfg))
                (supplied params))))
  = Returns cfg.
Proof.
  intros H. apply get_Returns in H. apply get_Returns. rewrite <- H.
  apply paramsSchema_validate_Ok in H. destruct H as (_ & Hs & Ha & _).
  apply paramsSchema_validate_ext; try reflexivity.
  - rewrite Hs. apply validate_session_again in Hs. exact Hs.
  - rewrite Ha. apply validate_authorizationParams_again in Ha. exact Ha.
Qed.

End Validated.

Lemma secret_is_required_and_long_witness :
  get tt simple_rules deployment (Some custom_with_short_secret)
  = ThrowsTypeError {| Joi.path := ["secret"; "1"]; Joi.type := Joi.array_includes;
                       Joi.message := None |}.
Proof.
  destruct (secret_is_required_and_long tt simple_rules deployment
              (Some custom_with_short_secret)) as (_ & _ & Harray).
  destruct (Harray ["a long, random secret"; "short"] "short")
    as (k & Hk & Hrefused & _ & Hget).
  - reflexivity.
  - right. left. reflexivity.
  - reflexivity.
  - vm_compute. lia.
  - destruct k as [|[|k]].
    + vm_compute in Hrefused. discriminate.
    + exact Hget.
    + simpl in Hk. lia.
Defined.

Lemma required_settings_are_carried_over_witness :
  exists cfg,
    get tt simple_rules deployment (Some custom) = Returns cfg /\
    baseURL cfg = "https://app.example.com" /\
    clientSecret cfg = Some "client-secret" /\
    Joi.number_error (clockTolerance cfg) = None.
Proof.
  destruct (get tt simple_rules deployment (Some custom)) as [cfg|e] eqn:Hget;
    [|vm_compute in Hget; discriminate].
  exists cfg. split; [reflexivity|].
  destruct (required_settings_are_carried_over tt simple_rules deployment
              (Some custom) cfg Hget)
    as ((Hb & _) & _ & _ & (Hcs & _) & Hclock).
  split; [by injection Hb|]. split; [by rewrite <- Hcs | exact Hclock].
Defined.

Lemma environment_fills_absent_keys_only_witness :
  get tt simple_rules deployment (Some custom)
  = get tt simple_rules deployment_without_secret (Some custom).
Proof.
  apply (environment_fills_absent_keys_only tt simple_rules
           deployment deployment_without_secret (Some custom));
    first [discriminate | reflexivity].
Defined.

Lemma session_has_a_finite_lifetime_witness :
  exists cfg,
    get tt simple_rules deployment (Some custom) = Returns cfg /\
    rolling (session cfg) = false /\
    rollingDuration (session cfg) = DBoolean false /\
    is_integer (absoluteDuration (session cfg)) = true.
Proof.
  destruct (get tt simple_rules deployment (Some custom)) as [cfg|e] eqn:Hget;
    [|vm_compute in Hget; discriminate].
  exists cfg. split; [reflexivity|].
  pose proof (session_has_a_finite_lifetime tt simple_rules deployment
                (Some custom) cfg Hget) as Hd.
  assert (rolling (session cfg) = false) as Hr.
  { vm_compute in Hget. by injection Hget as <-. }
  rewrite Hr in Hd. split; [exact Hr | exact Hd].
Defined.

Lemma session_cookie_is_well_formed_witness :
  exists cfg,
    get tt simple_rules deployment (Some custom) = Returns cfg /\
    Joi.token (name (session cfg)) = true /\
    domain (cookie (session cfg)) = Some "example.com" /\
    path (cookie (session cfg)) = Some "/app".
Proof.
  destruct (get tt simple_rules deployment (Some custom)) as [cfg|e] eqn:Hget;
    [|vm_compute in Hget; discriminate].
  exists cfg. split; [reflexivity|].
  destruct (session_cookie_is_well_formed tt simple_rules deployment
              (Some custom) cfg Hget)
    as (Hname & _ & Hdomain & _ & _ & Hpath & _).
  split; [exact Hname|]. split; [exact Hdomain | exact Hpath].
Defined.

Lemma authorizationParams_are_well_formed_witness :
  exists cfg,
    get tt simple_rules deployment (Some custom) = Returns cfg /\
    scope (authorizationParams cfg) = "openid offline_access" /\
    others (authorizationParams cfg) = [("audience", "https://api.example.com")].
Proof.
  destruct (get tt simple_rules deployment (Some custom)) as [cfg|e] eqn:Hget;
    [|vm_compute in Hget; discriminate].
  exists cfg. split; [reflexivity|].
  destruct (authorizationParams_are_well_formed tt simple_rules deployment
              (Some custom) cfg Hget)
    as (_ & _ & Hscope & Hothers).
  split; [exact Hscope | exact Hothers].
Defined.

Lemma routes_are_kept_as_given_witness :
  exists cfg,
    get tt simple_rules deployment (Some custom) = Returns cfg /\
    login (routes cfg) = IsFalse /\
    callback (routes cfg) = "/auth/callback" /\
    postLogoutRedirect (routes cfg) = "/bye".
Proof.
  destruct (get tt simple_rules deployment (Some custom)) as [cfg|e] eqn:Hget;
    [|vm_compute in Hget; discriminate].
  exists cfg. split; [reflexivity|].
  destruct (routes_are_kept_as_given tt simple_rules deployment
              (Some custom) cfg Hget)
    as (Hlogin & _ & Hcallback & Hplr & _).
  split; [apply (Hlogin IsFalse); reflexivity|].
  split; [apply (Hcallback "/auth/callback"); reflexivity|].
  apply (Hplr "/bye"); reflexivity.
Defined.

Lemma switches_have_their_defaults_witness :
  exists cfg,
    get tt simple_rules deployment (Some custom) = Returns cfg /\
    auth0Logout cfg = true /\
    idpLogout cfg = true /\
    enableTelemetry cfg = false /\
    authRequired cfg = true.
Proof.
  destruct (get tt simple_rules deployment (Some custom)) as [cfg|e] eqn:Hget;
    [|vm_compute in Hget; discriminate].
  exists cfg. split; [reflexivity|].
  destruct (switches_have_their_defaults tt simple_rules deployment
              (Some custom) cfg Hget)
    as (H1 & H2 & H3 & _ & _ & _ & H7 & _).
  rewrite H2, H1. split; [reflexivity|]. split; [reflexivity|].
  split; [exact H3 | exact H7].
Defined.

Lemma session_and_authorizationParams_validate_again_witness :
  exists cfg,
    get tt simple_rules deployment (Some custom) = Returns cfg /\
    get tt simple_rules deployment
      (Some (set_session (raw_of_session (session cfg))
               (set_authorizationParams
                  (raw_of_authorizationParams (authorizationParams cfg)) custom)))
    = Returns cfg.
Proof.
  destruct (get tt simple_rules deployment (Some custom)) as [cfg|e] eqn:Hget;
    [|vm_compute in Hget; discriminate].
  exists cfg. split; [reflexivity|].
  apply (session_and_authorizationParams_validate_again tt simple_rules deployment
           (Some custom) cfg Hget).
Defined.

End ConfigCoverage.
